(** * Habit tracker: streaks, completion rate and the completion log

    A shallow embedding of the logic of [src/frontend/src/App.js]:
    [calculateStreak], [addHabit], [deleteHabit], [toggleHabitCompletion],
    [isHabitCompleted] and [getCompletionRate], together with the parts of
    JavaScript and of the [date-fns] package they rely on; then
    [getWeekDays], the buttons of the calendar view, and the numbers that
    the three views compute from the state. The storage of the state
    ([saveToStorage], [loadFromStorage]) and the markup are left out.

    Conventions of the embedding.
    - The React state of the component ([habits], [completions],
      [newHabitName], [newHabitColor]) is a record that every handler takes
      and returns; one call of a handler is one function application.
    - The clock ([new Date()], [Date.now()]) is an explicit argument [now],
      the number of milliseconds since the epoch.
    - A [Date] is that number of milliseconds; the local time zone is a fixed
      offset, taken to be UTC, so that every local day lasts [msPerDay].
      Instants are not bounded: there is no Invalid Date.
    - The key of a day is what [format (date, 'yyyy-MM-dd')] prints, with
      the year of the era: a day before year 1 has the key of a day of
      the era, so that a key belongs to two days at most, and to one
      among the days from 0001-01-01 on ([year_one]).
    - A JavaScript string is a [string]: a sequence of code units below 256.
    - A JavaScript number that holds a count or a time value is a [Z]; the
      quotient and the product of [getCompletionRate] are IEEE 754 binary64
      values, computed with the Standard Library's [SpecFloat].
    - The [while (true)] loop of [calculateStreak] runs on fuel, one unit
      per turn; that it returns is proved, with the number of turns it
      takes.

    The invariant of the completion log, at most one record per habit and
    day, holds in every state that the handlers produce from the initial
    one, with any arguments and any readings of the clock ([reachable]);
    the invariant that every record belongs to a habit of the list holds
    in every state that the component reaches, where the handlers are
    called for listed habits only ([ui_reachable]). A theorem that needs
    one of them takes it as a hypothesis. *)

From Stdlib Require Import ZArith List FinFun String Ascii Bool Lia.
From Stdlib Require Import Floats.SpecFloat.
From Stdlib Require Import DecimalString Decimal DecimalZ DecimalPos.
Import ListNotations.

Open Scope Z_scope.

(* ================================================================== *)
(** * JavaScript values and built-ins *)
(* ================================================================== *)

Module JS.

(** The values that [isHabitCompleted] can return: the result of
    [completion && completion.completed]. *)
Inductive value : Type :=
  | Undefined : value
  | Bool : bool -> value.

(** [ToBoolean], the test an [if], a [?:] or [Array.prototype.filter]
    applies to a value. *)
Definition ToBoolean (v : value) : bool :=
  match v with
  | Undefined => false
  | Bool b => b
  end.

(** A non-empty string is truthy. *)
Definition truthy_string (s : string) : bool :=
  match s with
  | EmptyString => false
  | String _ _ => true
  end.

(** ECMAScript WhiteSpace and LineTerminator code units below 256:
    TAB, LF, VT, FF, CR, SP and NBSP. *)
Definition isWhiteSpace (c : ascii) : bool :=
  match N_of_ascii c with
  | 9%N | 10%N | 11%N | 12%N | 13%N | 32%N | 160%N => true
  | _ => false
  end.

Fixpoint trimStart (s : string) : string :=
  match s with
  | EmptyString => EmptyString
  | String c s' => if isWhiteSpace c then trimStart s' else s
  end.

Fixpoint trimEnd (s : string) : string :=
  match s with
  | EmptyString => EmptyString
  | String c s' =>
      match trimEnd s' with
      | EmptyString => if isWhiteSpace c then EmptyString else String c EmptyString
      | t => String c t
      end
  end.

(** [String.prototype.trim]. *)
Definition trim (s : string) : string := trimEnd (trimStart s).

(** [Number.prototype.toString] on an integer: its decimal digits, with a
    leading minus sign when it is negative. *)
Definition Number_toString (n : Z) : string :=
  NilZero.string_of_int (Z.to_int n).

(** ** Numbers: IEEE 754 binary64 *)

Definition Number : Type := spec_float.

Definition prec : Z := 53.
Definition emax : Z := 1024.

(** The number denoted by an integer (exact below 2^53). *)
Definition Number_of_Z (n : Z) : Number := binary_normalize prec emax n 0 false.

Definition div (x y : Number) : Number := SFdiv prec emax x y.
Definition mul (x y : Number) : Number := SFmul prec emax x y.

(** [Math.round]: the integer nearest to [x], ties towards +infinity, that
    is [floor (x + 1/2)] computed exactly; zeros, infinities and NaN are
    returned unchanged, and a zero result keeps the sign of [x]. *)
Definition Math_round (x : Number) : Number :=
  match x with
  | S754_finite s m e =>
      let v := if s then Z.neg m else Z.pos m in
      let n := if 0 <=? e then v * 2 ^ e
               else (v + 2 ^ (- e - 1)) / 2 ^ (- e) in
      binary_normalize prec emax n 0 s
  | _ => x
  end.

(** [Math.max] on two integers. *)
Definition Math_max (a b : Z) : Z := Z.max a b.

End JS.

(* ================================================================== *)
(** * The functions imported from date-fns *)
(* ================================================================== *)

(** The package is not part of the repository; its functions follow its
    documentation, for a local time zone at a fixed offset. *)
Module DateFns.

Definition msPerDay : Z := 86400000.

(** The local calendar day of an instant, counted from 1970-01-01. *)
Definition localDay (date : Z) : Z := date / msPerDay.

Definition startOfDay (date : Z) : Z := date - date mod msPerDay.

Definition subDays (date amount : Z) : Z := date - amount * msPerDay.

(** [isToday date]: [date] and the clock lie on the same calendar day. *)
Definition isToday (now date : Z) : bool :=
  startOfDay date =? startOfDay now.

(** [differenceInDays left right]: the number of full days between the two
    instants, truncated towards zero. *)
Definition differenceInDays (dateLeft dateRight : Z) : Z :=
  Z.quot (dateLeft - dateRight) msPerDay.

(** ** The proleptic Gregorian calendar *)

(** Year, month and day of month of a day counted from 1970-01-01. *)
Definition civil_from_days (z : Z) : Z * Z * Z :=
  let z := z + 719468 in
  let era := z / 146097 in
  let doe := z mod 146097 in
  let yoe := (doe - doe / 1460 + doe / 36524 - doe / 146096) / 365 in
  let doy := doe - (365 * yoe + yoe / 4 - yoe / 100) in
  let mp := (5 * doy + 2) / 153 in
  let d := doy - (153 * mp + 2) / 5 + 1 in
  let m := if mp <? 10 then mp + 3 else mp - 9 in
  let y := yoe + era * 400 in
  (if m <=? 2 then y + 1 else y, m, d).

(** The inverse direction, used to show that distinct days have distinct
    keys. *)
Definition days_from_civil (y m d : Z) : Z :=
  let y := if m <=? 2 then y - 1 else y in
  let era := y / 400 in
  let yoe := y mod 400 in
  let mp := if 2 <? m then m - 3 else m + 9 in
  let doy := (153 * mp + 2) / 5 + d - 1 in
  let doe := yoe * 365 + yoe / 4 - yoe / 100 + doy in
  era * 146097 + doe - 719468.

Definition digit (n : Z) : ascii := ascii_of_N (48 + Z.to_N n).

(** Token [MM] or [dd]: two digits. *)
Definition two_digits (n : Z) : string :=
  String (digit (n / 10)) (String (digit (n mod 10)) EmptyString).

(** Four decimal digits. *)
Definition four_digits (y : Z) : string :=
  String (digit (y / 1000))
    (String (digit (y / 100 mod 10))
       (String (digit (y / 10 mod 10))
          (String (digit (y mod 10)) EmptyString))).

(** [addLeadingZeros (number, 4)]: the decimal digits of the absolute
    value, padded with zeros to four digits, after a minus sign for a
    negative number. *)
Definition addLeadingZeros4 (number : Z) : string :=
  let output :=
    if Z.abs number <=? 9999 then four_digits (Z.abs number)
    else NilZero.string_of_int (Z.to_int (Z.abs number)) in
  if number <? 0 then ("-" ++ output)%string else output.

(** The year of the era: [signedYear > 0 ? signedYear : 1 - signedYear].
    Year 0 of the calendar is year 1 before the era, year -1 is year 2
    before it. *)
Definition era_year (signedYear : Z) : Z :=
  if 0 <? signedYear then signedYear else 1 - signedYear.

(** Token [yyyy]: the year of the era with at least four digits. The
    years [y] and [1 - y] have the same text, so that a day before year 1
    has the key of a day from year 1 on. *)
Definition year_text (y : Z) : string := addLeadingZeros4 (era_year y).

(** The key of a calendar day, ['yyyy-MM-dd']. *)
Definition format_day (day : Z) : string :=
  let '(y, m, d) := civil_from_days day in
  (year_text y ++ "-" ++ two_digits m ++ "-" ++ two_digits d)%string.

(** [format date 'yyyy-MM-dd']. *)
Definition format (date : Z) : string := format_day (localDay date).

(** Reading a number back from its text; the left inverse of
    [addLeadingZeros4] on the years of the era. *)
Definition year_parse (s : string) : option Z :=
  option_map Z.of_int (NilZero.int_of_string s).

(** The calendar year of a day. *)
Definition year_of_day (day : Z) : Z :=
  let '(y, _, _) := civil_from_days day in y.

(** The day 0001-01-01, the first one of the era. *)
Definition year_one : Z := -719162.

End DateFns.

(* ================================================================== *)
(** * The data model *)
(* ================================================================== *)

(** [{id, name, color, createdAt}]. [createdAt] is stored as the ISO text
    of an instant and read back with [new Date]; the record keeps the
    instant itself. *)
Module Habit.

Record t : Type := mk {
  id : string;
  name : string;
  color : string;
  createdAt : Z
}.

End Habit.

(** [{id, habitId, date, completed}]. *)
Module Completion.

Record t : Type := mk {
  id : string;
  habitId : string;
  date : string;
  completed : bool
}.

(** [{ ...c, completed: !c.completed }]. *)
Definition flip (c : t) : t :=
  mk (id c) (habitId c) (date c) (negb (completed c)).

(** The composite key of the completion log. *)
Definition key (c : t) : string * string := (habitId c, date c).

End Completion.

(** The state of the component that the handlers read and set. *)
Record AppState : Type := mkState {
  habits : list Habit.t;
  completions : list Completion.t;
  newHabitName : string;
  newHabitColor : string
}.

(** [useState] initial values. *)
Definition initialState : AppState :=
  mkState [] [] "" "#3B82F6".

(* ================================================================== *)
(** * The functions of App.js *)
(* ================================================================== *)

(** [c => c.habitId === habitId && c.date === dateKey]. *)
Definition matches (habitId dateKey : string) (c : Completion.t) : bool :=
  (Completion.habitId c =? habitId)%string && (Completion.date c =? dateKey)%string.

(** [completion && completion.completed], where [completion] is the result
    of [Array.prototype.find]: [undefined] or a record (an object, truthy). *)
Definition and_completed (completion : option Completion.t) : JS.value :=
  match completion with
  | None => JS.Undefined
  | Some c => JS.Bool (Completion.completed c)
  end.

(** ** calculateStreak *)

(** The outcome of one turn of the [while (true)] loop. *)
Inductive turn : Type :=
  | Continue (streak : nat) (currentDate : Z)
  | Break (streak : nat).

(** The body of the loop. *)
Definition streak_body (now : Z) (habit : Habit.t)
    (completions : list Completion.t) (streak : nat) (currentDate : Z) : turn :=
  let dateKey := DateFns.format currentDate in
  let completion := find (matches (Habit.id habit) dateKey) completions in
  if JS.ToBoolean (and_completed completion) then
    Continue (S streak) (DateFns.subDays currentDate 1)
  else if (streak =? 0)%nat && DateFns.isToday now currentDate then
    Continue streak (DateFns.subDays currentDate 1)
  else
    Break streak.

(** The loop, run for at most [fuel] turns; [None] when the fuel runs out
    before the [break]. *)
Fixpoint streak_loop (fuel : nat) (now : Z) (habit : Habit.t)
    (completions : list Completion.t) (streak : nat) (currentDate : Z)
    : option nat :=
  match fuel with
  | O => None
  | S fuel' =>
      match streak_body now habit completions streak currentDate with
      | Continue streak' currentDate' =>
          streak_loop fuel' now habit completions streak' currentDate'
      | Break streak' => Some streak'
      end
  end.

Definition calculateStreak (fuel : nat) (now : Z) (habit : Habit.t)
    (completions : list Completion.t) : option nat :=
  let today := DateFns.startOfDay now in
  streak_loop fuel now habit completions 0%nat today.

(** ** addHabit *)

Definition addHabit (now : Z) (s : AppState) : AppState :=
  if JS.truthy_string (JS.trim (newHabitName s)) then
    let newHabit :=
      Habit.mk (JS.Number_toString now) (JS.trim (newHabitName s))
               (newHabitColor s) now in
    mkState (habits s ++ [newHabit]) (completions s) "" (newHabitColor s)
  else s.

(** ** deleteHabit *)

Definition deleteHabit (habitId : string) (s : AppState) : AppState :=
  mkState
    (filter (fun h => negb (Habit.id h =? habitId)%string) (habits s))
    (filter (fun c => negb (Completion.habitId c =? habitId)%string)
            (completions s))
    (newHabitName s) (newHabitColor s).

(** ** toggleHabitCompletion *)

(** [c => c.habitId === habitId && c.date === dateKey
         ? { ...c, completed: !c.completed } : c]. *)
Definition flip_matching (habitId dateKey : string) (c : Completion.t)
    : Completion.t :=
  if matches habitId dateKey c then Completion.flip c else c.

(** [date] is [None] when the caller leaves the argument out: the default
    [new Date()] is then the clock. *)
Definition toggleHabitCompletion (now : Z) (habitId : string)
    (date : option Z) (s : AppState) : AppState :=
  let date := match date with Some d => d | None => now end in
  let dateKey := DateFns.format (DateFns.startOfDay date) in
  let existingCompletion := find (matches habitId dateKey) (completions s) in
  match existingCompletion with
  | Some _ =>
      mkState (habits s)
        (map (flip_matching habitId dateKey) (completions s))
        (newHabitName s) (newHabitColor s)
  | None =>
      mkState (habits s)
        (completions s ++
           [Completion.mk (JS.Number_toString now) habitId dateKey true])
        (newHabitName s) (newHabitColor s)
  end.

(** ** isHabitCompleted *)

Definition isHabitCompleted (s : AppState) (habitId : string) (date : Z)
    : JS.value :=
  let dateKey := DateFns.format (DateFns.startOfDay date) in
  let completion := find (matches habitId dateKey) (completions s) in
  and_completed completion.

(** ** getCompletionRate *)

Definition getCompletionRate (now : Z) (s : AppState) (habit : Habit.t)
    : JS.Number :=
  let daysElapsed :=
    JS.Math_max 1 (DateFns.differenceInDays now (Habit.createdAt habit) + 1) in
  let completedDays :=
    Z.of_nat (List.length
      (filter (fun c => (Completion.habitId c =? Habit.id habit)%string
                        && Completion.completed c)
              (completions s))) in
  JS.Math_round
    (JS.mul (JS.div (JS.Number_of_Z completedDays) (JS.Number_of_Z daysElapsed))
            (JS.Number_of_Z 100)).

(* ================================================================== *)
(** * The vocabulary of the specification *)
(* ================================================================== *)

(** The invariant of the completion log: at most one record per
    (habitId, date) pair. *)
Definition unique_keys (cs : list Completion.t) : Prop :=
  NoDup (map Completion.key cs).

(** The log holds a record of the habit for that calendar day with
    [completed = true]. *)
Definition completedOn (cs : list Completion.t) (habitId : string) (day : Z)
    : Prop :=
  exists c, In c cs /\ Completion.habitId c = habitId
            /\ Completion.date c = DateFns.format_day day
            /\ Completion.completed c = true.

(** What the loop of [calculateStreak] tests for a day. *)
Definition marked (cs : list Completion.t) (habitId : string) (day : Z) : bool :=
  JS.ToBoolean (and_completed (find (matches habitId (DateFns.format_day day)) cs)).

(** [n] consecutive days ending at [last] satisfy [P], and the day before
    them does not. *)
Definition consecutive_run (P : Z -> Prop) (last : Z) (n : nat) : Prop :=
  (forall i, 0 <= i < Z.of_nat n -> P (last - i)) /\ ~ P (last - Z.of_nat n).

(** The streak as the specification words it: the run of completed days
    that ends today or, when today is not completed, yesterday. *)
Definition streak_spec (P : Z -> Prop) (today : Z) (n : nat) : Prop :=
  (P today /\ consecutive_run P today n)
  \/ (~ P today /\ consecutive_run P (today - 1) n).

(** Every day that the walk of [calculateStreak] can reach on a log of
    that many records lies in year 1 or later: today lies more days after
    0001-01-01 than the log has records. There distinct days have
    distinct keys. *)
Definition since_year_one (now : Z) (records : nat) : Prop :=
  DateFns.year_one + Z.of_nat records + 1 <= DateFns.localDay now.

(** The day lies in year 1 or later. *)
Definition in_era (day : Z) : bool := 0 <? DateFns.year_of_day day.

(** What a reader of [isHabitCompleted] can tell through a condition. *)
Definition observed (s : AppState) (habitId : string) (date : Z) : bool :=
  JS.ToBoolean (isHabitCompleted s habitId date).

(** [completionsFor] in the specification's words: the records of a habit.
    App.js has no such function; it filters the log in place. *)
Definition spec_completionsFor (habitId : string) (cs : list Completion.t)
    : list Completion.t :=
  filter (fun c => (Completion.habitId c =? habitId)%string) cs.

(** [daysBetweenInclusive] in the specification's words. *)
Definition spec_daysBetweenInclusive (start finish : Z) : Z :=
  DateFns.differenceInDays finish start + 1.

(** The number of records of the habit with [completed = true], counted
    over the whole log. *)
Fixpoint spec_completedDays (habitId : string) (cs : list Completion.t) : Z :=
  match cs with
  | [] => 0
  | c :: cs' =>
      (if (Completion.habitId c =? habitId)%string then
         if Completion.completed c then 1 else 0
       else 0) + spec_completedDays habitId cs'
  end.

(** [round (100 * completedDays / daysElapsed)] on the exact quotient,
    ties upwards as [Math.round] has them. *)
Definition spec_round_percent (completedDays daysElapsed : Z) : Z :=
  (200 * completedDays + daysElapsed) / (2 * daysElapsed).

(** The same with ties to the even neighbour. *)
Definition spec_round_percent_even (completedDays daysElapsed : Z) : Z :=
  let q := (100 * completedDays) / daysElapsed in
  let r := (100 * completedDays) mod daysElapsed in
  if 2 * r <? daysElapsed then q
  else if daysElapsed <? 2 * r then q + 1
  else if Z.even q then q else q + 1.

Definition spec_completionRate (now : Z) (cs : list Completion.t)
    (habit : Habit.t) : Z :=
  let daysElapsed :=
    Z.max 1 (spec_daysBetweenInclusive (Habit.createdAt habit) now) in
  spec_round_percent (spec_completedDays (Habit.id habit) cs) daysElapsed.

(** The states the handlers can produce from the initial one. *)
Inductive reachable : AppState -> Prop :=
  | reach_init : reachable initialState
  | reach_type (s : AppState) (text : string) :
      reachable s ->
      reachable (mkState (habits s) (completions s) text (newHabitColor s))
  | reach_pick (s : AppState) (c : string) :
      reachable s ->
      reachable (mkState (habits s) (completions s) (newHabitName s) c)
  | reach_add (s : AppState) (now : Z) :
      reachable s -> reachable (addHabit now s)
  | reach_delete (s : AppState) (habitId : string) :
      reachable s -> reachable (deleteHabit habitId s)
  | reach_toggle (s : AppState) (now : Z) (habitId : string) (date : option Z) :
      reachable s -> reachable (toggleHabitCompletion now habitId date s).

(** ** Bounded checks *)

(** [P] holds of the [n] integers from [z] on. *)
Fixpoint all_from (P : Z -> bool) (n : nat) (z : Z) : bool :=
  match n with
  | O => true
  | S k => P z && all_from P k (z + 1)
  end.

(** Reading back the four digits of [y] gives [y]. *)
Definition four_digits_ok (y : Z) : bool :=
  match DateFns.year_parse (DateFns.four_digits y) with
  | Some y' => y' =? y
  | None => false
  end.

(** Two logs hold the same records of a habit: the same records in the
    same order or, for logs with unique keys, the same records in any
    order. *)
Definition same_records_of (habitId : string) (cs1 cs2 : list Completion.t)
    : Prop :=
  spec_completionsFor habitId cs1 = spec_completionsFor habitId cs2
  \/ (unique_keys cs1 /\ unique_keys cs2
      /\ forall c, Completion.habitId c = habitId -> (In c cs1 <-> In c cs2)).

(** The invariant as a test. *)
Definition same_key (c c' : Completion.t) : bool :=
  (Completion.habitId c =? Completion.habitId c')%string
  && (Completion.date c =? Completion.date c')%string.

Fixpoint unique_keysb (cs : list Completion.t) : bool :=
  match cs with
  | [] => true
  | c :: cs' => negb (existsb (same_key c) cs') && unique_keysb cs'
  end.

(** The records of a log that do not belong to a (habitId, date) pair. *)
Definition others (habitId dateKey : string) (cs : list Completion.t)
    : list Completion.t :=
  filter (fun c => negb (matches habitId dateKey c)) cs.

(** The date and the day that a call of [toggleHabitCompletion]
    addresses. *)
Definition toggled_date (now : Z) (date : option Z) : Z :=
  match date with Some d => d | None => now end.

Definition toggled_day (now : Z) (date : option Z) : Z :=
  DateFns.localDay (toggled_date now date).

(** The log holds a record for the pair. *)
Definition has_record (cs : list Completion.t) (habitId dateKey : string)
    : Prop :=
  exists c, In c cs /\ Completion.habitId c = habitId
            /\ Completion.date c = dateKey.

(** [c'] is [c] with at most the [completed] field changed, and that one
    negated exactly when [c] belongs to the pair. *)
Definition toggled_record (habitId dateKey : string) (c c' : Completion.t)
    : Prop :=
  Completion.id c' = Completion.id c
  /\ Completion.habitId c' = Completion.habitId c
  /\ Completion.date c' = Completion.date c
  /\ Completion.completed c' =
       if matches habitId dateKey c then negb (Completion.completed c)
       else Completion.completed c.

(** ** Doubles *)

(** The rate for given counts, as [getCompletionRate] computes it. *)
Definition rate_of (completedDays daysElapsed : Z) : JS.Number :=
  JS.Math_round
    (JS.mul (JS.div (JS.Number_of_Z completedDays) (JS.Number_of_Z daysElapsed))
            (JS.Number_of_Z 100)).

(** [100 * completedDays / daysElapsed] lies halfway between two
    integers. *)
Definition halfway (completedDays daysElapsed : Z) : bool :=
  (200 * completedDays) mod (2 * daysElapsed) =? daysElapsed.

(** The quotient [num / den] lies at [m] ([loc_Exact]) or between [m] and
    [m + 1], below, at or above the middle. *)
Definition inbetween (num den m : Z) (l : location) : Prop :=
  match l with
  | loc_Exact => num = m * den
  | loc_Inexact c =>
      m * den < num < (m + 1) * den /\ (2 * (num - m * den) ?= den) = c
  end.

(** A positive double with a mantissa of 53 bits. *)
Definition normal (x : JS.Number) (m : positive) (e : Z) : Prop :=
  x = S754_finite false m e /\ 2 ^ 52 <= Z.pos m < 2 ^ 53.

(** A string of white space only. *)
Fixpoint blank (s : string) : bool :=
  match s with
  | EmptyString => true
  | String c s' => JS.isWhiteSpace c && blank s'
  end.

(** ** Sample data *)

Module Sample.

(** 2024-03-02, 09:00. *)
Definition now : Z := 19784 * DateFns.msPerDay + 9 * 3600000.

Definition run : Habit.t :=
  Habit.mk "1708992000000" "Run" "#3B82F6" (19780 * DateFns.msPerDay).

Definition read : Habit.t :=
  Habit.mk "1708992000555" "Read" "#EF4444" (19780 * DateFns.msPerDay + 555).

Definition done (id habitId date : string) : Completion.t :=
  Completion.mk id habitId date true.

(** [run] completed on the five days up to today. *)
Definition five_days : list Completion.t :=
  [ done "1" "1708992000000" "2024-02-27";
    done "2" "1708992000000" "2024-02-28";
    done "3" "1708992000000" "2024-02-29";
    done "4" "1708992000000" "2024-03-01";
    done "5" "1708992000000" "2024-03-02" ].

(** [run] completed on the four days up to yesterday, not yet today. *)
Definition four_days : list Completion.t :=
  [ done "1" "1708992000000" "2024-02-27";
    done "2" "1708992000000" "2024-02-28";
    done "3" "1708992000000" "2024-02-29";
    done "4" "1708992000000" "2024-03-01" ].

(** [run] completed today and two days ago. *)
Definition with_gap : list Completion.t :=
  [ done "3" "1708992000000" "2024-02-29";
    done "5" "1708992000000" "2024-03-02" ].

(** The five days of [run] among records of [read]. *)
Definition five_days_mixed : list Completion.t :=
  [ done "6" "1708992000555" "2024-03-02";
    done "1" "1708992000000" "2024-02-27";
    done "2" "1708992000000" "2024-02-28";
    Completion.mk "7" "1708992000555" "2024-03-01" false;
    done "3" "1708992000000" "2024-02-29";
    done "4" "1708992000000" "2024-03-01";
    done "5" "1708992000000" "2024-03-02" ].

(** Today has two records, the first one not completed. *)
Definition doubled : list Completion.t :=
  [ Completion.mk "8" "1708992000000" "2024-03-02" false;
    done "5" "1708992000000" "2024-03-02" ].

Definition state (cs : list Completion.t) : AppState :=
  mkState [run; read] cs "" "#3B82F6".

(** [n] completed records of a habit on the days from [first] on. *)
Fixpoint records (habitId : string) (first : Z) (n : nat)
    : list Completion.t :=
  match n with
  | O => []
  | S k =>
      Completion.mk (JS.Number_toString first) habitId
                    (DateFns.format_day first) true
      :: records habitId (first + 1) k
  end.

(** A habit created 39 days and one hour before [now]: day 40 of its
    life; and 23 completed days. *)
Definition walk : Habit.t :=
  Habit.mk "1705996800000" "Walk" "#10B981"
           (19745 * DateFns.msPerDay + 8 * 3600000).

Definition walk_state : AppState :=
  mkState [walk] (records "1705996800000" 19750 23) "" "#3B82F6".

(** A record left by a toggle for an id that no habit carries. *)
Definition ghost_state : AppState :=
  toggleHabitCompletion now "ghost" None initialState.

(** Two habits added at the same reading of the clock. *)
Definition first_added : AppState :=
  addHabit 1708992000000 (mkState [] [] "Run" "#3B82F6").

Definition second_added : AppState :=
  addHabit 1708992000000
    (mkState (habits first_added) (completions first_added)
             "  Read " "#EF4444").

End Sample.

(* ================================================================== *)
(** * The views, the week of the calendar and the form *)
(* ================================================================== *)

(** ** date-fns: the functions of the calendar view *)

(** These follow the code of the package, on the same fixed-offset local
    time as above. *)
Module DateFnsWeek.
Import DateFns.

Definition addDays (date amount : Z) : Z := date + amount * msPerDay.

(** [Date.prototype.getDay]: 0 for Sunday up to 6 for Saturday.
    1970-01-01 was a Thursday. *)
Definition getDay (date : Z) : Z := (localDay date + 4) mod 7.

(** [setHours(23, 59, 59, 999)]. *)
Definition endOfDay (date : Z) : Z := startOfDay date + (msPerDay - 1).

(** [startOfWeek date {weekStartsOn}]:
    [diff = (day < weekStartsOn ? 7 : 0) + day - weekStartsOn], then
    [setDate (getDate () - diff)] and [setHours (0, 0, 0, 0)]. *)
Definition startOfWeek (weekStartsOn date : Z) : Z :=
  let day := getDay date in
  let diff := (if day <? weekStartsOn then 7 else 0) + day - weekStartsOn in
  startOfDay (subDays date diff).

(** [endOfWeek date {weekStartsOn}]:
    [diff = (day < weekStartsOn ? -7 : 0) + 6 - (day - weekStartsOn)], then
    [setDate (getDate () + diff)] and [setHours (23, 59, 59, 999)]. *)
Definition endOfWeek (weekStartsOn date : Z) : Z :=
  let day := getDay date in
  let diff := (if day <? weekStartsOn then -7 else 0) + 6 - (day - weekStartsOn) in
  endOfDay (addDays date diff).

(** The loop of [eachDayOfInterval]:
    [while (currentDate.getTime () <= endTime)
       { dates.push (toDate (currentDate));
         currentDate.setDate (currentDate.getDate () + 1);
         currentDate.setHours (0, 0, 0, 0) }],
    one unit of fuel per test of the condition. *)
Fixpoint eachDay_loop (fuel : nat) (currentDate endTime : Z)
    : option (list Z) :=
  match fuel with
  | O => None
  | S fuel' =>
      if currentDate <=? endTime then
        option_map (cons currentDate)
          (eachDay_loop fuel' (startOfDay (addDays currentDate 1)) endTime)
      else Some []
  end.

(** [eachDayOfInterval {start, end}], with the cursor first set to the
    start of the day of [start]. The result is [None] when the fuel runs
    out, and also for an interval that ends before it starts, which the
    package does not answer with the days in between (it throws a
    [RangeError] or, in later versions, counts backwards). *)
Definition eachDayOfInterval (fuel : nat) (start finish : Z)
    : option (list Z) :=
  if start <=? finish then eachDay_loop fuel (startOfDay start) finish
  else None.

End DateFnsWeek.

(** ** getWeekDays *)

(** [weekStartsOn: 1]: the week starts on Monday. *)
Definition getWeekDays (fuel : nat) (date : Z) : option (list Z) :=
  let start := DateFnsWeek.startOfWeek 1 date in
  let finish := DateFnsWeek.endOfWeek 1 date in
  DateFnsWeek.eachDayOfInterval fuel start finish.

(** The two buttons of the calendar view:
    [setSelectedWeek (subDays (selectedWeek, 7))] and
    [setSelectedWeek (addDays (selectedWeek, 7))]. *)
Definition previousWeek (selectedWeek : Z) : Z := DateFns.subDays selectedWeek 7.

Definition nextWeek (selectedWeek : Z) : Z := DateFnsWeek.addDays selectedWeek 7.

(** ** What the views compute *)

Definition colorOptions : list string :=
  [ "#3B82F6"; "#EF4444"; "#10B981"; "#F59E0B";
    "#8B5CF6"; "#EC4899"; "#06B6D4"; "#84CC16" ]%string.

(** The counter of the today view:
    [habits.filter (h => isHabitCompleted (h.id, new Date ())).length]. *)
Definition completedToday (now : Z) (s : AppState) : nat :=
  List.length
    (filter (fun h => JS.ToBoolean (isHabitCompleted s (Habit.id h) now))
            (habits s)).

(** The total of the stats view:
    [completions.filter (c => c.habitId === habit.id && c.completed).length]. *)
Definition totalCompletions (s : AppState) (habit : Habit.t) : nat :=
  List.length
    (filter (fun c => (Completion.habitId c =? Habit.id habit)%string
                      && Completion.completed c)
            (completions s)).

(** The [disabled] attribute of the Add button: [!newHabitName.trim ()]. *)
Definition addDisabled (s : AppState) : bool :=
  negb (JS.truthy_string (JS.trim (newHabitName s))).

(** ** The states of the running component *)

(** The states that the user can bring about, from the initial values
    of [useState] and with nothing loaded from the storage: the name
    field takes any text, a colour is picked among [colorOptions], and
    the buttons that delete a habit or toggle one of its days belong to a
    habit of the list. The today view toggles today ([date] left out),
    the calendar view a day of the week shown; every date is allowed
    here. *)
Inductive ui_reachable : AppState -> Prop :=
  | ui_init : ui_reachable initialState
  | ui_type (s : AppState) (text : string) :
      ui_reachable s ->
      ui_reachable (mkState (habits s) (completions s) text (newHabitColor s))
  | ui_pick (s : AppState) (color : string) :
      ui_reachable s -> In color colorOptions ->
      ui_reachable (mkState (habits s) (completions s) (newHabitName s) color)
  | ui_add (s : AppState) (now : Z) :
      ui_reachable s -> ui_reachable (addHabit now s)
  | ui_delete (s : AppState) (habit : Habit.t) :
      ui_reachable s -> In habit (habits s) ->
      ui_reachable (deleteHabit (Habit.id habit) s)
  | ui_toggle (s : AppState) (now : Z) (habit : Habit.t) (date : option Z) :
      ui_reachable s -> In habit (habits s) ->
      ui_reachable (toggleHabitCompletion now (Habit.id habit) date s).

(** Every record of the log belongs to a habit of the list. *)
Definition no_orphans (s : AppState) : Prop :=
  forall c, In c (completions s) ->
    exists h, In h (habits s) /\ Habit.id h = Completion.habitId c.

(** The completed records of a habit all lie on days from the day the
    habit was created up to today. *)
Definition within_life (now : Z) (habit : Habit.t) (cs : list Completion.t)
    : Prop :=
  forall c, In c cs -> Completion.habitId c = Habit.id habit ->
    Completion.completed c = true ->
    exists day, Completion.date c = DateFns.format_day day
                /\ DateFns.localDay (Habit.createdAt habit) <= day
                   <= DateFns.localDay now.

(** ** More sample data *)

Module Scene.

(** The state after typing a name, picking the second colour, adding the
    habit and checking it off, all on 2024-03-02. *)
Definition typed : AppState :=
  mkState [] [] "  Read " "#EF4444".

Definition added : AppState := addHabit 1709370000000 typed.

Definition checked : AppState :=
  toggleHabitCompletion 1709370060000 "1709370000000" None added.

(** A habit created late on 2024-03-01 and completed on that day and on
    the next one. *)
Definition late : Habit.t :=
  Habit.mk "1709334000000" "Stretch" "#10B981"
           (19783 * DateFns.msPerDay + 23 * 3600000).

(** The same habit, added at 23:00, checked off half an hour later and
    again at 01:00 of the next day. *)
Definition late_state : AppState :=
  toggleHabitCompletion (19784 * DateFns.msPerDay + 3600000)
    "1709334000000" None
    (toggleHabitCompletion (19783 * DateFns.msPerDay + 23 * 3600000 + 1800000)
       "1709334000000" None
       (addHabit 1709334000000 (mkState [] [] "Stretch" "#10B981"))).

(** Two habits with records, and a third name typed. *)
Definition busy : AppState :=
  mkState [Sample.run; Sample.read] Sample.five_days_mixed "Walk" "#10B981".

End Scene.

(* ================================================================== *)
(** * Bounded checks *)
(* ================================================================== *)

Lemma all_from_spec (P : Z -> bool) (n : nat) :
  forall lo, all_from P n lo = true ->
  forall z, lo <= z < lo + Z.of_nat n -> P z = true.
Proof.
  induction n as [|k IH]; intros lo H z Hz; [lia|].
  cbn [all_from] in H. apply andb_prop in H as [H1 H2].
  destruct (Z.eq_dec z lo) as [->|Hne]; [exact H1|].
  apply (IH (lo + 1)); [exact H2|lia].
Qed.

(* ================================================================== *)
(** * The calendar: the days of a key *)
(* ================================================================== *)

Section Calendar.
Import DateFns.

Example format_epoch : format 0 = "1970-01-01"%string.
Proof. reflexivity. Qed.

Example format_leap_day :
  format (19782 * msPerDay + 3600000) = "2024-02-29"%string.
Proof. vm_compute. reflexivity. Qed.

Example format_before_epoch : format (-1) = "1969-12-31"%string.
Proof. vm_compute. reflexivity. Qed.

Lemma doe_bounds doe :
  0 <= doe < 146097 ->
  let yoe := (doe - doe / 1460 + doe / 36524 - doe / 146096) / 365 in
  let doy := doe - (365 * yoe + yoe / 4 - yoe / 100) in
  0 <= yoe <= 399 /\ 0 <= doy <= 365.
Proof.
  intros H yoe doy. subst doy yoe. Z.div_mod_to_equations. lia.
Qed.

Lemma doy_bounds doy :
  0 <= doy <= 365 ->
  let mp := (5 * doy + 2) / 153 in
  let d := doy - (153 * mp + 2) / 5 + 1 in
  0 <= mp <= 11 /\ 1 <= d <= 31.
Proof.
  intros H mp d. subst d mp. Z.div_mod_to_equations. lia.
Qed.

(** [days_from_civil] undoes [civil_from_days], and the month and the day
    of the month are in range. *)
Lemma civil_from_days_inv z :
  let '(y, m, d) := civil_from_days z in
  days_from_civil y m d = z /\ 1 <= m <= 12 /\ 1 <= d <= 31.
Proof.
  unfold civil_from_days.
  set (z' := z + 719468).
  set (era := z' / 146097). set (doe := z' mod 146097).
  assert (Hdoe : 0 <= doe < 146097) by (apply Z.mod_pos_bound; lia).
  assert (Hz : z' = 146097 * era + doe) by (apply Z.div_mod; lia).
  generalize (doe_bounds doe Hdoe).
  set (yoe := (doe - doe / 1460 + doe / 36524 - doe / 146096) / 365).
  set (doy := doe - (365 * yoe + yoe / 4 - yoe / 100)).
  cbv zeta. intros [Hyoe Hdoy].
  generalize (doy_bounds doy Hdoy).
  set (mp := (5 * doy + 2) / 153).
  set (d := doy - (153 * mp + 2) / 5 + 1).
  cbv zeta. intros [Hmp Hd].
  assert (Hera : (yoe + era * 400) / 400 = era).
  { rewrite Z.div_add by lia. rewrite Z.div_small by lia. lia. }
  assert (Hmod : (yoe + era * 400) mod 400 = yoe).
  { rewrite Z.mod_add by lia. apply Z.mod_small. lia. }
  unfold days_from_civil.
  destruct (mp <? 10) eqn:E.
  - assert (Hle : (mp + 3 <=? 2) = false) by lia. rewrite Hle.
    assert (Hlt : (2 <? mp + 3) = true) by lia. rewrite Hlt.
    rewrite Hera, Hmod. replace (mp + 3 - 3) with mp by lia.
    unfold d, doy in *. lia.
  - assert (Hle : (mp - 9 <=? 2) = true) by lia. rewrite Hle.
    assert (Hlt : (2 <? mp - 9) = false) by lia. rewrite Hlt.
    replace (yoe + era * 400 + 1 - 1) with (yoe + era * 400) by lia.
    rewrite Hera, Hmod. replace (mp - 9 + 9) with mp by lia.
    unfold d, doy in *. lia.
Qed.

Lemma civil_from_days_inj a b : civil_from_days a = civil_from_days b -> a = b.
Proof.
  intros H. generalize (civil_from_days_inv a), (civil_from_days_inv b).
  rewrite H. destruct (civil_from_days b) as [[y m] d].
  intros [Ha _] [Hb _]. congruence.
Qed.

Lemma digit_inj a b : 0 <= a <= 9 -> 0 <= b <= 9 -> digit a = digit b -> a = b.
Proof.
  intros Ha Hb H. unfold digit in H.
  apply (f_equal N_of_ascii) in H.
  rewrite !N_ascii_embedding in H by lia. lia.
Qed.

Lemma two_digits_inj a b :
  0 <= a <= 99 -> 0 <= b <= 99 -> two_digits a = two_digits b -> a = b.
Proof.
  intros Ha Hb H. unfold two_digits in H. injection H as H1 H2.
  apply digit_inj in H1; [|Z.div_mod_to_equations; lia..].
  apply digit_inj in H2; [|Z.div_mod_to_equations; lia..].
  Z.div_mod_to_equations. lia.
Qed.

Lemma year_parse_four_digits y :
  0 <= y <= 9999 -> year_parse (four_digits y) = Some y.
Proof.
  intros H.
  assert (Hok : four_digits_ok y = true).
  { apply (all_from_spec four_digits_ok (Z.to_nat 10000) 0).
    - vm_compute. reflexivity.
    - rewrite Z2Nat.id; lia. }
  unfold four_digits_ok in Hok.
  destruct (year_parse (four_digits y)) as [y'|]; [|discriminate].
  f_equal. lia.
Qed.

Lemma year_parse_padded e :
  0 <= e -> year_parse (addLeadingZeros4 e) = Some e.
Proof.
  intros He. unfold addLeadingZeros4.
  replace (e <? 0) with false by (symmetry; apply Z.ltb_ge; exact He).
  rewrite Z.abs_eq by exact He.
  destruct (e <=? 9999) eqn:E.
  - apply year_parse_four_digits. lia.
  - unfold year_parse. rewrite NilZero.isi.
    + cbn. now rewrite DecimalZ.of_to.
    + destruct e; cbn; try discriminate;
        intros [= H]; now apply Unsigned.to_uint_nonnil in H.
    + destruct e; cbn; try discriminate;
        intros [= H]; now apply Unsigned.to_uint_nonnil in H.
Qed.

Lemma era_year_positive y : 1 <= era_year y.
Proof. unfold era_year. destruct (Z.ltb_spec 0 y); lia. Qed.

(** The text of a year determines the year of the era, not the year. *)
Lemma year_text_era a b : year_text a = year_text b -> era_year a = era_year b.
Proof.
  unfold year_text. intros H.
  pose proof (era_year_positive a) as Ha.
  pose proof (era_year_positive b) as Hb.
  generalize (year_parse_padded (era_year a) ltac:(lia)).
  rewrite H, year_parse_padded by lia. congruence.
Qed.

Example year_text_before_the_era :
  year_text 0 = "0001"%string /\ year_text 1 = "0001"%string
  /\ year_text (-1) = "0002"%string /\ year_text 12024 = "12024"%string.
Proof. vm_compute. repeat split. Qed.

(** The last day before the era has the key of the last day of year 1. *)
Example format_day_shared :
  format_day (year_one - 1) = "0001-12-31"%string
  /\ format_day (year_one + 364) = "0001-12-31"%string.
Proof. vm_compute. split; reflexivity. Qed.

Lemma length_append (s t : string) :
  String.length (s ++ t) = (String.length s + String.length t)%nat.
Proof. induction s as [|c s IH]; cbn; [reflexivity|now rewrite IH]. Qed.

Lemma append_inj_suffix (s1 s2 t1 t2 : string) :
  String.length t1 = String.length t2 ->
  (s1 ++ t1 = s2 ++ t2)%string -> s1 = s2 /\ t1 = t2.
Proof.
  intros Hlen. revert s2.
  induction s1 as [|c s1 IH]; intros [|c' s2] H; cbn in H.
  - now split.
  - exfalso. apply (f_equal String.length) in H. cbn in H.
    rewrite length_append in H. lia.
  - exfalso. apply (f_equal String.length) in H. cbn in H.
    rewrite length_append in H. lia.
  - injection H as -> H. destruct (IH _ H) as [-> ->]. now split.
Qed.

(** The key determines the month, the day of the month and the year of
    the era. *)
Lemma format_day_parts a b :
  format_day a = format_day b ->
  let '(y1, m1, d1) := civil_from_days a in
  let '(y2, m2, d2) := civil_from_days b in
  era_year y1 = era_year y2 /\ m1 = m2 /\ d1 = d2.
Proof.
  unfold format_day.
  generalize (civil_from_days_inv a), (civil_from_days_inv b).
  destruct (civil_from_days a) as [[y1 m1] d1].
  destruct (civil_from_days b) as [[y2 m2] d2].
  intros (_ & Hm1 & Hd1) (_ & Hm2 & Hd2) H.
  apply append_inj_suffix in H as [Hy H]; [|reflexivity].
  apply year_text_era in Hy.
  cbn in H. injection H as H1 H2 H3 H4.
  split; [exact Hy|]. split.
  - apply two_digits_inj; [lia..|unfold two_digits; congruence].
  - apply two_digits_inj; [lia..|unfold two_digits; congruence].
Qed.

(** Among the days from year 1 on, and among the days before, the key
    determines the day. *)
Lemma format_day_inj_era a b :
  format_day a = format_day b -> in_era a = in_era b -> a = b.
Proof.
  intros H Hside. apply civil_from_days_inj.
  generalize (format_day_parts a b H).
  unfold in_era, year_of_day in Hside.
  destruct (civil_from_days a) as [[y1 m1] d1].
  destruct (civil_from_days b) as [[y2 m2] d2].
  intros (Hy & -> & ->). f_equal. f_equal.
  unfold era_year in Hy. rewrite Hside in Hy.
  destruct (0 <? y2); lia.
Qed.

(** The years of the calendar follow each other. *)
Lemma year_of_day_positive z : in_era z = true <-> year_one <= z.
Proof.
  unfold in_era, year_of_day, year_one, civil_from_days.
  rewrite Z.ltb_lt.
  set (z' := z + 719468).
  set (era := z' / 146097). set (doe := z' mod 146097).
  assert (Hdoe : 0 <= doe < 146097) by (apply Z.mod_pos_bound; lia).
  assert (Hz : z' = 146097 * era + doe) by (apply Z.div_mod; lia).
  generalize (doe_bounds doe Hdoe).
  set (yoe := (doe - doe / 1460 + doe / 36524 - doe / 146096) / 365).
  set (doy := doe - (365 * yoe + yoe / 4 - yoe / 100)).
  cbv zeta. intros [Hyoe Hdoy].
  generalize (doy_bounds doy Hdoy).
  set (mp := (5 * doy + 2) / 153).
  cbv zeta. intros [Hmp _].
  assert (Hy0 : yoe = 0 <-> doe <= 364).
  { unfold yoe. clear - Hdoe. Z.div_mod_to_equations. lia. }
  assert (Hmp0 : yoe = 0 -> (10 <= mp <-> 306 <= doe)).
  { intros E. unfold mp, doy. rewrite E. clear - Hdoe.
    Z.div_mod_to_equations. lia. }
  assert (Hz' : z = z' - 719468) by (unfold z'; lia).
  clearbody z' era doe yoe doy mp.
  destruct (mp <? 10) eqn:E1.
  - destruct (mp + 3 <=? 2) eqn:E2; [lia|]. lia.
  - destruct (mp - 9 <=? 2) eqn:E2; [|lia]. lia.
Qed.

Lemma in_era_iff a b :
  year_one <= a -> year_one <= b -> in_era a = in_era b.
Proof.
  intros Ha Hb. apply year_of_day_positive in Ha, Hb. congruence.
Qed.

(** From year 1 on the key determines the day. *)
Lemma format_day_inj a b :
  year_one <= a -> year_one <= b -> format_day a = format_day b -> a = b.
Proof.
  intros Ha Hb H. apply format_day_inj_era; [exact H|now apply in_era_iff].
Qed.

(** The same day of the year, a year later, comes at least 365 days
    later. *)
Lemma days_from_civil_next_year y m d :
  days_from_civil y m d + 365 <= days_from_civil (y + 1) m d.
Proof.
  unfold days_from_civil.
  destruct (m <=? 2); Z.div_mod_to_equations; lia.
Qed.

Lemma days_from_civil_later_year k : forall y m d,
  days_from_civil y m d + 365 * Z.of_nat (S k)
  <= days_from_civil (y + Z.of_nat (S k)) m d.
Proof.
  induction k as [|k IH]; intros y m d.
  - replace (y + Z.of_nat 1) with (y + 1) by lia.
    pose proof (days_from_civil_next_year y m d). lia.
  - pose proof (IH y m d) as H1.
    pose proof (days_from_civil_next_year (y + Z.of_nat (S k)) m d) as H2.
    replace (y + Z.of_nat (S (S k))) with (y + Z.of_nat (S k) + 1) by lia.
    lia.
Qed.

(** Two days less than a year apart with the same key are the same
    day. *)
Lemma format_day_inj_near a b :
  format_day a = format_day b -> Z.abs (a - b) < 365 -> a = b.
Proof.
  intros H Hnear. apply civil_from_days_inj.
  generalize (format_day_parts a b H).
  generalize (civil_from_days_inv a), (civil_from_days_inv b).
  destruct (civil_from_days a) as [[y1 m1] d1].
  destruct (civil_from_days b) as [[y2 m2] d2].
  intros (Ha & _) (Hb & _) (Hy & -> & ->).
  destruct (Z.lt_trichotomy y1 y2) as [Hlt|[->|Hlt]]; [|reflexivity|]; exfalso.
  - pose proof (days_from_civil_later_year (Z.to_nat (y2 - y1 - 1)) y1 m2 d2)
      as Hfar.
    replace (y1 + Z.of_nat (S (Z.to_nat (y2 - y1 - 1)))) with y2 in Hfar by lia.
    lia.
  - pose proof (days_from_civil_later_year (Z.to_nat (y1 - y2 - 1)) y2 m2 d2)
      as Hfar.
    replace (y2 + Z.of_nat (S (Z.to_nat (y1 - y2 - 1)))) with y1 in Hfar by lia.
    lia.
Qed.

(** The keys of two days agree as the days do, from year 1 on and for
    days less than a year apart. *)
Lemma format_day_eqb a b :
  (year_one <= a /\ year_one <= b) \/ Z.abs (a - b) < 365 ->
  (format_day a =? format_day b)%string = (a =? b).
Proof.
  intros Hab. destruct (Z.eqb_spec a b) as [->|Hne].
  - apply String.eqb_refl.
  - apply String.eqb_neq. intros H. apply Hne.
    destruct Hab as [[Ha Hb]|Hnear].
    + now apply format_day_inj.
    + now apply format_day_inj_near.
Qed.

(** ** Instants and days *)

Lemma startOfDay_localDay t : startOfDay t = localDay t * msPerDay.
Proof.
  unfold startOfDay, localDay, msPerDay. Z.div_mod_to_equations. lia.
Qed.

Lemma localDay_times d : localDay (d * msPerDay) = d.
Proof. unfold localDay, msPerDay. apply Z.div_mul. lia. Qed.

Lemma localDay_startOfDay t : localDay (startOfDay t) = localDay t.
Proof. rewrite startOfDay_localDay. apply localDay_times. Qed.

Lemma format_startOfDay t : format (startOfDay t) = format_day (localDay t).
Proof. unfold format. now rewrite localDay_startOfDay. Qed.

Lemma format_times d : format (d * msPerDay) = format_day d.
Proof. unfold format. now rewrite localDay_times. Qed.

Lemma subDays_times d n : subDays (d * msPerDay) n = (d - n) * msPerDay.
Proof. unfold subDays. lia. Qed.

Lemma isToday_times now d : isToday now (d * msPerDay) = (d =? localDay now).
Proof.
  unfold isToday. rewrite !startOfDay_localDay, localDay_times.
  unfold msPerDay.
  destruct (d =? localDay now) eqn:E; lia.
Qed.

End Calendar.

(* ================================================================== *)
(** * The streak walk *)
(* ================================================================== *)

Section Walk.
Import DateFns.

Variable now : Z.
Variable habit : Habit.t.
Variable cs : list Completion.t.

Local Abbreviation hid := (Habit.id habit).
Local Abbreviation today := (localDay now).
Local Abbreviation is_marked := (fun day => marked cs hid day = true).

Lemma streak_loop_S fuel streak currentDate :
  streak_loop (S fuel) now habit cs streak currentDate =
    match streak_body now habit cs streak currentDate with
    | Continue streak' currentDate' =>
        streak_loop fuel now habit cs streak' currentDate'
    | Break streak' => Some streak'
    end.
Proof. reflexivity. Qed.

(** One turn of the loop, with the cursor at the start of day [d]. *)
Lemma streak_body_at_day streak d :
  streak_body now habit cs streak (d * msPerDay) =
    if marked cs hid d then Continue (S streak) ((d - 1) * msPerDay)
    else if (streak =? 0)%nat && (d =? today)
         then Continue streak ((d - 1) * msPerDay)
         else Break streak.
Proof.
  unfold streak_body, marked.
  now rewrite format_times, subDays_times, isToday_times.
Qed.

(** The walk over a run of [n] marked days that ends at [d]: [n] turns
    that count, then the turn that breaks. *)
Lemma streak_loop_run n : forall fuel streak d,
  consecutive_run is_marked d n ->
  (streak + n)%nat <> 0%nat \/ d - Z.of_nat n <> today ->
  streak_loop (S (n + fuel)) now habit cs streak (d * msPerDay)
  = Some (streak + n)%nat.
Proof.
  induction n as [|k IH]; intros fuel streak d [Hrun Hmiss] Hbreak.
  - cbn [streak_loop Nat.add]. rewrite streak_body_at_day.
    replace (d - Z.of_nat 0) with d in * by lia.
    apply not_true_is_false in Hmiss. rewrite Hmiss.
    assert (E : ((streak =? 0)%nat && (d =? today)) = false).
    { apply andb_false_iff. destruct Hbreak as [H|H].
      - left. apply Nat.eqb_neq. lia.
      - right. apply Z.eqb_neq. exact H. }
    rewrite E. f_equal. lia.
  - cbn [streak_loop Nat.add]. rewrite streak_body_at_day.
    assert (H0 : marked cs hid d = true).
    { replace d with (d - 0) by lia. apply Hrun. lia. }
    rewrite H0.
    replace (streak + S k)%nat with (S streak + k)%nat by lia.
    apply IH.
    + split.
      * intros i Hi. replace (d - 1 - i) with (d - (i + 1)) by lia.
        apply Hrun. lia.
      * replace (d - 1 - Z.of_nat k) with (d - Z.of_nat (S k)) by lia.
        exact Hmiss.
    + left. lia.
Qed.

(** With no more turns than marked days the loop has not reached its
    [break]. *)
Lemma streak_loop_short fuel : forall n streak d,
  (forall i, 0 <= i < Z.of_nat n -> marked cs hid (d - i) = true) ->
  (fuel <= n)%nat ->
  streak_loop fuel now habit cs streak (d * msPerDay) = None.
Proof.
  induction fuel as [|f IH]; intros n streak d Hrun Hle; [reflexivity|].
  destruct n as [|k]; [lia|].
  cbn [streak_loop]. rewrite streak_body_at_day.
  assert (H0 : marked cs hid d = true).
  { replace d with (d - 0) by lia. apply Hrun. lia. }
  rewrite H0. apply (IH k); [|lia].
  intros i Hi. replace (d - 1 - i) with (d - (i + 1)) by lia.
  apply Hrun. lia.
Qed.

(** A marked day has its key in the log. *)
Lemma marked_key_in d :
  marked cs hid d = true -> In (format_day d) (map Completion.date cs).
Proof.
  unfold marked. destruct (find _ cs) as [c|] eqn:E; [|discriminate].
  intros _. apply find_some in E as [Hin Hm].
  unfold matches in Hm. apply andb_prop in Hm as [_ Hd].
  apply String.eqb_eq in Hd. rewrite <- Hd. now apply in_map.
Qed.

(** Searching the first of the days [0 .. m] that fails a test. *)
Lemma first_miss (P : Z -> bool) (m : nat) :
  (exists n, (n <= m)%nat
             /\ (forall i, 0 <= i < Z.of_nat n -> P i = true)
             /\ P (Z.of_nat n) = false)
  \/ (forall i, 0 <= i <= Z.of_nat m -> P i = true).
Proof.
  induction m as [|m IH].
  - destruct (P 0) eqn:E.
    + right. intros i Hi. now replace i with 0 by lia.
    + left. exists 0%nat. repeat split; [lia| |exact E]. intros; lia.
  - destruct IH as [(n & Hn & Hrun & Hmiss)|Hall].
    + left. exists n. repeat split; [lia|exact Hrun|exact Hmiss].
    + destruct (P (Z.of_nat (S m))) eqn:E.
      * right. intros i Hi.
        destruct (Z.eq_dec i (Z.of_nat (S m))) as [->|Hne]; [exact E|].
        apply Hall. lia.
      * left. exists (S m). repeat split; [lia| |exact E].
        intros i Hi. apply Hall. lia.
Qed.

(** The days [d, d-1, ..., d-m+1] are distinct. *)
Lemma days_back_NoDup d m :
  NoDup (map (fun i => d - Z.of_nat i) (seq 0 m)).
Proof.
  apply Injective_map_NoDup_in; [|apply seq_NoDup].
  intros i j _ _ H. lia.
Qed.

(** Days on one side of the start of the era, with their keys in a
    list, are no more than the keys. *)
Lemma same_side_days_length (side : bool) (days : list Z)
    (keys : list string) :
  NoDup days ->
  (forall x, In x days -> in_era x = side) ->
  (forall x, In x days -> In (format_day x) keys) ->
  (List.length days <= List.length keys)%nat.
Proof.
  intros Hnd Hside Hin.
  assert (Hkeys : NoDup (map format_day days)).
  { apply Injective_map_NoDup_in; [|exact Hnd].
    intros a b Ha Hb H. apply format_day_inj_era; [exact H|].
    now rewrite (Hside a Ha), (Hside b Hb). }
  assert (Hincl : incl (map format_day days) keys).
  { intros k Hk. apply in_map_iff in Hk as (x & <- & Hx). now apply Hin. }
  apply NoDup_incl_length in Hincl; [|exact Hkeys].
  now rewrite length_map in Hincl.
Qed.

(** A key belongs to two days at most, one before the era and one in
    it: days with their keys in a list are no more than twice the
    keys. *)
Lemma days_length_twice (days : list Z) (keys : list string) :
  NoDup days ->
  (forall x, In x days -> In (format_day x) keys) ->
  (List.length days <= 2 * List.length keys)%nat.
Proof.
  intros Hnd Hin.
  assert (H1 : (List.length (filter in_era days) <= List.length keys)%nat).
  { apply (same_side_days_length true).
    - now apply NoDup_filter.
    - intros x Hx. now apply filter_In in Hx.
    - intros x Hx. apply Hin. now apply filter_In in Hx. }
  assert (H2 : (List.length (filter (fun x => negb (in_era x)) days)
                <= List.length keys)%nat).
  { apply (same_side_days_length false).
    - now apply NoDup_filter.
    - intros x Hx. apply filter_In in Hx as [_ Hx].
      now apply negb_true_iff in Hx.
    - intros x Hx. apply Hin. now apply filter_In in Hx. }
  pose proof (filter_length in_era days) as Hsum. lia.
Qed.

(** Every run of days that pass a test is finite when each day that
    passes has its key in a list: no longer than twice the list. *)
Lemma run_bound (P : Z -> bool) (keys : list string) d :
  (forall x, P x = true -> In (format_day x) keys) ->
  exists n, (n <= 2 * List.length keys)%nat
            /\ consecutive_run (fun x => P x = true) d n.
Proof.
  intros Hkey.
  destruct (first_miss (fun i => P (d - i)) (2 * List.length keys))
    as [(n & Hn & Hrun & Hmiss)|Hall].
  - exists n. split; [exact Hn|]. split; [exact Hrun|].
    rewrite Hmiss. discriminate.
  - exfalso.
    set (days := map (fun i => d - Z.of_nat i)
                     (seq 0 (S (2 * List.length keys)))).
    assert (Hlen : (List.length days <= 2 * List.length keys)%nat).
    { apply days_length_twice; [apply days_back_NoDup|].
      intros x Hx. apply in_map_iff in Hx as (i & <- & Hi).
      apply in_seq in Hi. apply Hkey. apply Hall. lia. }
    unfold days in Hlen. rewrite length_map, length_seq in Hlen. lia.
Qed.

(** No longer than the list when the days lie in year 1 or later. *)
Lemma run_bound_era (P : Z -> bool) (keys : list string) d :
  year_one + Z.of_nat (List.length keys) <= d ->
  (forall x, P x = true -> In (format_day x) keys) ->
  exists n, (n <= List.length keys)%nat
            /\ consecutive_run (fun x => P x = true) d n.
Proof.
  intros Hera Hkey.
  destruct (first_miss (fun i => P (d - i)) (List.length keys))
    as [(n & Hn & Hrun & Hmiss)|Hall].
  - exists n. split; [exact Hn|]. split; [exact Hrun|].
    rewrite Hmiss. discriminate.
  - exfalso.
    set (days := map (fun i => d - Z.of_nat i)
                     (seq 0 (S (List.length keys)))).
    assert (Hlen : (List.length days <= List.length keys)%nat).
    { apply (same_side_days_length true); [apply days_back_NoDup| |].
      - intros x Hx. apply in_map_iff in Hx as (i & <- & Hi).
        apply in_seq in Hi. apply year_of_day_positive. lia.
      - intros x Hx. apply in_map_iff in Hx as (i & <- & Hi).
        apply in_seq in Hi. apply Hkey. apply Hall. lia. }
    unfold days in Hlen. rewrite length_map, length_seq in Hlen. lia.
Qed.

(** Every run of marked days is finite: it is no longer than twice the
    log, and no longer than the log in year 1 and later. *)
Lemma run_exists d :
  exists n, (n <= 2 * List.length cs)%nat /\ consecutive_run is_marked d n.
Proof.
  destruct (run_bound (fun x => marked cs hid x) (map Completion.date cs) d)
    as (n & Hn & Hrun); [exact marked_key_in|].
  rewrite length_map in Hn. now exists n.
Qed.

Lemma run_exists_era d :
  year_one + Z.of_nat (List.length cs) <= d ->
  exists n, (n <= List.length cs)%nat /\ consecutive_run is_marked d n.
Proof.
  intros Hera.
  destruct (run_bound_era (fun x => marked cs hid x)
              (map Completion.date cs) d)
    as (n & Hn & Hrun);
    [now rewrite length_map|exact marked_key_in|].
  rewrite length_map in Hn. now exists n.
Qed.

(** The length of the run that ends at a day is determined. *)
Lemma consecutive_run_unique (P : Z -> Prop) d n m :
  consecutive_run P d n -> consecutive_run P d m -> n = m.
Proof.
  intros [Hn Hn'] [Hm Hm'].
  destruct (Nat.lt_trichotomy n m) as [H|[H|H]]; [|exact H|].
  - exfalso. apply Hn'. apply Hm. lia.
  - exfalso. apply Hm'. apply Hn. lia.
Qed.

(** Today is marked: the walk counts the run that ends today and takes
    [n + 1] turns. *)
Lemma calculateStreak_from_today n fuel :
  marked cs hid today = true ->
  consecutive_run is_marked today n ->
  calculateStreak (S (n + fuel)) now habit cs = Some n.
Proof.
  intros Ht Hrun. unfold calculateStreak. rewrite startOfDay_localDay.
  rewrite (streak_loop_run n fuel 0%nat today Hrun); [reflexivity|].
  left. destruct n; [|lia]. exfalso.
  destruct Hrun as [_ Hmiss]. apply Hmiss.
  now replace (today - Z.of_nat 0) with today by lia.
Qed.

(** Today is not marked: the walk passes over today, counts the run that
    ends yesterday and takes [n + 2] turns. *)
Lemma calculateStreak_from_yesterday n fuel :
  marked cs hid today = false ->
  consecutive_run is_marked (today - 1) n ->
  calculateStreak (S (S (n + fuel))) now habit cs = Some n.
Proof.
  intros Ht Hrun. unfold calculateStreak. rewrite startOfDay_localDay.
  rewrite streak_loop_S, streak_body_at_day, Ht, Z.eqb_refl.
  cbn [Nat.eqb andb].
  rewrite (streak_loop_run n fuel 0%nat (today - 1) Hrun); [reflexivity|].
  right. lia.
Qed.

End Walk.

(* ================================================================== *)
(** * The streak and the records of the log *)
(* ================================================================== *)

Lemma consecutive_run_ext (P Q : Z -> Prop) d n :
  (forall x, P x <-> Q x) -> consecutive_run P d n -> consecutive_run Q d n.
Proof.
  intros H [Hrun Hmiss]. split.
  - intros i Hi. apply H. now apply Hrun.
  - intros HQ. apply Hmiss. now apply H.
Qed.

Lemma streak_spec_ext (P Q : Z -> Prop) today n :
  (forall x, P x <-> Q x) -> streak_spec P today n -> streak_spec Q today n.
Proof.
  intros H [[Ht Hrun]|[Ht Hrun]]; [left|right]; split.
  - now apply H.
  - now apply (consecutive_run_ext P).
  - intros HQ. apply Ht. now apply H.
  - now apply (consecutive_run_ext P).
Qed.

(** The specification determines the streak. *)
Lemma streak_spec_unique (P : Z -> Prop) today n m :
  streak_spec P today n -> streak_spec P today m -> n = m.
Proof.
  intros [[Ht Hn]|[Ht Hn]] [[Ht' Hm]|[Ht' Hm]];
    try contradiction; eapply consecutive_run_unique; eassumption.
Qed.

Lemma same_key_spec c c' :
  same_key c c' = true <-> Completion.key c = Completion.key c'.
Proof.
  unfold same_key, Completion.key.
  rewrite andb_true_iff, !String.eqb_eq. split.
  - intros [-> ->]. reflexivity.
  - intros [= -> ->]. now split.
Qed.

Lemma unique_keysb_true cs : unique_keysb cs = true -> unique_keys cs.
Proof.
  unfold unique_keys. induction cs as [|c cs IH]; cbn; intros H.
  - constructor.
  - apply andb_prop in H as [H1 H2]. constructor; [|now apply IH].
    intros Hin. apply in_map_iff in Hin as (c' & Hk & Hc').
    apply negb_true_iff in H1.
    assert (E : existsb (same_key c) cs = true).
    { apply existsb_exists. exists c'. split; [exact Hc'|].
      now apply same_key_spec. }
    congruence.
Qed.

(** Two records of a log with unique keys that share a key are the same
    record. *)
Lemma unique_keys_inj cs c c' :
  unique_keys cs -> In c cs -> In c' cs ->
  Completion.key c = Completion.key c' -> c = c'.
Proof.
  unfold unique_keys. induction cs as [|x cs IH]; intros Hnd Hc Hc' Hk.
  - destruct Hc.
  - cbn in Hnd. inversion Hnd as [|? ? Hnotin Hnd']; subst.
    destruct Hc as [->|Hc], Hc' as [->|Hc'].
    + reflexivity.
    + exfalso. apply Hnotin. rewrite Hk. now apply in_map.
    + exfalso. apply Hnotin. rewrite <- Hk. now apply in_map.
    + now apply IH.
Qed.

Lemma matches_spec habitId dateKey c :
  matches habitId dateKey c = true <->
  Completion.habitId c = habitId /\ Completion.date c = dateKey.
Proof.
  unfold matches. rewrite andb_true_iff, !String.eqb_eq. reflexivity.
Qed.

(** A marked day has a completed record. *)
Lemma marked_completedOn cs habitId d :
  marked cs habitId d = true -> completedOn cs habitId d.
Proof.
  unfold marked. destruct (find _ cs) as [c|] eqn:E; [|discriminate].
  cbn. intros Hc. apply find_some in E as [Hin Hm].
  apply matches_spec in Hm as [Hh Hd]. now exists c.
Qed.

(** In a log with unique keys a day with a completed record is marked. *)
Lemma completedOn_marked cs habitId d :
  unique_keys cs -> completedOn cs habitId d -> marked cs habitId d = true.
Proof.
  intros Hu (c & Hin & Hh & Hd & Hc). unfold marked.
  destruct (find _ cs) as [c'|] eqn:E.
  - apply find_some in E as [Hin' Hm]. apply matches_spec in Hm as [Hh' Hd'].
    assert (c' = c).
    { apply (unique_keys_inj cs); try assumption.
      unfold Completion.key. congruence. }
    subst c'. exact Hc.
  - exfalso. apply (find_none _ _ E) in Hin.
    assert (Hm : matches habitId (DateFns.format_day d) c = true)
      by now apply matches_spec.
    congruence.
Qed.

Lemma marked_iff_completedOn cs habitId :
  unique_keys cs ->
  forall d, marked cs habitId d = true <-> completedOn cs habitId d.
Proof.
  intros Hu d. split; [apply marked_completedOn|now apply completedOn_marked].
Qed.

(** The walk on any log, in terms of the test the loop makes. *)
Lemma calculateStreak_marked now habit cs :
  exists n turns,
    (n <= 2 * List.length cs)%nat
    /\ (since_year_one now (List.length cs) -> (n <= List.length cs)%nat)
    /\ (turns = n + 1 \/ turns = n + 2)%nat
    /\ streak_spec (fun d => marked cs (Habit.id habit) d = true)
                   (DateFns.localDay now) n
    /\ (forall fuel, (turns <= fuel)%nat ->
          calculateStreak fuel now habit cs = Some n)
    /\ (forall fuel, (fuel < turns)%nat ->
          calculateStreak fuel now habit cs = None).
Proof.
  destruct (marked cs (Habit.id habit) (DateFns.localDay now)) eqn:Ht.
  - destruct (run_exists habit cs (DateFns.localDay now)) as (n & Hn & Hrun).
    exists n, (n + 1)%nat.
    split; [exact Hn|]. split; [|split; [left; reflexivity|split; [|split]]].
    + intros Hera. unfold since_year_one in Hera.
      destruct (run_exists_era habit cs (DateFns.localDay now) ltac:(lia))
        as (m & Hm & Hrun').
      now rewrite (consecutive_run_unique _ _ _ _ Hrun Hrun').
    + left. split; assumption.
    + intros fuel Hf. replace fuel with (S (n + (fuel - n - 1)))%nat by lia.
      now apply calculateStreak_from_today.
    + intros fuel Hf. unfold calculateStreak.
      rewrite startOfDay_localDay.
      apply (streak_loop_short now habit cs fuel n); [apply Hrun|lia].
  - destruct (run_exists habit cs (DateFns.localDay now - 1)) as (n & Hn & Hrun).
    exists n, (n + 2)%nat.
    split; [exact Hn|]. split; [|split; [right; reflexivity|split; [|split]]].
    + intros Hera. unfold since_year_one in Hera.
      destruct (run_exists_era habit cs (DateFns.localDay now - 1) ltac:(lia))
        as (m & Hm & Hrun').
      now rewrite (consecutive_run_unique _ _ _ _ Hrun Hrun').
    + right. split; [congruence|assumption].
    + intros fuel Hf. replace fuel with (S (S (n + (fuel - n - 2))))%nat by lia.
      now apply calculateStreak_from_yesterday.
    + intros fuel Hf. unfold calculateStreak.
      rewrite startOfDay_localDay.
      destruct fuel as [|f]; [reflexivity|].
      rewrite streak_loop_S, streak_body_at_day, Ht, Z.eqb_refl.
      cbn [Nat.eqb andb].
      apply (streak_loop_short now habit cs f n); [apply Hrun|lia].
Qed.

(** [find] for a habit only looks at the records of that habit. *)
Lemma find_matches_filter habitId dateKey cs :
  find (matches habitId dateKey) (spec_completionsFor habitId cs)
  = find (matches habitId dateKey) cs.
Proof.
  induction cs as [|c cs IH]; [reflexivity|].
  cbn. unfold matches at 2.
  destruct (Completion.habitId c =? habitId)%string eqn:E; cbn.
  - unfold matches at 1. rewrite E. cbn.
    destruct (Completion.date c =? dateKey)%string; [reflexivity|exact IH].
  - exact IH.
Qed.

Lemma streak_loop_ext fuel now habit cs1 cs2 :
  (forall d, marked cs1 (Habit.id habit) d = marked cs2 (Habit.id habit) d) ->
  forall streak currentDate,
  streak_loop fuel now habit cs1 streak currentDate
  = streak_loop fuel now habit cs2 streak currentDate.
Proof.
  intros H. induction fuel as [|f IH]; intros streak currentDate;
    [reflexivity|].
  cbn [streak_loop]. unfold streak_body.
  generalize (H (DateFns.localDay currentDate)). unfold marked, DateFns.format.
  intros ->.
  destruct (JS.ToBoolean _); [apply IH|].
  destruct (_ && _); [apply IH|reflexivity].
Qed.

Lemma same_records_marked habitId cs1 cs2 :
  same_records_of habitId cs1 cs2 ->
  forall d, marked cs1 habitId d = marked cs2 habitId d.
Proof.
  intros [Hf|(Hu1 & Hu2 & Hin)] d.
  - unfold marked.
    rewrite <- (find_matches_filter habitId _ cs1), Hf.
    now rewrite find_matches_filter.
  - assert (Hiff : completedOn cs1 habitId d <-> completedOn cs2 habitId d).
    { split; intros (c & Hc & Hh & Hd & Hcomp); exists c;
        (split; [now apply (Hin c Hh)|now repeat split]). }
    destruct (marked cs1 habitId d) eqn:E1, (marked cs2 habitId d) eqn:E2;
      try reflexivity.
    + apply marked_completedOn, Hiff, (completedOn_marked _ _ _ Hu2) in E1.
      congruence.
    + apply marked_completedOn, Hiff, (completedOn_marked _ _ _ Hu1) in E2.
      congruence.
Qed.

(* ================================================================== *)
(** * The streak: the claims *)
(* ================================================================== *)

Example streak_five_days :
  calculateStreak 7 Sample.now Sample.run Sample.five_days = Some 5%nat.
Proof. vm_compute. reflexivity. Qed.

Example streak_four_days :
  calculateStreak 6 Sample.now Sample.run Sample.four_days = Some 4%nat.
Proof. vm_compute. reflexivity. Qed.

Example streak_with_gap :
  calculateStreak 4 Sample.now Sample.run Sample.with_gap = Some 1%nat.
Proof. vm_compute. reflexivity. Qed.

Example streak_out_of_fuel :
  calculateStreak 5 Sample.now Sample.run Sample.five_days = None.
Proof. vm_compute. reflexivity. Qed.

(** A log that breaks the invariant: the first record of a day decides. *)
Example streak_doubled :
  calculateStreak 4 Sample.now Sample.run Sample.doubled = Some 0%nat.
Proof. vm_compute. reflexivity. Qed.

(** The walk of the real component across the start of the era: 365
    records, one for each day of year 1, read on the last day of that
    year. The days of year 0 from its last one back to March the 1st
    have the keys of those records, and the streak is 671. *)
Example streak_across_year_one :
  let habit := Habit.mk "h" "Run" "#3B82F6" 0 in
  let log := Sample.records "h" DateFns.year_one 365 in
  calculateStreak 672 ((DateFns.year_one + 364) * DateFns.msPerDay) habit log
  = Some 671%nat
  /\ calculateStreak 671 ((DateFns.year_one + 364) * DateFns.msPerDay) habit log
     = None
  /\ unique_keys log.
Proof.
  split; [vm_compute; reflexivity|].
  split; [vm_compute; reflexivity|].
  apply unique_keysb_true. vm_compute. reflexivity.
Qed.

(** C1. On a completion log (at most one record per habit and day),
    [calculateStreak] returns the number of consecutive calendar days,
    each with a record of the habit with [completed = true], that end
    today or, when today has no such record, yesterday; that number is
    determined by the log. A day has a record when the log holds one
    with the key of the day, and a day before year 1 has the key of a
    day of the era: the number is at most twice the number of records,
    and at most that number when today lies more days after 0001-01-01
    than the log has records. Among the days from year 1 on, days
    [today-4 .. today] completed give 5, days [today-4 .. today-1]
    give 4, and today and [today-2] alone give 1. *)
Theorem C1_streak_counts_consecutive_completed_days :
  forall (now : Z) (habit : Habit.t) (cs : list Completion.t),
    unique_keys cs ->
    let today := DateFns.localDay now in
    let completed := completedOn cs (Habit.id habit) in
    exists n : nat,
      (n <= 2 * List.length cs)%nat
      /\ (forall fuel, (2 * List.length cs + 2 <= fuel)%nat ->
            calculateStreak fuel now habit cs = Some n)
      /\ (since_year_one now (List.length cs) ->
            (n <= List.length cs)%nat
            /\ forall fuel, (List.length cs + 2 <= fuel)%nat ->
                 calculateStreak fuel now habit cs = Some n)
      /\ streak_spec completed today n
      /\ (forall m, streak_spec completed today m -> m = n)
      /\ (DateFns.year_one <= today - 5 ->
          ((forall d, DateFns.year_one <= d ->
              (completed d <-> today - 4 <= d <= today)) -> n = 5%nat)
          /\ ((forall d, DateFns.year_one <= d ->
                 (completed d <-> today - 4 <= d <= today - 1)) -> n = 4%nat)
          /\ ((forall d, DateFns.year_one <= d ->
                 (completed d <-> d = today \/ d = today - 2)) -> n = 1%nat)).
Proof.
  intros now habit cs Hu today completed.
  destruct (calculateStreak_marked now habit cs)
    as (n & turns & Hn & Hera & Hturns & Hspec & Hsome & _).
  assert (Hspec' : streak_spec completed today n).
  { apply (streak_spec_ext _ _ _ _ (marked_iff_completedOn cs _ Hu)), Hspec. }
  assert (Huniq : forall m, streak_spec completed today m -> m = n).
  { intros m Hm. apply (streak_spec_unique completed today); assumption. }
  exists n.
  split; [exact Hn|]. split; [intros fuel Hf; apply Hsome; lia|].
  split.
  { intros Hyear. specialize (Hera Hyear). split; [exact Hera|].
    intros fuel Hf. apply Hsome. lia. }
  split; [exact Hspec'|]. split; [exact Huniq|].
  intros Hfive. split; [|split].
  - intros H. symmetry. apply Huniq. left. split; [apply H; lia|].
    split; [intros i Hi; apply H; lia|rewrite H; lia].
  - intros H. symmetry. apply Huniq. right. split; [rewrite H; lia|].
    split; [intros i Hi; apply H; lia|rewrite H; lia].
  - intros H. symmetry. apply Huniq. left. split; [apply H; lia|].
    split; [intros i Hi; apply H; lia|rewrite H; lia].
Qed.

(** C1 at the sample log of five days. *)
Lemma C1_streak_witness :
  exists n : nat,
    (n <= 2 * List.length Sample.five_days)%nat
    /\ (forall fuel, (2 * List.length Sample.five_days + 2 <= fuel)%nat ->
          calculateStreak fuel Sample.now Sample.run Sample.five_days = Some n)
    /\ (since_year_one Sample.now (List.length Sample.five_days) ->
          (n <= List.length Sample.five_days)%nat
          /\ forall fuel, (List.length Sample.five_days + 2 <= fuel)%nat ->
               calculateStreak fuel Sample.now Sample.run Sample.five_days
               = Some n)
    /\ streak_spec (completedOn Sample.five_days (Habit.id Sample.run))
                   (DateFns.localDay Sample.now) n
    /\ (forall m, streak_spec (completedOn Sample.five_days (Habit.id Sample.run))
                              (DateFns.localDay Sample.now) m -> m = n)
    /\ (DateFns.year_one <= DateFns.localDay Sample.now - 5 ->
        ((forall d, DateFns.year_one <= d ->
            (completedOn Sample.five_days (Habit.id Sample.run) d
             <-> DateFns.localDay Sample.now - 4 <= d
                 <= DateFns.localDay Sample.now)) -> n = 5%nat)
        /\ ((forall d, DateFns.year_one <= d ->
               (completedOn Sample.five_days (Habit.id Sample.run) d
                <-> DateFns.localDay Sample.now - 4 <= d
                    <= DateFns.localDay Sample.now - 1)) -> n = 4%nat)
        /\ ((forall d, DateFns.year_one <= d ->
               (completedOn Sample.five_days (Habit.id Sample.run) d
                <-> d = DateFns.localDay Sample.now
                    \/ d = DateFns.localDay Sample.now - 2)) -> n = 1%nat)).
Proof.
  apply (C1_streak_counts_consecutive_completed_days
           Sample.now Sample.run Sample.five_days).
  apply unique_keysb_true. vm_compute. reflexivity.
Defined.

(** The five days of the sample log are the completed days from year 1
    on, and the streak is 5. *)
Example five_days_completed :
  since_year_one Sample.now (List.length Sample.five_days)
  /\ DateFns.year_one <= DateFns.localDay Sample.now - 5
  /\ forall d, DateFns.year_one <= d ->
       (completedOn Sample.five_days (Habit.id Sample.run) d
        <-> DateFns.localDay Sample.now - 4 <= d <= DateFns.localDay Sample.now).
Proof.
  split; [vm_compute; discriminate|]. split; [vm_compute; discriminate|].
  intros d Hd. change (DateFns.localDay Sample.now) with 19784. split.
  - intros (c & Hc & _ & Hdate & _).
    assert (Hyear : DateFns.year_one <= 19780) by (vm_compute; discriminate).
    cbn in Hc.
    destruct Hc as [<-|[<-|[<-|[<-|[<-|[]]]]]]; cbn [Completion.date Sample.done] in Hdate.
    + change "2024-02-27"%string with (DateFns.format_day 19780) in Hdate.
      apply format_day_inj in Hdate; unfold DateFns.year_one in *; lia.
    + change "2024-02-28"%string with (DateFns.format_day 19781) in Hdate.
      apply format_day_inj in Hdate; unfold DateFns.year_one in *; lia.
    + change "2024-02-29"%string with (DateFns.format_day 19782) in Hdate.
      apply format_day_inj in Hdate; unfold DateFns.year_one in *; lia.
    + change "2024-03-01"%string with (DateFns.format_day 19783) in Hdate.
      apply format_day_inj in Hdate; unfold DateFns.year_one in *; lia.
    + change "2024-03-02"%string with (DateFns.format_day 19784) in Hdate.
      apply format_day_inj in Hdate; unfold DateFns.year_one in *; lia.
  - intros Hrange.
    assert (Hcases : d = 19780 \/ d = 19781 \/ d = 19782 \/ d = 19783
                     \/ d = 19784) by lia.
    destruct Hcases as [-> | [-> | [-> | [-> | ->]]]].
    + exists (Sample.done "1" "1708992000000" "2024-02-27").
      repeat split. cbn. tauto.
    + exists (Sample.done "2" "1708992000000" "2024-02-28").
      repeat split. cbn. tauto.
    + exists (Sample.done "3" "1708992000000" "2024-02-29").
      repeat split. cbn. tauto.
    + exists (Sample.done "4" "1708992000000" "2024-03-01").
      repeat split. cbn. tauto.
    + exists (Sample.done "5" "1708992000000" "2024-03-02").
      repeat split. cbn. tauto.
Qed.

(** C7. The backward walk of [calculateStreak] ends on every log: it
    makes [n] turns that find a completed day, at most one turn that
    passes over today, and the turn that breaks; with that many turns
    allowed it returns [n], and with fewer it has not finished. Each
    turn that counts finds the record of another day, and a record is
    found for two days at most (a day of the era and the day before the
    era with the same key): [n] is at most twice the number of records,
    and at most the number of records when today lies more days after
    0001-01-01 than the log has records. *)
Theorem C7_streak_walk_terminates :
  forall (now : Z) (habit : Habit.t) (cs : list Completion.t),
    exists n turns : nat,
      (n <= 2 * List.length cs)%nat
      /\ (turns = n + 1 \/ turns = n + 2)%nat
      /\ (turns <= 2 * List.length cs + 2)%nat
      /\ (since_year_one now (List.length cs) ->
            (n <= List.length cs)%nat /\ (turns <= List.length cs + 2)%nat)
      /\ (forall fuel, (turns <= fuel)%nat ->
            calculateStreak fuel now habit cs = Some n)
      /\ (forall fuel, (fuel < turns)%nat ->
            calculateStreak fuel now habit cs = None).
Proof.
  intros now habit cs.
  destruct (calculateStreak_marked now habit cs)
    as (n & turns & Hn & Hera & Hturns & _ & Hsome & Hnone).
  exists n, turns.
  split; [exact Hn|]. split; [exact Hturns|]. split; [lia|].
  split; [|split; assumption].
  intros Hyear. specialize (Hera Hyear). lia.
Qed.

(** C9. Two logs that hold the same records of a habit give that habit
    the same streak, whatever records of other habits they hold. *)
Theorem C9_streak_ignores_other_habits :
  forall (now : Z) (habit : Habit.t) (cs1 cs2 : list Completion.t),
    same_records_of (Habit.id habit) cs1 cs2 ->
    (forall fuel,
       calculateStreak fuel now habit cs1 = calculateStreak fuel now habit cs2)
    /\ exists n : nat, forall fuel,
         (2 * List.length cs1 + 2 <= fuel)%nat ->
         calculateStreak fuel now habit cs1 = Some n
         /\ calculateStreak fuel now habit cs2 = Some n.
Proof.
  intros now habit cs1 cs2 H.
  assert (Heq : forall fuel,
    calculateStreak fuel now habit cs1 = calculateStreak fuel now habit cs2).
  { intros fuel. unfold calculateStreak.
    apply streak_loop_ext. apply same_records_marked. exact H. }
  split; [exact Heq|].
  destruct (calculateStreak_marked now habit cs1)
    as (n & turns & Hn & _ & Hturns & _ & Hsome & _).
  exists n. intros fuel Hf.
  assert (E : calculateStreak fuel now habit cs1 = Some n)
    by (apply Hsome; lia).
  split; [exact E|]. now rewrite <- Heq.
Qed.

(** C9 at the five days alone and among the records of another habit. *)
Lemma C9_streak_witness :
  (forall fuel,
     calculateStreak fuel Sample.now Sample.run Sample.five_days
     = calculateStreak fuel Sample.now Sample.run Sample.five_days_mixed)
  /\ exists n : nat, forall fuel,
       (2 * List.length Sample.five_days + 2 <= fuel)%nat ->
       calculateStreak fuel Sample.now Sample.run Sample.five_days = Some n
       /\ calculateStreak fuel Sample.now Sample.run Sample.five_days_mixed
          = Some n.
Proof.
  apply (C9_streak_ignores_other_habits
           Sample.now Sample.run Sample.five_days Sample.five_days_mixed).
  left. reflexivity.
Defined.

Example streak_five_days_mixed :
  calculateStreak 7 Sample.now Sample.run Sample.five_days_mixed = Some 5%nat.
Proof. vm_compute. reflexivity. Qed.

(* ================================================================== *)
(** * The completion log under the handlers *)
(* ================================================================== *)

Lemma find_app_last {A : Type} (p : A -> bool) (l : list A) (r : A) :
  find p (l ++ [r]) =
    match find p l with
    | Some x => Some x
    | None => if p r then Some r else None
    end.
Proof.
  induction l as [|a l IH]; [reflexivity|].
  cbn. destruct (p a); [reflexivity|exact IH].
Qed.

Lemma flip_flip c : Completion.flip (Completion.flip c) = c.
Proof.
  destruct c as [i h d b]. unfold Completion.flip. cbn.
  now rewrite negb_involutive.
Qed.

Lemma matches_flip habitId dateKey c :
  matches habitId dateKey (Completion.flip c) = matches habitId dateKey c.
Proof. reflexivity. Qed.

Section Toggle.

Variable habitId dateKey : string.

Lemma matches_flip_matching h k c :
  matches h k (flip_matching habitId dateKey c) = matches h k c.
Proof. unfold flip_matching. now destruct (matches habitId dateKey c). Qed.

Lemma key_flip_matching c :
  Completion.key (flip_matching habitId dateKey c) = Completion.key c.
Proof. unfold flip_matching. now destruct (matches habitId dateKey c). Qed.

Lemma flip_matching_twice c :
  flip_matching habitId dateKey (flip_matching habitId dateKey c) = c.
Proof.
  unfold flip_matching. destruct (matches habitId dateKey c) eqn:E.
  - rewrite matches_flip, E. apply flip_flip.
  - now rewrite E.
Qed.

Lemma map_flip_matching_twice cs :
  map (flip_matching habitId dateKey) (map (flip_matching habitId dateKey) cs)
  = cs.
Proof.
  rewrite map_map. rewrite <- (map_id cs) at 2.
  apply map_ext. apply flip_matching_twice.
Qed.

Lemma map_key_flip_matching cs :
  map Completion.key (map (flip_matching habitId dateKey) cs) = map Completion.key cs.
Proof. rewrite map_map. apply map_ext. apply key_flip_matching. Qed.

Lemma find_map_flip_matching h k cs :
  find (matches h k) (map (flip_matching habitId dateKey) cs)
  = option_map (flip_matching habitId dateKey) (find (matches h k) cs).
Proof.
  induction cs as [|c cs IH]; [reflexivity|].
  cbn. rewrite matches_flip_matching.
  destruct (matches h k c); [reflexivity|exact IH].
Qed.

(** Without a record of the pair the map changes nothing. *)
Lemma map_flip_matching_absent cs :
  find (matches habitId dateKey) cs = None ->
  map (flip_matching habitId dateKey) cs = cs.
Proof.
  intros H. rewrite <- (map_id cs) at 2. apply map_ext_in.
  intros c Hc. unfold flip_matching.
  now rewrite (find_none _ _ H c Hc).
Qed.

Lemma others_flip_matching cs :
  others habitId dateKey (map (flip_matching habitId dateKey) cs)
  = others habitId dateKey cs.
Proof.
  unfold others. induction cs as [|c cs IH]; [reflexivity|].
  cbn. rewrite matches_flip_matching. unfold flip_matching at 1.
  destruct (matches habitId dateKey c) eqn:E; cbn; [exact IH|].
  now rewrite IH.
Qed.

Lemma others_app_matching cs r :
  matches habitId dateKey r = true ->
  others habitId dateKey (cs ++ [r]) = others habitId dateKey cs.
Proof.
  intros H. unfold others. rewrite filter_app. cbn. rewrite H. cbn.
  apply app_nil_r.
Qed.

End Toggle.

(** The key that [toggleHabitCompletion] and [isHabitCompleted] compute. *)
Lemma toggle_dateKey now date :
  DateFns.format
    (DateFns.startOfDay (match date with Some d => d | None => now end))
  = DateFns.format_day (toggled_day now date).
Proof. apply format_startOfDay. Qed.

Lemma toggle_absent now habitId date s :
  find (matches habitId (DateFns.format_day (toggled_day now date)))
       (completions s) = None ->
  toggleHabitCompletion now habitId date s =
    mkState (habits s)
      (completions s ++
         [Completion.mk (JS.Number_toString now) habitId
            (DateFns.format_day (toggled_day now date)) true])
      (newHabitName s) (newHabitColor s).
Proof.
  intros H. unfold toggleHabitCompletion. rewrite toggle_dateKey, H.
  reflexivity.
Qed.

Lemma toggle_present now habitId date s c :
  find (matches habitId (DateFns.format_day (toggled_day now date)))
       (completions s) = Some c ->
  toggleHabitCompletion now habitId date s =
    mkState (habits s)
      (map (flip_matching habitId (DateFns.format_day (toggled_day now date)))
           (completions s))
      (newHabitName s) (newHabitColor s).
Proof.
  intros H. unfold toggleHabitCompletion. rewrite toggle_dateKey, H.
  reflexivity.
Qed.

Lemma isHabitCompleted_find s habitId date :
  isHabitCompleted s habitId date =
    and_completed
      (find (matches habitId (DateFns.format_day (DateFns.localDay date)))
            (completions s)).
Proof. unfold isHabitCompleted. now rewrite format_startOfDay. Qed.

(** ** The invariant *)

Lemma unique_keys_filter (p : Completion.t -> bool) cs :
  unique_keys cs -> unique_keys (filter p cs).
Proof.
  unfold unique_keys. induction cs as [|c cs IH]; cbn; intros H; [exact H|].
  inversion H as [|? ? Hnotin Hnd]; subst.
  destruct (p c); cbn; [|now apply IH].
  constructor; [|now apply IH].
  intros Hin. apply Hnotin. apply in_map_iff in Hin as (c' & Hk & Hc').
  apply filter_In in Hc' as [Hc' _]. rewrite <- Hk. now apply in_map.
Qed.

Lemma unique_keys_app_new cs r :
  unique_keys cs ->
  find (matches (Completion.habitId r) (Completion.date r)) cs = None ->
  unique_keys (cs ++ [r]).
Proof.
  unfold unique_keys. intros Hu Hnone. rewrite map_app. cbn.
  apply NoDup_app; [exact Hu|repeat constructor; intros []|].
  intros k Hk [<-|[]].
  apply in_map_iff in Hk as (c & Hkc & Hc).
  apply (find_none _ _ Hnone) in Hc.
  assert (Hm : matches (Completion.habitId r) (Completion.date r) c = true).
  { apply matches_spec. unfold Completion.key in Hkc. now injection Hkc. }
  congruence.
Qed.

Lemma toggle_unique_keys now habitId date s :
  unique_keys (completions s) ->
  unique_keys (completions (toggleHabitCompletion now habitId date s)).
Proof.
  intros Hu.
  destruct (find (matches habitId (DateFns.format_day (toggled_day now date)))
                 (completions s)) as [c|] eqn:E.
  - rewrite (toggle_present _ _ _ _ c E). cbn.
    unfold unique_keys. now rewrite map_key_flip_matching.
  - rewrite (toggle_absent _ _ _ _ E). cbn.
    now apply unique_keys_app_new.
Qed.

Lemma addHabit_completions now s :
  completions (addHabit now s) = completions s.
Proof. unfold addHabit. now destruct (JS.truthy_string _). Qed.

Lemma reachable_unique_keys s : reachable s -> unique_keys (completions s).
Proof.
  induction 1; cbn; try assumption.
  - constructor.
  - now rewrite addHabit_completions.
  - now apply unique_keys_filter.
  - now apply toggle_unique_keys.
Qed.

Lemma has_record_find cs habitId dateKey :
  has_record cs habitId dateKey <->
  exists c, find (matches habitId dateKey) cs = Some c.
Proof.
  split.
  - intros (c & Hin & Hh & Hd).
    destruct (find (matches habitId dateKey) cs) as [c'|] eqn:E;
      [now exists c'|].
    apply (find_none _ _ E) in Hin.
    assert (matches habitId dateKey c = true) by now apply matches_spec.
    congruence.
  - intros (c & E). apply find_some in E as [Hin Hm].
    apply matches_spec in Hm as [Hh Hd]. now exists c.
Qed.

Lemma no_record_find cs habitId dateKey :
  ~ has_record cs habitId dateKey <->
  find (matches habitId dateKey) cs = None.
Proof.
  rewrite has_record_find. split.
  - intros H. destruct (find _ cs) as [c|]; [|reflexivity].
    exfalso. apply H. now exists c.
  - intros -> (c & Hc). discriminate.
Qed.

Lemma Forall2_toggled_record habitId dateKey cs :
  Forall2 (toggled_record habitId dateKey) cs
          (map (flip_matching habitId dateKey) cs).
Proof.
  induction cs as [|c cs IH]; cbn; constructor; [|exact IH].
  unfold toggled_record, flip_matching.
  destruct (matches habitId dateKey c); cbn; auto.
Qed.

Lemma completedDays_length habitId cs :
  Z.of_nat (List.length
    (filter (fun c => (Completion.habitId c =? habitId)%string
                      && Completion.completed c) cs))
  = spec_completedDays habitId cs.
Proof.
  induction cs as [|c cs IH]; [reflexivity|].
  cbn [filter spec_completedDays].
  destruct (Completion.habitId c =? habitId)%string,
           (Completion.completed c); cbn [andb List.length]; lia.
Qed.

(** The count only sees the completed records of the habit. *)
Lemma completedDays_count habitId cs :
  spec_completedDays habitId cs
  = Z.of_nat (List.length
      (filter Completion.completed (spec_completionsFor habitId cs))).
Proof.
  rewrite <- completedDays_length. unfold spec_completionsFor.
  induction cs as [|c cs IH]; [reflexivity|].
  cbn [filter].
  destruct (Completion.habitId c =? habitId)%string; cbn [andb filter];
    [|exact IH].
  destruct (Completion.completed c); cbn [List.length]; lia.
Qed.

(** A record with [completed = false] at the end of the log does not show
    in what [find] lets a condition see. *)
Lemma find_app_not_completed h k cs r :
  Completion.completed r = false ->
  JS.ToBoolean (and_completed (find (matches h k) (cs ++ [r])))
  = JS.ToBoolean (and_completed (find (matches h k) cs)).
Proof.
  intros Hr. rewrite find_app_last.
  destruct (find (matches h k) cs) as [c|]; [reflexivity|].
  destruct (matches h k r); cbn; [exact Hr|reflexivity].
Qed.

Lemma completedDays_app_not_completed habitId cs r :
  Completion.completed r = false ->
  spec_completedDays habitId (cs ++ [r]) = spec_completedDays habitId cs.
Proof.
  intros Hr. induction cs as [|c cs IH]; cbn.
  - rewrite Hr. now destruct (Completion.habitId r =? habitId)%string.
  - now rewrite IH.
Qed.

(** The log after two toggles of the same pair: the log before them, with
    a record of the pair with [completed = false] at its end when the
    pair had none. *)
Lemma toggle_twice_log now now' habitId date date' s :
  toggled_day now' date' = toggled_day now date ->
  let k := DateFns.format_day (toggled_day now date) in
  let s2 := toggleHabitCompletion now' habitId date'
              (toggleHabitCompletion now habitId date s) in
  (has_record (completions s) habitId k /\ completions s2 = completions s)
  \/ (~ has_record (completions s) habitId k
      /\ completions s2 =
           completions s ++
             [Completion.mk (JS.Number_toString now) habitId k false]).
Proof.
  intros Hday k s2. subst s2.
  destruct (find (matches habitId k) (completions s)) as [c|] eqn:E.
  - left. split; [apply has_record_find; now exists c|].
    rewrite (toggle_present now habitId date s c E). fold k.
    assert (E1 : find (matches habitId k)
                   (map (flip_matching habitId k) (completions s))
                 = Some (flip_matching habitId k c)).
    { now rewrite find_map_flip_matching, E. }
    erewrite toggle_present; cbn [completions]; rewrite Hday; fold k;
      [|exact E1].
    cbn [completions]. apply map_flip_matching_twice.
  - right. split; [now apply no_record_find|].
    rewrite (toggle_absent now habitId date s E). fold k.
    set (r := Completion.mk (JS.Number_toString now) habitId k true).
    assert (Hr : matches habitId k r = true).
    { apply matches_spec. now split. }
    assert (E1 : find (matches habitId k) (completions s ++ [r]) = Some r).
    { now rewrite find_app_last, E, Hr. }
    erewrite toggle_present; cbn [completions]; rewrite Hday; fold k;
      [|exact E1].
    cbn [completions].
    rewrite map_app, (map_flip_matching_absent _ _ _ E). cbn [map].
    unfold flip_matching. now rewrite Hr.
Qed.

(** What the views read from a log: the answers of [isHabitCompleted] as
    conditions, the streaks and the completion rates. *)
Lemma same_marks_same_views s s' :
  (forall h k, JS.ToBoolean (and_completed (find (matches h k) (completions s')))
               = JS.ToBoolean (and_completed (find (matches h k) (completions s)))) ->
  (forall h, spec_completedDays h (completions s')
             = spec_completedDays h (completions s)) ->
  (forall h d, observed s' h d = observed s h d)
  /\ (forall fuel t habit,
        calculateStreak fuel t habit (completions s')
        = calculateStreak fuel t habit (completions s))
  /\ (forall t habit, getCompletionRate t s' habit = getCompletionRate t s habit).
Proof.
  intros Hfind Hcount. repeat split.
  - intros h d. unfold observed. rewrite !isHabitCompleted_find. apply Hfind.
  - intros fuel t habit. unfold calculateStreak. apply streak_loop_ext.
    intros d. apply Hfind.
  - intros t habit. unfold getCompletionRate.
    now rewrite !completedDays_length, Hcount.
Qed.

(** C2. [toggleHabitCompletion] appends a record with [completed = true]
    when the pair has none, negates the [completed] field of the record
    of the pair when there is one, and called twice for the same pair it
    gives back the log it started from when the pair had a record, and
    in every case what the first log showed: the answers of
    [isHabitCompleted] as conditions, the streaks and the rates. *)
Theorem C2_toggle_creates_flips_and_undoes :
  forall (now now' : Z) (habitId : string) (date date' : option Z)
         (s : AppState),
    let dateKey := DateFns.format_day (toggled_day now date) in
    let s1 := toggleHabitCompletion now habitId date s in
    let s2 := toggleHabitCompletion now' habitId date' s1 in
    (~ has_record (completions s) habitId dateKey ->
       completions s1 =
         completions s ++
           [Completion.mk (JS.Number_toString now) habitId dateKey true]
       /\ isHabitCompleted s1 habitId (toggled_date now date) = JS.Bool true)
    /\ (has_record (completions s) habitId dateKey ->
          Forall2 (toggled_record habitId dateKey)
                  (completions s) (completions s1)
          /\ forall b,
               isHabitCompleted s habitId (toggled_date now date) = JS.Bool b ->
               isHabitCompleted s1 habitId (toggled_date now date)
               = JS.Bool (negb b))
    /\ (toggled_day now' date' = toggled_day now date ->
          (has_record (completions s) habitId dateKey ->
             completions s2 = completions s)
          /\ (forall h d, observed s2 h d = observed s h d)
          /\ (forall fuel t habit,
                calculateStreak fuel t habit (completions s2)
                = calculateStreak fuel t habit (completions s))
          /\ (forall t habit,
                getCompletionRate t s2 habit = getCompletionRate t s habit)).
Proof.
  intros now now' habitId date date' s dateKey s1 s2.
  split; [|split].
  - intros Hnone. apply no_record_find in Hnone. unfold s1.
    rewrite (toggle_absent _ _ _ _ Hnone). split; [reflexivity|].
    rewrite isHabitCompleted_find.
    cbn [completions]. fold (toggled_day now date). fold dateKey.
    rewrite find_app_last, Hnone.
    assert (Hr : matches habitId dateKey
                   (Completion.mk (JS.Number_toString now) habitId dateKey true)
                 = true) by (apply matches_spec; now split).
    now rewrite Hr.
  - intros Hsome. apply has_record_find in Hsome as (c & E). unfold s1.
    rewrite (toggle_present _ _ _ _ c E).
    split; [apply Forall2_toggled_record|].
    intros b. rewrite !isHabitCompleted_find.
    cbn [completions]. fold (toggled_day now date). fold dateKey.
    rewrite find_map_flip_matching, E. cbn [option_map and_completed].
    intros [= <-]. unfold flip_matching.
    apply find_some in E as [_ Hm]. now rewrite Hm.
  - intros Hday.
    destruct (toggle_twice_log now now' habitId date date' s Hday)
      as [[Hsome Hlog]|[Hnone Hlog]]; fold dateKey in Hsome || fold dateKey in Hnone.
    + split; [intros _; exact Hlog|].
      apply same_marks_same_views; intros; unfold s2, s1; now rewrite Hlog.
    + split; [intros Hsome; contradiction|].
      apply same_marks_same_views; intros; unfold s2, s1; rewrite Hlog.
      * now apply find_app_not_completed.
      * now apply completedDays_app_not_completed.
Qed.

Example toggle_twice_from_nothing :
  let s2 := toggleHabitCompletion (Sample.now + 5) "1708992000000" None
              (toggleHabitCompletion Sample.now "1708992000000" None
                 (Sample.state [])) in
  completions s2 =
    [Completion.mk "1709370000000" "1708992000000" "2024-03-02" false]
  /\ isHabitCompleted (Sample.state []) "1708992000000" Sample.now
     = JS.Undefined
  /\ isHabitCompleted s2 "1708992000000" Sample.now = JS.Bool false.
Proof. vm_compute. repeat split. Qed.

(** C2 at two toggles of today on the sample log of five days. *)
Lemma C2_toggle_witness :
  completions
    (toggleHabitCompletion (Sample.now + 5) "1708992000000" None
       (toggleHabitCompletion Sample.now "1708992000000" None
          (Sample.state Sample.five_days)))
  = Sample.five_days.
Proof.
  apply (C2_toggle_creates_flips_and_undoes
           Sample.now (Sample.now + 5) "1708992000000" None None
           (Sample.state Sample.five_days)).
  - vm_compute. reflexivity.
  - exists (Sample.done "5" "1708992000000" "2024-03-02").
    vm_compute. repeat split. do 4 right. left. reflexivity.
Defined.

(** C3. The completion log holds at most one record per (habitId, date)
    pair: every state that the handlers produce from the initial one
    satisfies it, each of [addHabit], [deleteHabit] and
    [toggleHabitCompletion] preserves it, and a toggle of a pair that has
    a record leaves the number of records as it is. *)
Theorem C3_at_most_one_record_per_pair :
  (forall s, reachable s -> unique_keys (completions s))
  /\ (forall s, unique_keys (completions s) ->
        (forall now, unique_keys (completions (addHabit now s)))
        /\ (forall habitId, unique_keys (completions (deleteHabit habitId s)))
        /\ (forall now habitId date,
              unique_keys
                (completions (toggleHabitCompletion now habitId date s))))
  /\ (forall s now habitId date,
        has_record (completions s) habitId
                   (DateFns.format_day (toggled_day now date)) ->
        List.length (completions (toggleHabitCompletion now habitId date s))
        = List.length (completions s)).
Proof.
  split; [exact reachable_unique_keys|]. split.
  - intros s Hu. repeat split.
    + intros now. now rewrite addHabit_completions.
    + intros habitId. cbn. now apply unique_keys_filter.
    + intros now habitId date. now apply toggle_unique_keys.
  - intros s now habitId date H.
    apply has_record_find in H as (c & E).
    rewrite (toggle_present _ _ _ _ c E). cbn. apply length_map.
Qed.

(** C3 at a toggle of today on the sample log of five days. *)
Lemma C3_invariant_witness :
  unique_keys
    (completions
       (toggleHabitCompletion Sample.now "1708992000000" None
          (Sample.state Sample.five_days))).
Proof.
  apply (proj1 (proj2 C3_at_most_one_record_per_pair)
               (Sample.state Sample.five_days)).
  apply unique_keysb_true. vm_compute. reflexivity.
Defined.

(** C10. [toggleHabitCompletion] leaves the habits and the form fields
    as they are and the records of every other pair as they are and in
    their order; it either appends one record of the pair, when the
    pair has none, or changes the [completed] field of the record of the
    pair and nothing else. *)
Theorem C10_toggle_changes_only_its_pair :
  forall (now : Z) (habitId : string) (date : option Z) (s : AppState),
    let dateKey := DateFns.format_day (toggled_day now date) in
    let s' := toggleHabitCompletion now habitId date s in
    habits s' = habits s
    /\ newHabitName s' = newHabitName s
    /\ newHabitColor s' = newHabitColor s
    /\ others habitId dateKey (completions s')
       = others habitId dateKey (completions s)
    /\ ((~ has_record (completions s) habitId dateKey
         /\ exists r, completions s' = completions s ++ [r]
                      /\ Completion.habitId r = habitId
                      /\ Completion.date r = dateKey)
        \/ (has_record (completions s) habitId dateKey
            /\ Forall2 (toggled_record habitId dateKey)
                       (completions s) (completions s'))).
Proof.
  intros now habitId date s dateKey s'. subst s'.
  destruct (find (matches habitId dateKey) (completions s)) as [c|] eqn:E.
  - rewrite (toggle_present _ _ _ _ c E). cbn. fold dateKey.
    repeat split; try reflexivity.
    + apply others_flip_matching.
    + right. split; [apply has_record_find; now exists c|].
      apply Forall2_toggled_record.
  - rewrite (toggle_absent _ _ _ _ E). cbn. fold dateKey.
    repeat split; try reflexivity.
    + apply others_app_matching. apply matches_spec. now split.
    + left. split; [now apply no_record_find|].
      eexists. repeat split.
Qed.

Example toggle_keeps_the_others :
  completions
    (toggleHabitCompletion Sample.now "1708992000555" (Some (19783 * 86400000))
       (Sample.state Sample.five_days_mixed))
  = [ Sample.done "6" "1708992000555" "2024-03-02";
      Sample.done "1" "1708992000000" "2024-02-27";
      Sample.done "2" "1708992000000" "2024-02-28";
      Sample.done "7" "1708992000555" "2024-03-01";
      Sample.done "3" "1708992000000" "2024-02-29";
      Sample.done "4" "1708992000000" "2024-03-01";
      Sample.done "5" "1708992000000" "2024-03-02" ].
Proof. vm_compute. reflexivity. Qed.

(* ================================================================== *)
(** * isHabitCompleted *)
(* ================================================================== *)

Lemma reachable_first_added : reachable Sample.first_added.
Proof.
  exact (reach_add _ 1708992000000 (reach_type _ "Run" reach_init)).
Qed.

Lemma reachable_second_added : reachable Sample.second_added.
Proof.
  exact (reach_add _ 1708992000000
           (reach_pick _ "#EF4444"
              (reach_type _ "  Read " reachable_first_added))).
Qed.

Lemma reachable_ghost_state : reachable Sample.ghost_state.
Proof. exact (reach_toggle _ Sample.now "ghost" None reach_init). Qed.

(** C8 as stated fails. After the first habit is added, and before any
    toggle, the pair (that habit, today) has no record, and
    [isHabitCompleted] returns [undefined], which is not the boolean
    [false]. *)
Lemma C8_counterexample :
  reachable Sample.first_added
  /\ (exists h, habits Sample.first_added = [h]
                /\ Habit.id h = "1708992000000"%string)
  /\ completions Sample.first_added = []
  /\ isHabitCompleted Sample.first_added "1708992000000" Sample.now
     = JS.Undefined
  /\ isHabitCompleted Sample.first_added "1708992000000" Sample.now
     <> JS.Bool false.
Proof.
  split; [exact reachable_first_added|]. split; [|split; [|split]].
  - eexists. split; reflexivity.
  - reflexivity.
  - reflexivity.
  - discriminate.
Qed.

(** C8, amended. [isHabitCompleted] returns [undefined], not [false],
    when the pair has no record, and the [completed] field of the record
    of the pair when there is one (of the first one, should the log hold
    several); as a condition, a missing record and a record with
    [completed = false] both count as false. *)
Theorem C8_isHabitCompleted_undefined_or_field :
  forall (s : AppState) (habitId : string) (date : Z),
    let dateKey := DateFns.format_day (DateFns.localDay date) in
    (~ has_record (completions s) habitId dateKey ->
       isHabitCompleted s habitId date = JS.Undefined
       /\ observed s habitId date = false)
    /\ (forall c, find (matches habitId dateKey) (completions s) = Some c ->
          isHabitCompleted s habitId date = JS.Bool (Completion.completed c)
          /\ observed s habitId date = Completion.completed c)
    /\ (unique_keys (completions s) ->
        forall c, In c (completions s) ->
          Completion.habitId c = habitId -> Completion.date c = dateKey ->
          isHabitCompleted s habitId date = JS.Bool (Completion.completed c)
          /\ observed s habitId date = Completion.completed c).
Proof.
  intros s habitId date dateKey.
  assert (Hfirst : forall c,
    find (matches habitId dateKey) (completions s) = Some c ->
    isHabitCompleted s habitId date = JS.Bool (Completion.completed c)
    /\ observed s habitId date = Completion.completed c).
  { intros c E. unfold observed. rewrite isHabitCompleted_find.
    fold dateKey. rewrite E. now split. }
  split; [|split].
  - intros H. apply no_record_find in H. unfold observed.
    rewrite isHabitCompleted_find. fold dateKey. rewrite H. now split.
  - exact Hfirst.
  - intros Hu c Hin Hh Hd.
    destruct (proj1 (has_record_find (completions s) habitId dateKey))
      as (c' & E); [now exists c|].
    assert (c' = c).
    { pose proof (find_some _ _ E) as [Hin' Hm].
      apply matches_spec in Hm as [Hh' Hd'].
      apply (unique_keys_inj (completions s)); try assumption.
      unfold Completion.key. congruence. }
    subst c'. now apply Hfirst.
Qed.

(** C8 at a day without a record. *)
Lemma C8_isHabitCompleted_witness :
  isHabitCompleted (Sample.state Sample.four_days) "1708992000000" Sample.now
  = JS.Undefined
  /\ observed (Sample.state Sample.four_days) "1708992000000" Sample.now = false.
Proof.
  apply (C8_isHabitCompleted_undefined_or_field
           (Sample.state Sample.four_days) "1708992000000" Sample.now).
  apply no_record_find. vm_compute. reflexivity.
Defined.

(* ================================================================== *)
(** * deleteHabit *)
(* ================================================================== *)

Lemma filter_all {A : Type} (p : A -> bool) (l : list A) :
  (forall x, In x l -> p x = true) -> filter p l = l.
Proof.
  induction l as [|a l IH]; intros H; [reflexivity|].
  cbn. rewrite (H a (or_introl eq_refl)). f_equal. apply IH.
  intros x Hx. apply H. now right.
Qed.

Lemma filter_none {A : Type} (p : A -> bool) (l : list A) :
  (forall x, In x l -> p x = false) -> filter p l = [].
Proof.
  induction l as [|a l IH]; intros H; [reflexivity|].
  cbn. rewrite (H a (or_introl eq_refl)). apply IH.
  intros x Hx. apply H. now right.
Qed.

Lemma negb_eqb_true (a b : string) : negb (a =? b)%string = true <-> a <> b.
Proof. rewrite negb_true_iff. apply String.eqb_neq. Qed.

Lemma completionsFor_other habitId other cs :
  other <> habitId ->
  spec_completionsFor other
    (filter (fun c => negb (Completion.habitId c =? habitId)%string) cs)
  = spec_completionsFor other cs.
Proof.
  intros Hother. unfold spec_completionsFor.
  induction cs as [|c cs IH]; [reflexivity|].
  cbn. destruct (Completion.habitId c =? habitId)%string eqn:E; cbn.
  - apply String.eqb_eq in E.
    assert (E' : (Completion.habitId c =? other)%string = false).
    { apply String.eqb_neq. congruence. }
    now rewrite E'.
  - destruct (Completion.habitId c =? other)%string; [f_equal|]; exact IH.
Qed.

(** The invariant of the registry and the log: every record belongs to a
    habit of the list. The component calls [toggleHabitCompletion] and
    [deleteHabit] with the ids of listed habits only, and keeps it. *)
Lemma deleteHabit_no_orphans habitId s :
  no_orphans s -> no_orphans (deleteHabit habitId s).
Proof.
  intros Hs c Hc. unfold deleteHabit in Hc |- *.
  cbn [habits completions] in Hc |- *.
  apply filter_In in Hc as [Hc Hk].
  destruct (Hs c Hc) as (h & Hh & Hid). exists h. split; [|exact Hid].
  apply filter_In. split; [exact Hh|]. now rewrite Hid.
Qed.

(** Outside the invariant: a toggle for an id that no habit carries, a
    call that the component does not make, leaves a record that
    [deleteHabit] for that id removes. *)
Example deleteHabit_of_an_orphan :
  habits Sample.ghost_state = []
  /\ completions Sample.ghost_state
     = [Completion.mk "1709370000000" "ghost" "2024-03-02" true]
  /\ completions (deleteHabit "ghost" Sample.ghost_state) = [].
Proof.
  split; [reflexivity|]. split; vm_compute; reflexivity.
Qed.

(** C5. In a state where every record belongs to a habit of the list,
    [deleteHabit] removes the habits with that id and the records with
    that [habitId], keeps every other habit and record in its place,
    and leaves no record of the habit; without a habit of that id the
    call changes nothing; and every record still belongs to a habit
    afterwards. *)
Theorem C5_deleteHabit_cascades :
  forall (habitId : string) (s : AppState),
    no_orphans s ->
    let s' := deleteHabit habitId s in
    (forall h, In h (habits s') <-> In h (habits s) /\ Habit.id h <> habitId)
    /\ (forall c, In c (completions s') <->
                  In c (completions s) /\ Completion.habitId c <> habitId)
    /\ habits s'
       = filter (fun h => negb (Habit.id h =? habitId)%string) (habits s)
    /\ completions s'
       = filter (fun c => negb (Completion.habitId c =? habitId)%string)
                (completions s)
    /\ spec_completionsFor habitId (completions s') = []
    /\ (forall other, other <> habitId ->
          spec_completionsFor other (completions s')
          = spec_completionsFor other (completions s))
    /\ newHabitName s' = newHabitName s
    /\ newHabitColor s' = newHabitColor s
    /\ ((forall h, In h (habits s) -> Habit.id h <> habitId) -> s' = s)
    /\ no_orphans s'.
Proof.
  intros habitId s Horphans s'.
  assert (Hinv : no_orphans s') by now apply deleteHabit_no_orphans.
  subst s'. unfold deleteHabit in *. cbn [habits completions newHabitName
                                          newHabitColor] in *.
  assert (Hh : forall h,
    In h (filter (fun h => negb (Habit.id h =? habitId)%string) (habits s))
    <-> In h (habits s) /\ Habit.id h <> habitId).
  { intros h. rewrite filter_In, negb_eqb_true. reflexivity. }
  assert (Hc : forall c,
    In c (filter (fun c => negb (Completion.habitId c =? habitId)%string)
                 (completions s))
    <-> In c (completions s) /\ Completion.habitId c <> habitId).
  { intros c. rewrite filter_In, negb_eqb_true. reflexivity. }
  split; [exact Hh|]. split; [exact Hc|].
  split; [reflexivity|]. split; [reflexivity|].
  split; [|split; [|split; [|split; [|split]]]].
  - unfold spec_completionsFor. apply filter_none.
    intros c Hin. apply Hc in Hin as [_ Hne]. now apply String.eqb_neq.
  - intros other Hother. now apply completionsFor_other.
  - reflexivity.
  - reflexivity.
  - intros Hnone.
    rewrite (filter_all _ (habits s)), (filter_all _ (completions s)).
    + now destruct s.
    + intros c Hin. apply negb_eqb_true.
      destruct (Horphans c Hin) as (h & Hhin & Hid). rewrite <- Hid.
      now apply Hnone.
    + intros h Hin. apply negb_eqb_true. now apply Hnone.
  - exact Hinv.
Qed.

Lemma no_orphans_five_days : no_orphans (Sample.state Sample.five_days).
Proof.
  intros c Hc. exists Sample.run. split; [now left|].
  cbn in Hc.
  repeat (destruct Hc as [<-|Hc]; [reflexivity|]). destruct Hc.
Qed.

(** C5 at an id that no habit carries. *)
Lemma C5_deleteHabit_witness :
  let s := Sample.state Sample.five_days in
  let s' := deleteHabit "1708992000999" s in
  (forall h, In h (habits s') <->
             In h (habits s) /\ Habit.id h <> "1708992000999"%string)
  /\ (forall c, In c (completions s') <->
                In c (completions s)
                /\ Completion.habitId c <> "1708992000999"%string)
  /\ habits s'
     = filter (fun h => negb (Habit.id h =? "1708992000999")%string) (habits s)
  /\ completions s'
     = filter (fun c => negb (Completion.habitId c =? "1708992000999")%string)
              (completions s)
  /\ spec_completionsFor "1708992000999" (completions s') = []
  /\ (forall other, other <> "1708992000999"%string ->
        spec_completionsFor other (completions s')
        = spec_completionsFor other (completions s))
  /\ newHabitName s' = newHabitName s
  /\ newHabitColor s' = newHabitColor s
  /\ ((forall h, In h (habits s) -> Habit.id h <> "1708992000999"%string) ->
      s' = s)
  /\ no_orphans s'.
Proof.
  apply (C5_deleteHabit_cascades "1708992000999"
           (Sample.state Sample.five_days)).
  exact no_orphans_five_days.
Defined.

Example deleteHabit_run :
  deleteHabit "1708992000000" (Sample.state Sample.five_days_mixed)
  = mkState [Sample.read]
      [ Sample.done "6" "1708992000555" "2024-03-02";
        Completion.mk "7" "1708992000555" "2024-03-01" false ]
      "" "#3B82F6".
Proof. vm_compute. reflexivity. Qed.

(* ================================================================== *)
(** * addHabit *)
(* ================================================================== *)

Lemma trimEnd_empty s : JS.trimEnd s = EmptyString <-> blank s = true.
Proof.
  induction s as [|c s IH]; cbn; [tauto|].
  destruct (JS.trimEnd s) as [|c' t].
  - destruct (JS.isWhiteSpace c); cbn.
    + split; [intros _; now apply IH|reflexivity].
    + split; discriminate.
  - split; [discriminate|].
    intros H. apply andb_prop in H as [_ H]. apply IH in H. discriminate.
Qed.

Lemma blank_trimStart s : blank (JS.trimStart s) = blank s.
Proof.
  induction s as [|c s IH]; cbn; [reflexivity|].
  destruct (JS.isWhiteSpace c) eqn:E; cbn; [exact IH|now rewrite E].
Qed.

(** The trimmed name is empty exactly for a name of white space only. *)
Lemma trim_empty s : JS.trim s = EmptyString <-> blank s = true.
Proof. unfold JS.trim. now rewrite trimEnd_empty, blank_trimStart. Qed.

Lemma Number_toString_inj a b :
  JS.Number_toString a = JS.Number_toString b -> a = b.
Proof.
  unfold JS.Number_toString. intros H.
  assert (Hnil : forall z, Z.to_int z <> Pos Nil /\ Z.to_int z <> Neg Nil).
  { intros [|p|p]; cbn; split; try discriminate;
      intros [= E]; now apply Unsigned.to_uint_nonnil in E. }
  assert (E : Some (Z.to_int a) = Some (Z.to_int b)).
  { rewrite <- (NilZero.isi (Z.to_int a)), <- (NilZero.isi (Z.to_int b));
      try apply Hnil. now rewrite H. }
  injection E as E. apply (f_equal Z.of_int) in E.
  now rewrite !DecimalZ.of_to in E.
Qed.

Example trim_name : JS.trim "  Read " = "Read"%string.
Proof. reflexivity. Qed.

Example trim_inner : JS.trim (String "009" "go for a run ") = "go for a run"%string.
Proof. reflexivity. Qed.

Example addHabit_blank :
  addHabit Sample.now (mkState [Sample.run] Sample.five_days "   " "#EF4444")
  = mkState [Sample.run] Sample.five_days "   " "#EF4444".
Proof. reflexivity. Qed.

Example addHabit_read :
  habits (addHabit 1708992000555
            (mkState [Sample.run] Sample.five_days "  Read " "#EF4444"))
  = [Sample.run;
     Habit.mk "1708992000555" "Read" "#EF4444" 1708992000555].
Proof. vm_compute. reflexivity. Qed.

(** C6 as stated fails. The id of the appended habit is the reading of
    the clock; a second habit added at the same reading gets the id of
    the first, which is not a fresh one. *)
Lemma C6_counterexample :
  reachable Sample.second_added
  /\ exists h h',
       habits Sample.first_added = [h]
       /\ habits Sample.second_added = [h; h']
       /\ Habit.name h = "Run"%string
       /\ Habit.name h' = "Read"%string
       /\ Habit.id h' = Habit.id h.
Proof.
  split; [exact reachable_second_added|].
  exists (Habit.mk "1708992000000" "Run" "#3B82F6" 1708992000000),
         (Habit.mk "1708992000000" "Read" "#EF4444" 1708992000000).
  vm_compute. repeat split.
Qed.

(** C6, amended. [addHabit] trims the name; a name that trims to the
    empty string (a name of white space only) leaves the state as it is;
    any other name appends one habit, after the habits already there,
    with the trimmed name, the chosen colour, the clock as [createdAt]
    and the decimal text of the clock as id, and empties the name field.
    That id differs from the ids of the habits already there when all of
    those are texts of other clock readings. *)
Theorem C6_addHabit_trims_and_appends :
  forall (now : Z) (s : AppState),
    let name := JS.trim (newHabitName s) in
    let s' := addHabit now s in
    (name = EmptyString <-> blank (newHabitName s) = true)
    /\ (name = EmptyString -> s' = s)
    /\ (name <> EmptyString ->
          habits s' =
            habits s ++
              [Habit.mk (JS.Number_toString now) name (newHabitColor s) now]
          /\ completions s' = completions s
          /\ newHabitColor s' = newHabitColor s
          /\ newHabitName s' = EmptyString)
    /\ ((forall h, In h (habits s) ->
           exists t, t <> now /\ Habit.id h = JS.Number_toString t) ->
        forall h, In h (habits s) -> Habit.id h <> JS.Number_toString now).
Proof.
  intros now s name s'. subst s'. unfold addHabit. fold name.
  split; [apply trim_empty|]. split; [|split].
  - intros E. now rewrite E.
  - intros Hne. destruct name as [|c t] eqn:E; [contradiction|].
    cbn. repeat split.
  - intros Hall h Hin Heq. destruct (Hall h Hin) as (t & Ht & Hid).
    apply Ht. apply Number_toString_inj. congruence.
Qed.

(** C6 at a name of three spaces. *)
Lemma C6_addHabit_witness :
  addHabit Sample.now (mkState [Sample.run] Sample.five_days "   " "#EF4444")
  = mkState [Sample.run] Sample.five_days "   " "#EF4444".
Proof.
  apply (C6_addHabit_trims_and_appends Sample.now
           (mkState [Sample.run] Sample.five_days "   " "#EF4444")).
  reflexivity.
Defined.

(* ================================================================== *)
(** * Doubles: conversion, division, multiplication and rounding *)
(* ================================================================== *)

(** ** Binary digits and shifts *)

(** The number of binary digits is one more than the binary logarithm. *)
Lemma digits2_pos_log2 p : Z.pos (digits2_pos p) = Z.log2 (Z.pos p) + 1.
Proof.
  assert (H : forall q, digits2_pos q = Pos.size q).
  { induction q; cbn; congruence. }
  rewrite H. destruct p; cbn; lia.
Qed.

Lemma Zdigits2_bounds m : 0 < m -> 2 ^ (Zdigits2 m - 1) <= m < 2 ^ Zdigits2 m.
Proof.
  intros H. destruct m as [|p|p]; try lia.
  cbn [Zdigits2]. rewrite digits2_pos_log2.
  replace (Z.log2 (Z.pos p) + 1 - 1) with (Z.log2 (Z.pos p)) by lia.
  replace (Z.log2 (Z.pos p) + 1) with (Z.succ (Z.log2 (Z.pos p))) by lia.
  apply Z.log2_spec. lia.
Qed.

Lemma Zdigits2_unique m k : 0 < k -> 2 ^ (k - 1) <= m < 2 ^ k -> Zdigits2 m = k.
Proof.
  intros Hk H.
  assert (Hm : 0 < m).
  { assert (0 < 2 ^ (k - 1)) by (apply Z.pow_pos_nonneg; lia). lia. }
  destruct m as [|p|p]; try lia.
  cbn [Zdigits2]. rewrite digits2_pos_log2.
  rewrite (Z.log2_unique (Z.pos p) (k - 1)); [lia|lia|].
  replace (Z.succ (k - 1)) with k by lia. exact H.
Qed.

(** [iter_pos] is iteration over the number. *)
Lemma iter_pos_nat {A : Type} (f : A -> A) p : forall x,
  iter_pos f p x = Nat.iter (Pos.to_nat p) f x.
Proof.
  induction p as [p IH|p IH|]; intros x; cbn [iter_pos].
  - rewrite !IH. rewrite Pos2Nat.inj_xI.
    cbn [Nat.iter]. rewrite Nat.iter_succ_r.
    replace (2 * Pos.to_nat p)%nat with (Pos.to_nat p + Pos.to_nat p)%nat by lia.
    now rewrite Nat.iter_add.
  - rewrite !IH. rewrite Pos2Nat.inj_xO.
    replace (2 * Pos.to_nat p)%nat with (Pos.to_nat p + Pos.to_nat p)%nat by lia.
    now rewrite Nat.iter_add.
  - reflexivity.
Qed.


Lemma inbetween_bounds num den m l :
  0 < den -> inbetween num den m l ->
  m * den <= num < (m + 1) * den
  /\ (l = loc_Exact -> num = m * den)
  /\ (l <> loc_Exact -> m * den < num).
Proof.
  intros Hden H. destruct l as [|c]; cbn [inbetween] in H.
  - repeat split; try lia. intros E. now contradiction E.
  - repeat split; try lia. discriminate.
Qed.

Ltac solve_compare :=
  first [ apply Z.compare_eq_iff; lia
        | apply Z.compare_lt_iff; lia
        | apply Z.compare_gt_iff; lia ].

(** A shift by one bit halves the mantissa and keeps track of where the
    quotient lies. *)
Lemma shr_1_inbetween num den mrs :
  0 <= shr_m mrs -> 0 < den ->
  inbetween num den (shr_m mrs) (loc_of_shr_record mrs) ->
  shr_m (shr_1 mrs) = shr_m mrs / 2
  /\ inbetween num (2 * den) (shr_m (shr_1 mrs)) (loc_of_shr_record (shr_1 mrs)).
Proof.
  destruct mrs as [m r s]. cbn [shr_m]. intros Hm Hden H.
  apply inbetween_bounds in H as (Hb & He & Hi); [|exact Hden].
  assert (Hs : orb r s = false -> num = m * den).
  { intros E. apply He. destruct r, s; try discriminate. reflexivity. }
  assert (Hs' : orb r s = true -> m * den < num).
  { intros E. apply Hi. destruct r, s; discriminate. }
  clear He Hi.
  destruct m as [|p|p]; [| |lia].
  - cbn [shr_1 shr_m]. split; [reflexivity|].
    destruct (orb r s) eqn:E; cbn [loc_of_shr_record inbetween].
    + specialize (Hs' eq_refl). split; [lia|solve_compare].
    + specialize (Hs eq_refl). lia.
  - destruct p as [p|p|]; cbn [shr_1 shr_m].
    + split; [rewrite Pos2Z.inj_xI; Z.div_mod_to_equations; lia|].
      rewrite Pos2Z.inj_xI in *.
      destruct (orb r s) eqn:E; cbn [loc_of_shr_record inbetween].
      * specialize (Hs' eq_refl). split; [lia|solve_compare].
      * specialize (Hs eq_refl). split; [lia|solve_compare].
    + split; [rewrite Pos2Z.inj_xO; Z.div_mod_to_equations; lia|].
      rewrite Pos2Z.inj_xO in *.
      destruct (orb r s) eqn:E; cbn [loc_of_shr_record inbetween].
      * specialize (Hs' eq_refl). split; [lia|solve_compare].
      * specialize (Hs eq_refl). lia.
    + split; [reflexivity|].
      destruct (orb r s) eqn:E; cbn [loc_of_shr_record inbetween].
      * specialize (Hs' eq_refl). split; [lia|solve_compare].
      * specialize (Hs eq_refl). split; [lia|solve_compare].
Qed.

Lemma shr_iter_inbetween num den n : forall mrs,
  0 <= shr_m mrs -> 0 < den ->
  inbetween num den (shr_m mrs) (loc_of_shr_record mrs) ->
  let mrs' := Nat.iter n shr_1 mrs in
  shr_m mrs' = shr_m mrs / 2 ^ Z.of_nat n
  /\ inbetween num (2 ^ Z.of_nat n * den) (shr_m mrs') (loc_of_shr_record mrs').
Proof.
  induction n as [|n IH]; intros mrs Hm Hden H.
  - cbn [Nat.iter Z.of_nat]. rewrite Z.pow_0_r, Z.div_1_r, Z.mul_1_l.
    now split.
  - cbn zeta. change (Nat.iter (S n) shr_1 mrs) with (shr_1 (Nat.iter n shr_1 mrs)).
    destruct (IH mrs Hm Hden H) as [IH1 IH2]. cbn zeta in IH1, IH2.
    set (mrs1 := Nat.iter n shr_1 mrs) in *.
    assert (Hm1 : 0 <= shr_m mrs1).
    { rewrite IH1. apply Z.div_pos; [exact Hm|]. apply Z.pow_pos_nonneg; lia. }
    assert (Hden1 : 0 < 2 ^ Z.of_nat n * den).
    { apply Z.mul_pos_pos; [apply Z.pow_pos_nonneg; lia|exact Hden]. }
    destruct (shr_1_inbetween num _ mrs1 Hm1 Hden1 IH2) as [E1 E2].
    split.
    + assert (Hp : 0 < 2 ^ Z.of_nat n) by (apply Z.pow_pos_nonneg; lia).
      rewrite E1, IH1. rewrite Z.div_div by lia.
      f_equal. rewrite Nat2Z.inj_succ, Z.pow_succ_r; lia.
    + replace (2 ^ Z.of_nat (S n) * den) with (2 * (2 ^ Z.of_nat n * den)); [exact E2|].
      rewrite Nat2Z.inj_succ, Z.pow_succ_r; lia.
Qed.

(** Rounding to nearest moves to a neighbour within half a unit. *)
Lemma round_nearest_even_inbetween num den m l :
  0 < den -> inbetween num den m l ->
  let m' := round_nearest_even m l in
  m <= m' <= m + 1 /\ 2 * Z.abs (m' * den - num) <= den.
Proof.
  intros Hden H m'. subst m'.
  destruct l as [|[| |]]; cbn [round_nearest_even inbetween] in *.
  - lia.
  - destruct H as [H1 H2]. apply Z.compare_eq in H2.
    destruct (Z.even m); lia.
  - destruct H as [H1 H2]. fold (Z.lt (2 * (num - m * den)) den) in H2. lia.
  - destruct H as [H1 H2]. fold (Z.gt (2 * (num - m * den)) den) in H2. lia.
Qed.

(** ** Rounding a quotient to 53 bits *)

Lemma fexp_normal x : -1021 <= x -> fexp 53 1024 x = x - 53.
Proof. intros H. unfold fexp, emin. lia. Qed.

Lemma shr_nat mrs e n :
  0 <= n -> shr mrs e n = (Nat.iter (Z.to_nat n) shr_1 mrs, e + n).
Proof.
  intros Hn. destruct n as [|p|p]; [| |lia].
  - cbn. now rewrite Z.add_0_r.
  - cbn [shr]. now rewrite iter_pos_nat.
Qed.

Lemma loc_of_shr_record_of_loc m l :
  loc_of_shr_record (shr_record_of_loc m l) = l.
Proof. now destruct l as [|[| |]]. Qed.

Lemma shr_m_shr_record_of_loc m l : shr_m (shr_record_of_loc m l) = m.
Proof. now destruct l as [|[| |]]. Qed.

Lemma pow2_div a b : 0 <= b <= a -> 2 ^ a / 2 ^ b = 2 ^ (a - b).
Proof.
  intros H. replace a with ((a - b) + b) at 1 by lia.
  rewrite Z.pow_add_r by lia. apply Z.div_mul.
  apply Z.pow_nonzero; lia.
Qed.

(** Rounding a mantissa of at least 53 bits, far from the ends of the
    exponent range: the result has a full mantissa and lies within half
    a unit in the last place of the quotient. *)
Lemma binary_round_aux_normal s mx ex lx num den :
  0 < den -> 0 < mx -> inbetween num den mx lx ->
  53 <= Zdigits2 mx -> -900 <= ex -> Zdigits2 mx + ex <= 900 ->
  exists m e,
    binary_round_aux 53 1024 s mx ex lx = S754_finite s m e
    /\ 2 ^ 52 <= Z.pos m < 2 ^ 53
    /\ (e = ex + Zdigits2 mx - 53 \/ e = ex + Zdigits2 mx - 52)
    /\ 2 * Z.abs (Z.pos m * (2 ^ (e - ex) * den) - num) <= 2 ^ (e - ex) * den.
Proof.
  intros Hden Hmx Hin Hd Hex Hhi.
  set (dx := Zdigits2 mx) in *.
  set (n := dx - 53).
  assert (Hn : 0 <= n) by (unfold n; lia).
  pose proof (Zdigits2_bounds mx Hmx) as Hb. fold dx in Hb.
  unfold binary_round_aux, shr_fexp. fold dx.
  rewrite fexp_normal by lia.
  replace (dx + ex - 53 - ex) with n by (unfold n; lia).
  rewrite shr_nat by exact Hn.
  set (mrs1 := Nat.iter (Z.to_nat n) shr_1 (shr_record_of_loc mx lx)).
  destruct (shr_iter_inbetween num den (Z.to_nat n) (shr_record_of_loc mx lx))
    as [Hm1 Hin1].
  { rewrite shr_m_shr_record_of_loc. lia. }
  { exact Hden. }
  { now rewrite shr_m_shr_record_of_loc, loc_of_shr_record_of_loc. }
  fold mrs1 in Hm1, Hin1. rewrite shr_m_shr_record_of_loc in Hm1.
  rewrite Z2Nat.id in Hm1, Hin1 by exact Hn.
  assert (Hpn : 0 < 2 ^ n) by (apply Z.pow_pos_nonneg; lia).
  assert (Hden1 : 0 < 2 ^ n * den) by (apply Z.mul_pos_pos; lia).
  assert (Hm1b : 2 ^ 52 <= shr_m mrs1 < 2 ^ 53).
  { rewrite Hm1. split.
    - replace 52 with (dx - 1 - n) by (unfold n; lia).
      rewrite <- pow2_div by (unfold n; lia).
      apply Z.div_le_mono; lia.
    - apply Z.div_lt_upper_bound; [lia|].
      rewrite <- Z.pow_add_r by lia.
      replace (n + 53) with dx by (unfold n; lia). lia. }
  destruct (round_nearest_even_inbetween num _ _ _ Hden1 Hin1) as [Hr1 Hr2].
  set (m2 := round_nearest_even (shr_m mrs1) (loc_of_shr_record mrs1)) in *.
  assert (Hcase : m2 < 2 ^ 53 \/ m2 = 2 ^ 53) by lia.
  destruct Hcase as [Hlt|Heq].
  - assert (Hd2 : Zdigits2 m2 = 53) by (apply Zdigits2_unique; lia).
    rewrite Hd2. rewrite fexp_normal by lia.
    replace (53 + (ex + n) - 53 - (ex + n)) with 0 by lia.
    cbn [shr shr_record_of_loc shr_m].
    destruct m2 as [|p|p] eqn:E; try lia.
    assert (Hle : (ex + n <=? 1024 - 53) = true) by (unfold n; lia).
    rewrite Hle. exists p, (ex + n).
    split; [reflexivity|]. split; [lia|]. split; [left; unfold n; lia|].
    replace (ex + n - ex) with n by lia. exact Hr2.
  - rewrite Heq.
    assert (Hd2 : Zdigits2 (2 ^ 53) = 54) by reflexivity.
    rewrite Hd2. rewrite fexp_normal by lia.
    replace (54 + (ex + n) - 53 - (ex + n)) with 1 by lia.
    cbn [shr shr_record_of_loc].
    change (iter_pos shr_1 1 {| shr_m := 2 ^ 53; shr_r := false; shr_s := false |})
      with {| shr_m := 2 ^ 52; shr_r := false; shr_s := false |}.
    cbn [shr_m].
    change (2 ^ 52) with (Z.pos (2 ^ 52)%positive) at 1.
    assert (Hle : (ex + n + 1 <=? 1024 - 53) = true) by (unfold n; lia).
    cbv iota. rewrite Hle. exists (2 ^ 52)%positive, (ex + n + 1).
    split; [reflexivity|]. split; [split; vm_compute; congruence|].
    split; [right; unfold n; lia|].
    replace (ex + n + 1 - ex) with (n + 1) by lia.
    rewrite Z.pow_add_r by lia.
    rewrite Heq in Hr2.
    change (Z.pos (2 ^ 52)) with (2 ^ 52).
    replace (2 ^ 52 * (2 ^ n * 2 ^ 1 * den)) with (2 ^ 53 * (2 ^ n * den))
      by (change (2 ^ 53) with (2 ^ 52 * 2); change (2 ^ 1) with 2; ring).
    change (2 ^ 1) with 2. lia.
Qed.

(** ** The operations on full mantissas *)


(** A full mantissa with nothing to round is kept. *)
Lemma binary_round_aux_exact s p ex :
  2 ^ 52 <= Z.pos p < 2 ^ 53 -> -900 <= ex <= 900 ->
  binary_round_aux 53 1024 s (Z.pos p) ex loc_Exact = S754_finite s p ex.
Proof.
  intros Hp Hex.
  assert (Hd : Zdigits2 (Z.pos p) = 53) by (apply Zdigits2_unique; lia).
  unfold binary_round_aux, shr_fexp. rewrite Hd, fexp_normal by lia.
  replace (53 + ex - 53 - ex) with 0 by lia.
  cbn [shr shr_record_of_loc shr_m loc_of_shr_record round_nearest_even].
  rewrite Hd, fexp_normal by lia.
  replace (53 + ex - 53 - ex) with 0 by lia.
  cbn [shr shr_record_of_loc shr_m].
  assert (Hle : (ex <=? 1024 - 53) = true) by lia.
  now rewrite Hle.
Qed.

Lemma iter_xO p d : Z.pos (Pos.iter xO p d) = Z.pos p * 2 ^ Z.pos d.
Proof.
  induction d as [|d IH] using Pos.peano_ind.
  - cbn. lia.
  - rewrite Pos.iter_succ, Pos2Z.inj_xO, IH, Pos2Z.inj_succ, Z.pow_succ_r by lia.
    ring.
Qed.

(** An integer from 1 to 2^53 - 1 is a double, exactly. *)
Lemma Number_of_Z_normal n :
  1 <= n < 2 ^ 53 ->
  exists m e, normal (JS.Number_of_Z n) m e
              /\ -52 <= e <= 0 /\ Z.pos m = n * 2 ^ (- e).
Proof.
  intros Hn. destruct n as [|p|p]; try lia.
  unfold JS.Number_of_Z, JS.prec, JS.emax, binary_normalize, binary_round.
  pose proof (Zdigits2_bounds (Z.pos p) ltac:(lia)) as Hb.
  cbn [Zdigits2] in Hb.
  set (dn := Z.pos (digits2_pos p)) in *.
  assert (Hdn : 1 <= dn <= 53).
  { split; [unfold dn; lia|].
    destruct (Z_le_gt_dec dn 53) as [H|H]; [exact H|exfalso].
    assert (2 ^ 53 <= 2 ^ (dn - 1)) by (apply Z.pow_le_mono_r; lia). lia. }
  rewrite fexp_normal by lia.
  unfold shl_align.
  replace (dn + 0 - 53 - 0) with (dn - 53) by lia.
  destruct (dn - 53) as [|d|d] eqn:E; try lia.
  - rewrite binary_round_aux_exact by (replace dn with 53 in * by lia; lia).
    exists p, 0. unfold normal. replace dn with 53 in * by lia.
    repeat split; try lia.
  - assert (Hm : Z.pos (Pos.iter xO p d) = Z.pos p * 2 ^ (53 - dn)).
    { rewrite iter_xO. f_equal. f_equal. lia. }
    assert (Hmb : 2 ^ 52 <= Z.pos (Pos.iter xO p d) < 2 ^ 53).
    { rewrite Hm. split.
      - replace 52 with ((dn - 1) + (53 - dn)) by lia.
        rewrite Z.pow_add_r by lia.
        apply Z.mul_le_mono_nonneg_r; [apply Z.pow_nonneg; lia|lia].
      - replace 53 with (dn + (53 - dn)) at 2 by lia.
        rewrite Z.pow_add_r by lia.
        apply Z.mul_lt_mono_pos_r; [apply Z.pow_pos_nonneg; lia|lia]. }
    rewrite binary_round_aux_exact by (try exact Hmb; lia).
    exists (Pos.iter xO p d), (dn + 0 - 53). unfold normal.
    repeat split; try lia.
    rewrite Hm. f_equal. f_equal. lia.
Qed.

Lemma new_location_inbetween num den q r :
  0 < den -> 0 <= r < den -> num = q * den + r ->
  inbetween num den q (new_location den r).
Proof.
  intros Hden Hr Hnum. unfold new_location.
  destruct (Z.even den) eqn:Ev.
  - unfold new_location_even. destruct (r =? 0) eqn:E.
    + cbn. lia.
    + cbn [inbetween]. split; [lia|]. f_equal; lia.
  - unfold new_location_odd. destruct (r =? 0) eqn:E.
    + cbn. lia.
    + cbn [inbetween]. split; [lia|].
      replace (num - q * den) with r by lia.
      assert (Hodd : Z.odd den = true) by (rewrite <- Z.negb_even, Ev; reflexivity).
      apply Z.odd_spec in Hodd as [k Hk].
      destruct (2 * r + 1 ?= den) eqn:C.
      * apply Z.compare_eq in C. apply Z.compare_lt_iff. lia.
      * fold (Z.lt (2 * r + 1) den) in C. apply Z.compare_lt_iff. lia.
      * fold (Z.gt (2 * r + 1) den) in C. apply Z.compare_gt_iff. lia.
Qed.

(** Division: the quotient of the mantissas, scaled by 2^53, rounded to
    the nearest mantissa. *)
Lemma SFdiv_normal mc ec md ed :
  2 ^ 52 <= Z.pos mc < 2 ^ 53 -> 2 ^ 52 <= Z.pos md < 2 ^ 53 ->
  -60 <= ec <= 0 -> -60 <= ed <= 0 ->
  exists m e,
    normal (SFdiv 53 1024 (S754_finite false mc ec) (S754_finite false md ed)) m e
    /\ (e = ec - ed - 53 \/ e = ec - ed - 52 \/ e = ec - ed - 51)
    /\ 2 * Z.abs (Z.pos m * (2 ^ (e - (ec - ed - 53)) * Z.pos md)
                  - Z.pos mc * 2 ^ 53)
       <= 2 ^ (e - (ec - ed - 53)) * Z.pos md.
Proof.
  intros Hc Hd Hec Hed.
  assert (Hdc : Zdigits2 (Z.pos mc) = 53) by (apply Zdigits2_unique; lia).
  assert (Hdd : Zdigits2 (Z.pos md) = 53) by (apply Zdigits2_unique; lia).
  unfold SFdiv, SFdiv_core_binary. rewrite Hdc, Hdd.
  replace (53 + ec - (53 + ed)) with (ec - ed) by lia.
  rewrite fexp_normal by lia.
  replace (Z.min (ec - ed - 53) (ec - ed)) with (ec - ed - 53) by lia.
  replace (ec - ed - (ec - ed - 53)) with 53 by lia.
  cbv iota. rewrite Z.shiftl_mul_pow2 by lia.
  pose proof (Z_div_mod (Z.pos mc * 2 ^ 53) (Z.pos md) ltac:(lia)) as Hdm.
  destruct (Z.div_eucl (Z.pos mc * 2 ^ 53) (Z.pos md)) as [q r].
  destruct Hdm as [Heq Hr].
  assert (Hq : 2 ^ 52 <= q < 2 ^ 54).
  { change (2 ^ 53) with 9007199254740992 in *.
    change (2 ^ 52) with 4503599627370496 in *.
    change (2 ^ 54) with 18014398509481984. nia. }
  assert (HdQ : Zdigits2 q = 53 \/ Zdigits2 q = 54).
  { destruct (Z_lt_le_dec q (2 ^ 53)).
    - left. apply Zdigits2_unique; lia.
    - right. apply Zdigits2_unique; lia. }
  destruct (binary_round_aux_normal false q (ec - ed - 53) (new_location (Z.pos md) r)
              (Z.pos mc * 2 ^ 53) (Z.pos md))
    as (m & e & Hres & Hm & He & Herr); try lia.
  { apply new_location_inbetween; lia. }
  cbn [xorb]. exists m, e. split; [split; assumption|]. split; [lia|exact Herr].
Qed.

(** Multiplication: the product of the mantissas rounded to the nearest
    mantissa. *)
Lemma SFmul_normal mx ex my ey :
  2 ^ 52 <= Z.pos mx < 2 ^ 53 -> 2 ^ 52 <= Z.pos my < 2 ^ 53 ->
  -200 <= ex <= 0 -> -200 <= ey <= 0 ->
  exists m e,
    normal (SFmul 53 1024 (S754_finite false mx ex) (S754_finite false my ey)) m e
    /\ (e = ex + ey + 52 \/ e = ex + ey + 53 \/ e = ex + ey + 54)
    /\ 2 * Z.abs (Z.pos m * 2 ^ (e - (ex + ey)) - Z.pos mx * Z.pos my)
       <= 2 ^ (e - (ex + ey)).
Proof.
  intros Hx Hy Hex Hey.
  unfold SFmul. cbn [xorb].
  assert (Hp : 2 ^ 104 <= Z.pos (mx * my) < 2 ^ 106).
  { rewrite Pos2Z.inj_mul.
    change (2 ^ 104) with (2 ^ 52 * 2 ^ 52). change (2 ^ 106) with (2 ^ 53 * 2 ^ 53).
    change (2 ^ 53) with 9007199254740992 in *.
    change (2 ^ 52) with 4503599627370496 in *. nia. }
  assert (HdP : Zdigits2 (Z.pos (mx * my)) = 105 \/ Zdigits2 (Z.pos (mx * my)) = 106).
  { destruct (Z_lt_le_dec (Z.pos (mx * my)) (2 ^ 105)).
    - left. apply Zdigits2_unique; lia.
    - right. apply Zdigits2_unique; lia. }
  destruct (binary_round_aux_normal false (Z.pos (mx * my)) (ex + ey) loc_Exact
              (Z.pos (mx * my)) 1)
    as (m & e & Hres & Hm & He & Herr); try lia.
  { cbn. lia. }
  exists m, e. split; [split; assumption|]. split; [lia|].
  rewrite Z.mul_1_r in Herr. now rewrite <- Pos2Z.inj_mul.
Qed.

(** ** From two rounded operations to the rounded percentage *)

(** The integer part of the analysis: [mq / A] approximates [c / d] and
    [my / (2 * B2)] approximates [100 * mq / A], each within half a unit
    of a 53-bit mantissa. *)
Lemma rounding_close c d mq my A B2 k :
  1 <= c < 2 ^ 32 -> 1 <= d -> 0 < A -> 0 < B2 ->
  2 ^ 52 <= mq < 2 ^ 53 -> 2 ^ 52 <= my < 2 ^ 53 ->
  2 * Z.abs (mq * d - c * A) <= d ->
  2 * Z.abs (my * A - 100 * mq * (2 * B2)) <= A ->
  k = (my + B2) / (2 * B2) ->
  let P := (200 * c + d) / (2 * d) in
  k = P \/ (200 * c + d = 2 * d * P /\ k = P - 1).
Proof.
  intros Hc Hd HA HB Hmq Hmy HD HM Hk P.
  change (2 ^ 32) with 4294967296 in *.
  change (2 ^ 52) with 4503599627370496 in *.
  change (2 ^ 53) with 9007199254740992 in *.
  set (B := 2 * B2) in *.
  assert (HB' : 0 < B) by (unfold B; lia).
  (* sizes of A and B relative to d *)
  assert (H1 : 4503599627370496 * d <= mq * d)
    by (apply Z.mul_le_mono_nonneg_r; lia).
  assert (H2 : c * A <= 4294967295 * A)
    by (apply Z.mul_le_mono_nonneg_r; lia).
  assert (HAd : 524288 * d < A) by lia.
  assert (H3 : 4503599627370496 * A <= my * A)
    by (apply Z.mul_le_mono_nonneg_r; lia).
  assert (H4 : mq * B < 9007199254740992 * B)
    by (apply Z.mul_lt_mono_pos_r; lia).
  assert (HAB : A < 201 * B) by lia.
  assert (HBd : 2048 * d < B) by lia.
  (* the product is close to 100 * c / d *)
  set (Z0 := my * d - 100 * c * B).
  assert (HZ : 2 * (Z.abs Z0 * A) <= A * d + 100 * (B * d)).
  { assert (E : Z0 * A = (my * A - 100 * mq * B) * d + 100 * B * (mq * d - c * A))
      by (unfold Z0; ring).
    assert (E1 : 2 * Z.abs (my * A - 100 * mq * B) * d <= A * d)
      by (apply Z.mul_le_mono_nonneg_r; lia).
    assert (E2 : 100 * B * (2 * Z.abs (mq * d - c * A)) <= 100 * B * d)
      by (apply Z.mul_le_mono_nonneg_l; lia).
    assert (E3 : Z.abs (Z0 * A)
                 <= Z.abs (my * A - 100 * mq * B) * d
                    + 100 * B * Z.abs (mq * d - c * A)).
    { rewrite E. eapply Z.le_trans; [apply Z.abs_triangle|].
      rewrite (Z.abs_mul _ d), (Z.abs_mul (100 * B)), (Z.abs_eq d),
        (Z.abs_eq (100 * B)) by lia. lia. }
    rewrite Z.abs_mul, (Z.abs_eq A) in E3 by lia. lia. }
  assert (HE : 2 * Z.abs Z0 < B).
  { destruct (Z_lt_le_dec (2 * Z.abs Z0) B) as [|Hge]; [assumption|exfalso].
    assert (G1 : B * A <= 2 * Z.abs Z0 * A)
      by (apply Z.mul_le_mono_nonneg_r; lia).
    assert (G2 : 2048 * d * A < B * A)
      by (apply Z.mul_lt_mono_pos_r; lia).
    assert (G3 : B * (524288 * d) < B * A)
      by (apply Z.mul_lt_mono_pos_l; lia).
    lia. }
  (* the two floors *)
  assert (HP : 2 * d * P <= 200 * c + d < 2 * d * (P + 1)).
  { unfold P. pose proof (Z.div_mod (200 * c + d) (2 * d) ltac:(lia)).
    pose proof (Z.mod_pos_bound (200 * c + d) (2 * d) ltac:(lia)). lia. }
  assert (HK : B * k <= my + B2 < B * (k + 1)).
  { rewrite Hk. pose proof (Z.div_mod (my + B2) B ltac:(lia)).
    pose proof (Z.mod_pos_bound (my + B2) B ltac:(lia)). lia. }
  assert (Hup : 2 * d * k <= 200 * c + d).
  { assert (G0 : B * k * d <= (my + B2) * d)
      by (apply Z.mul_le_mono_nonneg_r; lia).
    assert (G : B2 * (2 * d * k) < B2 * (200 * c + d + 1))
      by (unfold Z0, B in *; lia).
    apply Z.mul_lt_mono_pos_l in G; lia. }
  assert (Hlo : 200 * c + d <= 2 * d * (k + 1)).
  { assert (G0 : (my + B2) * d < B * (k + 1) * d)
      by (apply Z.mul_lt_mono_pos_r; lia).
    assert (G : B2 * (200 * c + d - 1) < B2 * (2 * d * (k + 1)))
      by (unfold Z0, B in *; lia).
    apply Z.mul_lt_mono_pos_l in G; lia. }
  assert (Hk1 : k <= P).
  { unfold P. apply Z.div_le_lower_bound; lia. }
  assert (Hk2 : P - 1 <= k).
  { assert (G : 2 * d * P <= 2 * d * (k + 1)) by lia.
    apply Z.mul_le_mono_pos_l in G; lia. }
  destruct (Z.eq_dec k P) as [|Hne]; [now left|right].
  assert (Hk3 : k = P - 1) by lia. split; [|assumption].
  rewrite Hk3 in Hlo. replace (P - 1 + 1) with P in Hlo by lia. lia.
Qed.

Lemma abs_scaled x k bound :
  0 < k -> 2 * Z.abs (x * k) <= bound * k -> 2 * Z.abs x <= bound.
Proof.
  intros Hk H. rewrite Z.abs_mul, (Z.abs_eq k) in H by lia.
  apply (Z.mul_le_mono_pos_r _ _ k); lia.
Qed.

(** The error of the division in terms of the integers divided. *)
Lemma div_error_clean c d mc md mq ec ed eq :
  mc = c * 2 ^ (- ec) -> md = d * 2 ^ (- ed) ->
  ec <= 0 -> ed <= 0 -> eq <= 0 -> 0 <= eq - (ec - ed - 53) ->
  2 * Z.abs (mq * (2 ^ (eq - (ec - ed - 53)) * md) - mc * 2 ^ 53)
    <= 2 ^ (eq - (ec - ed - 53)) * md ->
  2 * Z.abs (mq * d - c * 2 ^ (- eq)) <= d.
Proof.
  intros Hmc Hmd Hec Hed Heq Hj H.
  set (j := eq - (ec - ed - 53)) in *.
  set (K := 2 ^ j * 2 ^ (- ed)).
  assert (HK : 0 < K).
  { apply Z.mul_pos_pos; apply Z.pow_pos_nonneg; lia. }
  apply (abs_scaled _ K); [exact HK|].
  assert (E1 : 2 ^ (- ec) * 2 ^ 53 = 2 ^ (- eq) * K).
  { unfold K. rewrite <- !Z.pow_add_r by lia. f_equal. unfold j. lia. }
  replace ((mq * d - c * 2 ^ (- eq)) * K)
    with (mq * (2 ^ j * md) - mc * 2 ^ 53).
  - replace (d * K) with (2 ^ j * md); [exact H|].
    rewrite Hmd. unfold K. ring.
  - rewrite Hmc, Hmd. unfold K.
    replace (c * 2 ^ (- ec) * 2 ^ 53) with (c * (2 ^ (- ec) * 2 ^ 53)) by ring.
    rewrite E1. unfold K. ring.
Qed.

(** The error of the multiplication by 100. *)
Lemma mul_error_clean mq my eq ey :
  ey <= 0 -> 6 <= ey - eq ->
  2 * Z.abs (my * 2 ^ (ey - (eq + -46)) - mq * (100 * 2 ^ 46))
    <= 2 ^ (ey - (eq + -46)) ->
  2 * Z.abs (my * 2 ^ (- eq) - 100 * mq * 2 ^ (- ey)) <= 2 ^ (- eq).
Proof.
  intros Hey Ht H.
  set (t := ey - eq) in *.
  assert (E : 2 ^ (ey - (eq + -46)) = 2 ^ t * 2 ^ 46).
  { rewrite <- Z.pow_add_r by lia. f_equal. unfold t. lia. }
  rewrite E in H.
  assert (H' : 2 * Z.abs (my * 2 ^ t - 100 * mq) <= 2 ^ t).
  { apply (abs_scaled _ (2 ^ 46)); [reflexivity|].
    replace ((my * 2 ^ t - 100 * mq) * 2 ^ 46)
      with (my * (2 ^ t * 2 ^ 46) - mq * (100 * 2 ^ 46)) by ring.
    exact H. }
  assert (E2 : 2 ^ (- eq) = 2 ^ t * 2 ^ (- ey)).
  { rewrite <- Z.pow_add_r by lia. f_equal. unfold t. lia. }
  assert (HB : 0 < 2 ^ (- ey)) by (apply Z.pow_pos_nonneg; lia).
  rewrite E2.
  replace (my * (2 ^ t * 2 ^ (- ey)) - 100 * mq * 2 ^ (- ey))
    with ((my * 2 ^ t - 100 * mq) * 2 ^ (- ey)) by ring.
  rewrite Z.abs_mul, (Z.abs_eq (2 ^ (- ey))) by lia.
  replace (2 * (Z.abs (my * 2 ^ t - 100 * mq) * 2 ^ (- ey)))
    with (2 * Z.abs (my * 2 ^ t - 100 * mq) * 2 ^ (- ey)) by ring.
  apply Z.mul_le_mono_nonneg_r; lia.
Qed.

(** An integer below 2^32 sits at an exponent of -21 or less. *)
Lemma small_exponent n m e :
  1 <= n < 2 ^ 32 -> 2 ^ 52 <= m -> m = n * 2 ^ (- e) -> e <= 0 -> e <= -21.
Proof.
  intros Hn Hm E He.
  destruct (Z_le_gt_dec e (-21)) as [|Hgt]; [assumption|exfalso].
  assert (H : 2 ^ (- e) <= 2 ^ 20) by (apply Z.pow_le_mono_r; lia).
  assert (H' : n * 2 ^ (- e) <= n * 2 ^ 20)
    by (apply Z.mul_le_mono_nonneg_l; lia).
  change (2 ^ 52) with 4503599627370496 in *.
  change (2 ^ 32) with 4294967296 in *.
  change (2 ^ 20) with 1048576 in *. lia.
Qed.

Lemma halfway_spec c d :
  0 <= c -> 1 <= d ->
  (halfway c d = true <-> 200 * c + d = 2 * d * spec_round_percent c d).
Proof.
  intros Hc Hd. unfold halfway, spec_round_percent.
  rewrite Z.eqb_eq.
  pose proof (Z.div_mod (200 * c + d) (2 * d) ltac:(lia)) as E1.
  pose proof (Z.mod_pos_bound (200 * c + d) (2 * d) ltac:(lia)) as B1.
  pose proof (Z.div_mod (200 * c) (2 * d) ltac:(lia)) as E2.
  pose proof (Z.mod_pos_bound (200 * c) (2 * d) ltac:(lia)) as B2.
  split.
  - intros H. rewrite H in E2.
    assert (E3 : (200 * c + d) / (2 * d) = 200 * c / (2 * d) + 1).
    { symmetry. apply (Z.div_unique _ _ _ 0); lia. }
    rewrite E3. lia.
  - intros H.
    assert (E3 : (200 * c + d) mod (2 * d) = 0) by lia.
    symmetry. apply (Z.mod_unique _ _ ((200 * c + d) / (2 * d) - 1)); lia.
Qed.

Lemma Math_round_negative_exponent m e :
  e < 0 ->
  JS.Math_round (S754_finite false m e)
  = JS.Number_of_Z ((Z.pos m + 2 ^ (- e - 1)) / 2 ^ (- e)).
Proof.
  intros He. unfold JS.Math_round, JS.Number_of_Z.
  assert (E : (0 <=? e) = false) by lia. now rewrite E.
Qed.

(** The rate is the exact percentage rounded with ties upwards, or the
    integer below it when the percentage lies exactly halfway. *)
Theorem rate_of_nearest c d :
  0 <= c < 2 ^ 32 -> 1 <= d < 2 ^ 32 ->
  rate_of c d = JS.Number_of_Z (spec_round_percent c d)
  \/ (halfway c d = true
      /\ rate_of c d = JS.Number_of_Z (spec_round_percent c d - 1)).
Proof.
  intros Hc Hd.
  assert (H53 : 2 ^ 32 < 2 ^ 53) by reflexivity.
  destruct (Number_of_Z_normal d ltac:(lia)) as (md & ed & [Nd Hmd] & Hed & Emd).
  destruct (Z.eq_dec c 0) as [->|Hc0].
  - left. unfold rate_of. rewrite Nd.
    change (JS.Number_of_Z 0) with (S754_zero false).
    assert (E : spec_round_percent 0 d = 0).
    { unfold spec_round_percent. apply Z.div_small. lia. }
    rewrite E. reflexivity.
  - destruct (Number_of_Z_normal c ltac:(lia)) as (mc & ec & [Nc Hmc] & Hec & Emc).
    assert (Hec' : ec <= -21) by (apply (small_exponent c (Z.pos mc)); lia).
    assert (Hed' : ed <= -21) by (apply (small_exponent d (Z.pos md)); lia).
    destruct (SFdiv_normal mc ec md ed Hmc Hmd ltac:(lia) ltac:(lia))
      as (mq & eq & [Nq Hmq] & Heq & Hqerr).
    assert (Heqb : -84 <= eq <= -20) by (clear - Heq Hec Hed Hec' Hed'; lia).
    assert (N100 : JS.Number_of_Z 100 = S754_finite false 7036874417766400 (-46))
      by reflexivity.
    destruct (SFmul_normal mq eq 7036874417766400 (-46) Hmq
                ltac:(split; vm_compute; congruence) ltac:(lia) ltac:(lia))
      as (my & ey & [Ny Hmy] & Hey & Hyerr).
    assert (Heyb : -78 <= ey <= -12) by (clear - Hey Heqb; lia).
    assert (Hround : rate_of c d
                     = JS.Number_of_Z ((Z.pos my + 2 ^ (- ey - 1)) / 2 ^ (- ey))).
    { unfold rate_of, JS.div, JS.mul, JS.prec, JS.emax.
      rewrite Nc, Nd, Nq, N100, Ny.
      apply Math_round_negative_exponent. clear - Heyb. lia. }
    assert (HD : 2 * Z.abs (Z.pos mq * d - c * 2 ^ (- eq)) <= d).
    { apply (div_error_clean c d (Z.pos mc) (Z.pos md) (Z.pos mq) ec ed eq);
        try assumption; clear - Heq Heqb Hec Hed; lia. }
    assert (HM : 2 * Z.abs (Z.pos my * 2 ^ (- eq)
                            - 100 * Z.pos mq * 2 ^ (- ey)) <= 2 ^ (- eq)).
    { apply mul_error_clean; [clear - Heyb; lia|clear - Hey; lia|].
      change (100 * 2 ^ 46) with (Z.pos 7036874417766400). exact Hyerr. }
    assert (EB : 2 ^ (- ey) = 2 * 2 ^ (- ey - 1)).
    { rewrite <- Z.pow_succ_r by (clear - Heyb; lia).
      f_equal. clear - Heyb. lia. }
    rewrite EB in HM.
    assert (HA : 0 < 2 ^ (- eq))
      by (apply Z.pow_pos_nonneg; [reflexivity|clear - Heqb; lia]).
    assert (HB : 0 < 2 ^ (- ey - 1))
      by (apply Z.pow_pos_nonneg; [reflexivity|clear - Heyb; lia]).
    destruct (rounding_close c d (Z.pos mq) (Z.pos my) (2 ^ (- eq))
                (2 ^ (- ey - 1)) _
                ltac:(lia) ltac:(lia) HA HB Hmq Hmy HD HM eq_refl)
      as [Hk|[Htie Hk]].
    + left. rewrite Hround, EB, Hk. reflexivity.
    + right. split.
      * apply halfway_spec; [lia|lia|exact Htie].
      * rewrite Hround, EB, Hk. reflexivity.
Qed.

(* ================================================================== *)
(** * getCompletionRate *)
(* ================================================================== *)

Lemma daysBetweenInclusive_same d : spec_daysBetweenInclusive d d = 1.
Proof.
  unfold spec_daysBetweenInclusive, DateFns.differenceInDays.
  now rewrite Z.sub_diag.
Qed.

(** Two instants of one calendar day are less than a full day apart. *)
Lemma differenceInDays_same_day a b :
  DateFns.localDay a = DateFns.localDay b ->
  DateFns.differenceInDays b a = 0.
Proof.
  unfold DateFns.localDay, DateFns.differenceInDays, DateFns.msPerDay.
  intros H. apply Z.quot_small_iff; [lia|].
  Z.div_mod_to_equations. lia.
Qed.

Example rate_23_of_40 :
  JS.mul (JS.div (JS.Number_of_Z 23) (JS.Number_of_Z 40)) (JS.Number_of_Z 100)
  = S754_finite false 8092405580431359 (-47).
Proof. vm_compute. reflexivity. Qed.

Example exact_57_and_a_half :
  JS.div (JS.Number_of_Z 115) (JS.Number_of_Z 2)
  = S754_finite false 8092405580431360 (-47).
Proof. vm_compute. reflexivity. Qed.

Example round_57_and_a_half :
  JS.Math_round (JS.div (JS.Number_of_Z 115) (JS.Number_of_Z 2))
  = JS.Number_of_Z 58.
Proof. vm_compute. reflexivity. Qed.

Example round_minus_a_half :
  JS.Math_round (JS.div (JS.Number_of_Z (-1)) (JS.Number_of_Z 2))
  = S754_zero true.
Proof. vm_compute. reflexivity. Qed.

(** C4 as stated fails. 23 completed days on day 40 are 57.5 percent,
    which rounds to 58 (ties upwards or ties to even), and
    [getCompletionRate] returns 57: the quotient 23 / 40 is rounded to a
    double below 0.575 before it is multiplied by 100. *)
Lemma C4_counterexample :
  spec_completedDays (Habit.id Sample.walk) (completions Sample.walk_state) = 23
  /\ Z.max 1 (spec_daysBetweenInclusive (Habit.createdAt Sample.walk) Sample.now)
     = 40
  /\ halfway 23 40 = true
  /\ spec_round_percent 23 40 = 58
  /\ spec_round_percent_even 23 40 = 58
  /\ getCompletionRate Sample.now Sample.walk_state Sample.walk
     = JS.Number_of_Z 57
  /\ getCompletionRate Sample.now Sample.walk_state Sample.walk
     <> JS.Number_of_Z
          (spec_completionRate Sample.now (completions Sample.walk_state)
                               Sample.walk).
Proof.
  repeat split; try (vm_compute; reflexivity).
  vm_compute. discriminate.
Qed.

Lemma getCompletionRate_rate_of now s habit :
  getCompletionRate now s habit
  = rate_of (spec_completedDays (Habit.id habit) (completions s))
            (Z.max 1 (spec_daysBetweenInclusive (Habit.createdAt habit) now)).
Proof.
  unfold getCompletionRate, rate_of. now rewrite completedDays_length.
Qed.

(** C4, amended. With
    [daysElapsed = max 1 (daysBetweenInclusive createdAt now)], where
    [daysBetweenInclusive d d = 1], and [completedDays] the number of
    records of the whole log with the habit's id and [completed = true],
    [getCompletionRate] is [Math.round] of the double
    [(completedDays / daysElapsed) * 100]. For counts below 2^32 (the
    bound of a JavaScript array and beyond any span of days of a Date)
    that is [round (100 * completedDays / daysElapsed)], ties upwards,
    unless the quotient lies exactly halfway between two integers, where
    it is that integer or the one below. A habit created on the day of
    [now] has [daysElapsed = 1], and its rate is 0 with no completed
    record and 100 with one. *)
Theorem C4_completion_rate_rounds_the_percentage :
  forall (now : Z) (s : AppState) (habit : Habit.t),
    let daysElapsed :=
      Z.max 1 (spec_daysBetweenInclusive (Habit.createdAt habit) now) in
    let completedDays := spec_completedDays (Habit.id habit) (completions s) in
    getCompletionRate now s habit
    = JS.Math_round
        (JS.mul (JS.div (JS.Number_of_Z completedDays)
                        (JS.Number_of_Z daysElapsed))
                (JS.Number_of_Z 100))
    /\ (forall d, spec_daysBetweenInclusive d d = 1)
    /\ 1 <= daysElapsed
    /\ completedDays
       = Z.of_nat (List.length
           (filter Completion.completed
                   (spec_completionsFor (Habit.id habit) (completions s))))
    /\ (completedDays < 2 ^ 32 -> daysElapsed < 2 ^ 32 ->
          getCompletionRate now s habit
          = JS.Number_of_Z (spec_completionRate now (completions s) habit)
          \/ (halfway completedDays daysElapsed = true
              /\ getCompletionRate now s habit
                 = JS.Number_of_Z
                     (spec_completionRate now (completions s) habit - 1)))
    /\ (DateFns.localDay (Habit.createdAt habit) = DateFns.localDay now ->
          daysElapsed = 1
          /\ (completedDays = 0 ->
                getCompletionRate now s habit = JS.Number_of_Z 0)
          /\ (completedDays = 1 ->
                getCompletionRate now s habit = JS.Number_of_Z 100)).
Proof.
  intros now s habit daysElapsed completedDays.
  assert (Hrate : getCompletionRate now s habit
                  = rate_of completedDays daysElapsed)
    by apply getCompletionRate_rate_of.
  assert (Hpos : 1 <= daysElapsed) by apply Z.le_max_l.
  assert (Hcount : completedDays
    = Z.of_nat (List.length
        (filter Completion.completed
                (spec_completionsFor (Habit.id habit) (completions s)))))
    by apply completedDays_count.
  split; [exact Hrate|]. split; [exact daysBetweenInclusive_same|].
  split; [exact Hpos|]. split; [exact Hcount|]. split.
  - intros Hc Hd. rewrite Hrate. unfold spec_completionRate.
    fold daysElapsed completedDays.
    apply rate_of_nearest; [|lia]. split; [|exact Hc].
    rewrite Hcount. apply Nat2Z.is_nonneg.
  - intros Hday.
    assert (Hone : daysElapsed = 1).
    { unfold daysElapsed, spec_daysBetweenInclusive.
      now rewrite (differenceInDays_same_day _ _ Hday). }
    split; [exact Hone|]. rewrite Hrate, Hone.
    split; intros ->; vm_compute; reflexivity.
Qed.

(** C4 at a habit created a minute ago with one completed record. *)
Lemma C4_completion_rate_witness :
  getCompletionRate (Sample.now + 60000)
    (mkState [Sample.run]
             [Sample.done "1" "1708992000000" "2024-03-02"] "" "#3B82F6")
    (Habit.mk "1708992000000" "Run" "#3B82F6" Sample.now)
  = JS.Number_of_Z 100.
Proof.
  apply (C4_completion_rate_rounds_the_percentage (Sample.now + 60000)
           (mkState [Sample.run]
                    [Sample.done "1" "1708992000000" "2024-03-02"]
                    "" "#3B82F6")
           (Habit.mk "1708992000000" "Run" "#3B82F6" Sample.now)).
  - vm_compute. reflexivity.
  - vm_compute. reflexivity.
Defined.

(* ================================================================== *)
(** * One cell of the calendar *)
(* ================================================================== *)

(** As a condition, [isHabitCompleted] is the test of the streak walk. *)
Lemma observed_marked s h d :
  observed s h d = marked (completions s) h (DateFns.localDay d).
Proof. unfold observed. now rewrite isHabitCompleted_find. Qed.

Lemma localDay_subDays t n :
  DateFns.localDay (DateFns.subDays t n) = DateFns.localDay t - n.
Proof.
  unfold DateFns.localDay, DateFns.subDays.
  replace (t - n * DateFns.msPerDay) with (t + (- n) * DateFns.msPerDay) by ring.
  rewrite Z.div_add by discriminate. ring.
Qed.

(** The mark of every day of every habit after a toggle: negated for
    the days that have the key of the day of the call. *)
Lemma marked_toggle now habitId date s h d :
  marked (completions (toggleHabitCompletion now habitId date s)) h d =
    if (h =? habitId)%string
       && (DateFns.format_day d =? DateFns.format_day (toggled_day now date))%string
    then negb (marked (completions s) h d)
    else marked (completions s) h d.
Proof.
  unfold marked.
  destruct (find (matches habitId (DateFns.format_day (toggled_day now date)))
                 (completions s)) as [c|] eqn:E.
  - rewrite (toggle_present _ _ _ _ c E). cbn [completions].
    rewrite find_map_flip_matching.
    destruct (find (matches h (DateFns.format_day d)) (completions s))
      as [c1|] eqn:E1; cbn [option_map and_completed JS.ToBoolean].
    + apply find_some in E1 as [_ Hm]. apply matches_spec in Hm as [Hh Hd].
      unfold flip_matching, matches. rewrite Hh, Hd.
      now destruct ((h =? habitId)%string && _).
    + destruct ((h =? habitId)%string && _) eqn:C; [|reflexivity].
      apply andb_prop in C as [Ch Cd].
      apply String.eqb_eq in Ch, Cd. rewrite Ch, Cd in E1. congruence.
  - rewrite (toggle_absent _ _ _ _ E). cbn [completions].
    rewrite find_app_last.
    destruct (find (matches h (DateFns.format_day d)) (completions s))
      as [c1|] eqn:E1.
    + destruct ((h =? habitId)%string && _) eqn:C; [|reflexivity].
      apply andb_prop in C as [Ch Cd].
      apply String.eqb_eq in Ch, Cd. rewrite Ch, Cd in E1. congruence.
    + unfold matches at 1. cbn [Completion.habitId Completion.date].
      rewrite (String.eqb_sym habitId h),
        (String.eqb_sym (DateFns.format_day (toggled_day now date))).
      now destruct ((h =? habitId)%string && _).
Qed.

(** For days from year 1 on, and for days less than a year from the day
    of the call, that is the day of the call alone. *)
Lemma marked_toggle_day now habitId date s h d :
  (DateFns.year_one <= d /\ DateFns.year_one <= toggled_day now date)
  \/ Z.abs (d - toggled_day now date) < 365 ->
  marked (completions (toggleHabitCompletion now habitId date s)) h d =
    if (h =? habitId)%string && (d =? toggled_day now date)
    then negb (marked (completions s) h d)
    else marked (completions s) h d.
Proof. intros H. now rewrite marked_toggle, format_day_eqb. Qed.

(** X1. After [toggleHabitCompletion], [isHabitCompleted] read as a
    condition is negated for the habit of the call on every day that
    has the key of the day of the call, and is what it was for every
    other habit and every day with another key; this holds on every
    log, also one with several records of a pair. Among the days from
    year 1 on, and among days less than a year apart, the negated cell
    is the one of the calendar day of the call. *)
Theorem toggle_flips_one_cell :
  forall (now : Z) (habitId : string) (date : option Z) (s : AppState)
         (h : string) (d : Z),
    let s' := toggleHabitCompletion now habitId date s in
    observed s' h d =
      (if (h =? habitId)%string
          && (DateFns.format (DateFns.startOfDay d)
              =? DateFns.format_day (toggled_day now date))%string
       then negb (observed s h d)
       else observed s h d)
    /\ ((DateFns.year_one <= DateFns.localDay d
         /\ DateFns.year_one <= toggled_day now date)
        \/ Z.abs (DateFns.localDay d - toggled_day now date) < 365 ->
        observed s' h d =
          if (h =? habitId)%string
             && (DateFns.localDay d =? toggled_day now date)
          then negb (observed s h d)
          else observed s h d).
Proof.
  intros now habitId date s h d s'. unfold s'.
  rewrite !observed_marked, format_startOfDay. split.
  - apply marked_toggle.
  - apply marked_toggle_day.
Qed.

Example toggle_cell_of_yesterday :
  let s' := toggleHabitCompletion Sample.now "1708992000000"
              (Some (DateFns.subDays Sample.now 1))
              (Sample.state Sample.five_days) in
  observed s' "1708992000000" (DateFns.subDays Sample.now 1) = false
  /\ observed s' "1708992000000" Sample.now = true
  /\ calculateStreak 3 Sample.now Sample.run (completions s') = Some 1%nat.
Proof. vm_compute. repeat split. Qed.

(** A toggle of the last day before the era also shows on the last day
    of year 1, which has the same key. *)
Example toggle_cell_before_the_era :
  let s' := toggleHabitCompletion Sample.now "1708992000000"
              (Some ((DateFns.year_one - 1) * DateFns.msPerDay))
              (Sample.state Sample.five_days) in
  observed s' "1708992000000" ((DateFns.year_one - 1) * DateFns.msPerDay) = true
  /\ observed s' "1708992000000" ((DateFns.year_one + 364) * DateFns.msPerDay)
     = true
  /\ observed (Sample.state Sample.five_days) "1708992000000"
       ((DateFns.year_one + 364) * DateFns.msPerDay) = false.
Proof. vm_compute. repeat split. Qed.

(* ================================================================== *)
(** * The streak from one day to the next *)
(* ================================================================== *)

(** A run is a matter of its days and of the day before them. *)
Lemma consecutive_run_window (P Q : Z -> Prop) d n :
  (forall x, d - Z.of_nat n <= x <= d -> (P x <-> Q x)) ->
  consecutive_run P d n -> consecutive_run Q d n.
Proof.
  intros H [Hrun Hmiss]. split.
  - intros i Hi. apply H; [lia|]. now apply Hrun.
  - intros HQ. apply Hmiss. apply H; [lia|exact HQ].
Qed.

Lemma consecutive_run_step (P : Z -> Prop) d n :
  P d -> consecutive_run P (d - 1) n -> consecutive_run P d (S n).
Proof.
  intros Hd [Hrun Hmiss]. split.
  - intros i Hi. destruct (Z.eq_dec i 0) as [->|Hne].
    + now replace (d - 0) with d by lia.
    + replace (d - i) with (d - 1 - (i - 1)) by lia. apply Hrun. lia.
  - replace (d - Z.of_nat (S n)) with (d - 1 - Z.of_nat n) by lia.
    exact Hmiss.
Qed.

Lemma consecutive_run_none (P : Z -> Prop) d :
  ~ P d -> consecutive_run P d 0.
Proof.
  intros H. split; [intros i Hi; lia|].
  now replace (d - Z.of_nat 0) with d by lia.
Qed.

Lemma consecutive_run_zero (P : Z -> Prop) d n :
  ~ P d -> consecutive_run P d n -> n = 0%nat.
Proof.
  intros H Hrun.
  apply (consecutive_run_unique P d); [exact Hrun|].
  now apply consecutive_run_none.
Qed.

(** A marked day has a completed record of the habit. *)
Lemma marked_key_in_completed cs habitId d :
  marked cs habitId d = true ->
  In (DateFns.format_day d)
     (map Completion.date
        (filter (fun c => (Completion.habitId c =? habitId)%string
                          && Completion.completed c) cs)).
Proof.
  unfold marked. destruct (find _ cs) as [c|] eqn:E; [|discriminate].
  cbn [and_completed JS.ToBoolean]. intros Hc.
  apply find_some in E as [Hin Hm].
  apply matches_spec in Hm as [Hh Hd]. rewrite <- Hd.
  apply in_map. apply filter_In. split; [exact Hin|].
  rewrite Hc, andb_true_r. now apply String.eqb_eq.
Qed.

(** The streak is the run of marked days that ends yesterday, and one
    more when today is marked. *)
Lemma calculateStreak_yesterday_run now habit cs n fuel :
  consecutive_run (fun day => marked cs (Habit.id habit) day = true)
                  (DateFns.localDay now - 1) n ->
  (n + 2 <= fuel)%nat ->
  calculateStreak fuel now habit cs =
    Some (if marked cs (Habit.id habit) (DateFns.localDay now)
          then S n else n).
Proof.
  intros Hrun Hfuel.
  destruct (marked cs (Habit.id habit) (DateFns.localDay now)) eqn:Ht.
  - replace fuel with (S (S n + (fuel - n - 2)))%nat by lia.
    apply calculateStreak_from_today; [exact Ht|].
    now apply consecutive_run_step.
  - replace fuel with (S (S (n + (fuel - n - 2))))%nat by lia.
    now apply calculateStreak_from_yesterday.
Qed.

(** X2. When today lies more days after 0001-01-01 than the log has
    records, checking a habit off today raises its streak by one and
    taking the mark back lowers it by one: [toggleHabitCompletion]
    without a date, then [calculateStreak] at the same reading of the
    clock. *)
Theorem streak_follows_the_mark_of_today :
  forall (now : Z) (habit : Habit.t) (s : AppState),
    since_year_one now (List.length (completions s)) ->
    let s' := toggleHabitCompletion now (Habit.id habit) None s in
    exists n : nat,
      forall fuel, (List.length (completions s) + 2 <= fuel)%nat ->
        calculateStreak fuel now habit (completions s) =
          Some (if observed s (Habit.id habit) now then S n else n)
        /\ calculateStreak fuel now habit (completions s') =
             Some (if observed s (Habit.id habit) now then n else S n).
Proof.
  intros now habit s Hera s'. unfold since_year_one in Hera.
  destruct (run_exists_era habit (completions s) (DateFns.localDay now - 1)
              ltac:(lia)) as (n & Hn & Hrun).
  exists n. intros fuel Hfuel. rewrite observed_marked. split.
  - apply calculateStreak_yesterday_run; [exact Hrun|lia].
  - rewrite (calculateStreak_yesterday_run now habit (completions s') n).
    + unfold s'. rewrite marked_toggle. unfold toggled_day, toggled_date.
      rewrite !String.eqb_refl. cbn [andb].
      now destruct (marked (completions s) (Habit.id habit)
                      (DateFns.localDay now)).
    + apply (consecutive_run_window
               (fun day => marked (completions s) (Habit.id habit) day = true));
        [|exact Hrun].
      intros x Hx. unfold s'. rewrite marked_toggle_day.
      * unfold toggled_day, toggled_date.
        replace (x =? DateFns.localDay now) with false
          by (symmetry; apply Z.eqb_neq; lia).
        rewrite andb_false_r. reflexivity.
      * left. unfold toggled_day, toggled_date. lia.
    + lia.
Qed.

(** X2 at the four days of [run], today not yet checked off. *)
Lemma streak_follows_the_mark_witness :
  exists n : nat,
    forall fuel,
      (List.length (completions (Sample.state Sample.four_days)) + 2
       <= fuel)%nat ->
      calculateStreak fuel Sample.now Sample.run
        (completions (Sample.state Sample.four_days))
      = Some (if observed (Sample.state Sample.four_days)
                   (Habit.id Sample.run) Sample.now
              then S n else n)
      /\ calculateStreak fuel Sample.now Sample.run
           (completions
              (toggleHabitCompletion Sample.now (Habit.id Sample.run) None
                 (Sample.state Sample.four_days)))
         = Some (if observed (Sample.state Sample.four_days)
                      (Habit.id Sample.run) Sample.now
                 then n else S n).
Proof.
  apply (streak_follows_the_mark_of_today Sample.now Sample.run
           (Sample.state Sample.four_days)).
  vm_compute. discriminate.
Defined.

(** Across the start of the era the mark of today is also the mark of
    the day a year before: from the streak of 671, taking it back leaves
    364. *)
Example uncheck_today_across_year_one :
  let habit := Habit.mk "h" "Run" "#3B82F6" 0 in
  let s := mkState [habit] (Sample.records "h" DateFns.year_one 365) "" "#3B82F6" in
  let now := (DateFns.year_one + 364) * DateFns.msPerDay in
  calculateStreak 672 now habit
    (completions (toggleHabitCompletion now "h" None s))
  = Some 364%nat.
Proof. vm_compute. reflexivity. Qed.

Example check_off_today :
  calculateStreak 7 Sample.now Sample.run Sample.four_days = Some 4%nat
  /\ calculateStreak 7 Sample.now Sample.run
       (completions
          (toggleHabitCompletion Sample.now "1708992000000" None
             (Sample.state Sample.four_days)))
     = Some 5%nat.
Proof. vm_compute. split; reflexivity. Qed.

(** The streak with its bounds, for a list that holds the key of every
    marked day. *)
Lemma calculateStreak_keys now habit cs (keys : list string) :
  (forall x, marked cs (Habit.id habit) x = true ->
     In (DateFns.format_day x) keys) ->
  exists n : nat,
    (n <= 2 * List.length keys)%nat
    /\ (forall fuel, (2 * List.length keys + 2 <= fuel)%nat ->
          calculateStreak fuel now habit cs = Some n)
    /\ (since_year_one now (List.length keys) ->
          (n <= List.length keys)%nat
          /\ forall fuel, (List.length keys + 2 <= fuel)%nat ->
               calculateStreak fuel now habit cs = Some n).
Proof.
  intros Hkeys.
  set (P := fun x => marked cs (Habit.id habit) x).
  destruct (marked cs (Habit.id habit) (DateFns.localDay now)) eqn:Ht.
  - destruct (run_bound P keys (DateFns.localDay now) Hkeys)
      as (n & Hn & Hrun).
    assert (Hsome : forall fuel, (n + 1 <= fuel)%nat ->
              calculateStreak fuel now habit cs = Some n).
    { intros fuel Hf. replace fuel with (S (n + (fuel - n - 1)))%nat by lia.
      now apply calculateStreak_from_today. }
    exists n. split; [exact Hn|]. split; [intros fuel Hf; apply Hsome; lia|].
    intros Hera. unfold since_year_one in Hera.
    destruct (run_bound_era P keys (DateFns.localDay now) ltac:(lia) Hkeys)
      as (m & Hm & Hrun').
    rewrite (consecutive_run_unique _ _ _ _ Hrun Hrun').
    split; [exact Hm|]. intros fuel Hf.
    rewrite <- (consecutive_run_unique _ _ _ _ Hrun Hrun').
    apply Hsome.
    rewrite (consecutive_run_unique _ _ _ _ Hrun Hrun'). lia.
  - destruct (run_bound P keys (DateFns.localDay now - 1) Hkeys)
      as (n & Hn & Hrun).
    assert (Hsome : forall fuel, (n + 2 <= fuel)%nat ->
              calculateStreak fuel now habit cs = Some n).
    { intros fuel Hf.
      replace fuel with (S (S (n + (fuel - n - 2))))%nat by lia.
      now apply calculateStreak_from_yesterday. }
    exists n. split; [exact Hn|]. split; [intros fuel Hf; apply Hsome; lia|].
    intros Hera. unfold since_year_one in Hera.
    destruct (run_bound_era P keys (DateFns.localDay now - 1) ltac:(lia) Hkeys)
      as (m & Hm & Hrun').
    rewrite (consecutive_run_unique _ _ _ _ Hrun Hrun').
    split; [exact Hm|]. intros fuel Hf.
    rewrite <- (consecutive_run_unique _ _ _ _ Hrun Hrun').
    apply Hsome.
    rewrite (consecutive_run_unique _ _ _ _ Hrun Hrun'). lia.
Qed.

(** X3. The streak is never more than twice the habit's total of the
    stats view, the number of its records with [completed = true] (a
    record counts for two days at most, one of them before year 1), and
    the walk needs no more turns than that bound and two; when today
    lies more days after 0001-01-01 than that total, the streak is at
    most the total. A habit without a completed record has streak 0. *)
Theorem streak_at_most_total_completions :
  forall (now : Z) (habit : Habit.t) (s : AppState),
    exists n : nat,
      (n <= 2 * totalCompletions s habit)%nat
      /\ (forall fuel, (2 * totalCompletions s habit + 2 <= fuel)%nat ->
            calculateStreak fuel now habit (completions s) = Some n)
      /\ (since_year_one now (totalCompletions s habit) ->
            (n <= totalCompletions s habit)%nat
            /\ forall fuel, (totalCompletions s habit + 2 <= fuel)%nat ->
                 calculateStreak fuel now habit (completions s) = Some n).
Proof.
  intros now habit s. unfold totalCompletions.
  rewrite <- (length_map Completion.date).
  apply calculateStreak_keys.
  intros x. apply marked_key_in_completed.
Qed.

(** X4. The flame of the today view: a habit completed today has a
    streak of at least one, and the streak is 0 exactly when the habit
    is completed neither today nor yesterday. *)
Theorem streak_zero_iff_two_days_missed :
  forall (now : Z) (habit : Habit.t) (s : AppState),
    exists n : nat,
      (forall fuel, (2 * List.length (completions s) + 2 <= fuel)%nat ->
         calculateStreak fuel now habit (completions s) = Some n)
      /\ (observed s (Habit.id habit) now = true -> (1 <= n)%nat)
      /\ (n = 0%nat <->
          observed s (Habit.id habit) now = false
          /\ observed s (Habit.id habit) (DateFns.subDays now 1) = false).
Proof.
  intros now habit s.
  destruct (run_exists habit (completions s) (DateFns.localDay now - 1))
    as (y & Hy & Hrun).
  rewrite !observed_marked, localDay_subDays.
  exists (if marked (completions s) (Habit.id habit) (DateFns.localDay now)
          then S y else y).
  split; [|split].
  - intros fuel Hfuel. apply calculateStreak_yesterday_run; [exact Hrun|lia].
  - intros ->. lia.
  - destruct (marked (completions s) (Habit.id habit) (DateFns.localDay now)).
    + split; [discriminate|]. intros [H _]. discriminate.
    + split.
      * intros ->. split; [reflexivity|].
        destruct Hrun as [_ Hmiss].
        replace (DateFns.localDay now - 1 - Z.of_nat 0)
          with (DateFns.localDay now - 1) in Hmiss by lia.
        now apply not_true_is_false.
      * intros [_ Hm].
        apply (consecutive_run_zero _ _ _ (fun H => eq_true_false_abs _ H Hm) Hrun).
Qed.

(** X5. Over midnight: on the next day, before that day is checked off,
    the streak is the one of the day before when that day was completed
    and 0 when it was not. *)
Theorem streak_on_the_next_day :
  forall (now now' : Z) (habit : Habit.t) (s : AppState),
    DateFns.localDay now' = DateFns.localDay now + 1 ->
    observed s (Habit.id habit) now' = false ->
    exists n : nat,
      forall fuel, (2 * List.length (completions s) + 2 <= fuel)%nat ->
        calculateStreak fuel now habit (completions s) = Some n
        /\ calculateStreak fuel now' habit (completions s) =
             Some (if observed s (Habit.id habit) now then n else 0%nat).
Proof.
  intros now now' habit s Hday Hnot.
  rewrite observed_marked in Hnot. rewrite observed_marked.
  destruct (marked (completions s) (Habit.id habit) (DateFns.localDay now))
    eqn:Ht.
  - destruct (run_exists habit (completions s) (DateFns.localDay now))
      as (m & Hm & Hrun).
    exists m. intros fuel Hfuel. split.
    + replace fuel with (S (m + (fuel - m - 1)))%nat by lia.
      now apply calculateStreak_from_today.
    + rewrite (calculateStreak_yesterday_run now' habit _ m).
      * now rewrite Hnot.
      * rewrite Hday. replace (DateFns.localDay now + 1 - 1)
          with (DateFns.localDay now) by lia.
        exact Hrun.
      * lia.
  - destruct (run_exists habit (completions s) (DateFns.localDay now - 1))
      as (y & Hy & Hrun).
    exists y. intros fuel Hfuel. split.
    + rewrite (calculateStreak_yesterday_run now habit _ y)
        by (assumption || lia).
      now rewrite Ht.
    + rewrite (calculateStreak_yesterday_run now' habit _ 0).
      * now rewrite Hnot.
      * rewrite Hday. replace (DateFns.localDay now + 1 - 1)
          with (DateFns.localDay now) by lia.
        apply consecutive_run_none. now rewrite Ht.
      * lia.
Qed.

(** X5 on the five days of [run], read on the morning of the next day. *)
Lemma streak_on_the_next_day_witness :
  exists n : nat,
    forall fuel, (2 * 5 + 2 <= fuel)%nat ->
      calculateStreak fuel Sample.now Sample.run Sample.five_days = Some n
      /\ calculateStreak fuel (Sample.now + DateFns.msPerDay) Sample.run
           Sample.five_days
         = Some (if observed (Sample.state Sample.five_days)
                      "1708992000000" Sample.now
                 then n else 0%nat).
Proof.
  apply (streak_on_the_next_day Sample.now (Sample.now + DateFns.msPerDay)
           Sample.run (Sample.state Sample.five_days)).
  - vm_compute. reflexivity.
  - vm_compute. reflexivity.
Defined.

Example streak_lost_over_two_nights :
  calculateStreak 7 (Sample.now + DateFns.msPerDay) Sample.run Sample.five_days
    = Some 5%nat
  /\ calculateStreak 7 (Sample.now + 2 * DateFns.msPerDay) Sample.run
       Sample.five_days = Some 0%nat.
Proof. vm_compute. split; reflexivity. Qed.

(** The walk reads the days from today back to the first day before
    today that is not marked, and of the clock only its calendar day. *)
Lemma streak_loop_window fuel now now' habit cs1 cs2 miss :
  DateFns.localDay now' = DateFns.localDay now ->
  miss < DateFns.localDay now ->
  marked cs2 (Habit.id habit) miss = false ->
  (forall d, miss <= d <= DateFns.localDay now ->
     marked cs1 (Habit.id habit) d = marked cs2 (Habit.id habit) d) ->
  forall streak d, miss <= d <= DateFns.localDay now ->
    streak_loop fuel now' habit cs1 streak (d * DateFns.msPerDay)
    = streak_loop fuel now habit cs2 streak (d * DateFns.msPerDay).
Proof.
  intros Hday Hbefore Hmiss H.
  induction fuel as [|f IH]; intros streak d Hd; [reflexivity|].
  rewrite !streak_loop_S, !streak_body_at_day, Hday, (H d Hd).
  destruct (marked cs2 (Habit.id habit) d) eqn:E.
  - apply IH. assert (d <> miss) by congruence. lia.
  - destruct ((streak =? 0)%nat && (d =? DateFns.localDay now)) eqn:C;
      [|reflexivity].
    apply andb_prop in C as [_ C]. apply Z.eqb_eq in C. apply IH. lia.
Qed.

(** X6. When today lies more days after 0001-01-01 than the log has
    records, the streak does not look ahead and does not read the time
    of day: toggling a day after today, as the calendar view allows,
    leaves the streak of every habit as it is, at any reading of the
    clock on the same day. *)
Theorem streak_ignores_days_to_come :
  forall (now now' t : Z) (habitId : string) (date : option Z)
         (s : AppState) (habit : Habit.t) (fuel : nat),
    since_year_one now (List.length (completions s)) ->
    DateFns.localDay now' = DateFns.localDay now ->
    DateFns.localDay now < toggled_day t date ->
    calculateStreak fuel now' habit
      (completions (toggleHabitCompletion t habitId date s))
    = calculateStreak fuel now habit (completions s).
Proof.
  intros now now' t habitId date s habit fuel Hera Hday Hlater.
  unfold since_year_one in Hera.
  destruct (run_exists_era habit (completions s) (DateFns.localDay now - 1)
              ltac:(lia)) as (n & Hn & [_ Hmiss]).
  apply not_true_is_false in Hmiss.
  unfold calculateStreak. rewrite !startOfDay_localDay, Hday.
  apply (streak_loop_window fuel now now' habit _ _
           (DateFns.localDay now - 1 - Z.of_nat n));
    [exact Hday|lia|exact Hmiss| |lia].
  intros d Hd. rewrite marked_toggle_day by (left; lia).
  replace (d =? toggled_day t date) with false
    by (symmetry; apply Z.eqb_neq; lia).
  now rewrite andb_false_r.
Qed.

(** X6 at a toggle of tomorrow, read an hour later. *)
Lemma streak_ignores_days_to_come_witness :
  calculateStreak 7 (Sample.now + 3600000) Sample.run
    (completions
       (toggleHabitCompletion Sample.now "1708992000000"
          (Some (Sample.now + DateFns.msPerDay))
          (Sample.state Sample.five_days)))
  = calculateStreak 7 Sample.now Sample.run
      (completions (Sample.state Sample.five_days)).
Proof.
  apply (streak_ignores_days_to_come Sample.now (Sample.now + 3600000)
           Sample.now "1708992000000"
           (Some (Sample.now + DateFns.msPerDay))
           (Sample.state Sample.five_days) Sample.run 7).
  - vm_compute. discriminate.
  - vm_compute. reflexivity.
  - vm_compute. reflexivity.
Defined.

(** Near the start of the era a later day can have the key of an earlier
    one: in the first year, with its first 152 days completed, a toggle
    of its last day marks the day before its first one, and the streak
    grows. *)
Example streak_and_a_day_to_come :
  let habit := Habit.mk "h" "Run" "#3B82F6" 0 in
  let s := mkState [habit] (Sample.records "h" DateFns.year_one 152) "" "#3B82F6" in
  let now := (DateFns.year_one + 151) * DateFns.msPerDay in
  calculateStreak 200 now habit (completions s) = Some 152%nat
  /\ calculateStreak 200 now habit
       (completions
          (toggleHabitCompletion now "h"
             (Some ((DateFns.year_one + 364) * DateFns.msPerDay)) s))
     = Some 153%nat.
Proof. vm_compute. split; reflexivity. Qed.

(* ================================================================== *)
(** * Deleting and adding habits *)
(* ================================================================== *)

Lemma find_filter_keeps {A : Type} (p q : A -> bool) (l : list A) :
  (forall x, p x = true -> q x = true) ->
  find p (filter q l) = find p l.
Proof.
  intros H. induction l as [|a l IH]; [reflexivity|].
  cbn. destruct (p a) eqn:Ep.
  - rewrite (H a Ep). cbn. now rewrite Ep.
  - destruct (q a); cbn; [now rewrite Ep|exact IH].
Qed.

Lemma filter_filter_keeps {A : Type} (p q : A -> bool) (l : list A) :
  (forall x, p x = true -> q x = true) ->
  filter p (filter q l) = filter p l.
Proof.
  intros H. induction l as [|a l IH]; [reflexivity|].
  cbn. destruct (p a) eqn:Ep.
  - rewrite (H a Ep). cbn. now rewrite Ep, IH.
  - destruct (q a); cbn; [now rewrite Ep|exact IH].
Qed.

Lemma filter_comm {A : Type} (p q : A -> bool) (l : list A) :
  filter p (filter q l) = filter q (filter p l).
Proof.
  induction l as [|a l IH]; [reflexivity|].
  cbn. destruct (p a) eqn:Ep, (q a) eqn:Eq; cbn;
    rewrite ?Ep, ?Eq, ?IH; reflexivity.
Qed.

(** X7. [deleteHabit] does not touch another habit: it stays in the
    list, and [isHabitCompleted] for each day, the streak, the completion
    rate and the total of the stats view are what they were; for the
    deleted id [isHabitCompleted] then returns [undefined] on every
    day. *)
Theorem deleteHabit_spares_the_other_habits :
  forall (habitId : string) (s : AppState) (habit : Habit.t),
    Habit.id habit <> habitId ->
    let s' := deleteHabit habitId s in
    (In habit (habits s) -> In habit (habits s'))
    /\ (forall d, isHabitCompleted s' (Habit.id habit) d
                  = isHabitCompleted s (Habit.id habit) d)
    /\ (forall fuel now,
          calculateStreak fuel now habit (completions s')
          = calculateStreak fuel now habit (completions s))
    /\ (forall now, getCompletionRate now s' habit
                    = getCompletionRate now s habit)
    /\ totalCompletions s' habit = totalCompletions s habit
    /\ (forall d, isHabitCompleted s' habitId d = JS.Undefined).
Proof.
  intros habitId s habit Hne s'.
  assert (Hfind : forall k,
    find (matches (Habit.id habit) k) (completions s')
    = find (matches (Habit.id habit) k) (completions s)).
  { intros k. unfold s', deleteHabit. cbn [completions].
    apply find_filter_keeps. intros c Hm.
    apply matches_spec in Hm as [Hh _]. apply negb_eqb_true. congruence. }
  assert (Hcount :
    filter (fun c => (Completion.habitId c =? Habit.id habit)%string
                     && Completion.completed c) (completions s')
    = filter (fun c => (Completion.habitId c =? Habit.id habit)%string
                       && Completion.completed c) (completions s)).
  { unfold s', deleteHabit. cbn [completions].
    apply filter_filter_keeps. intros c Hc.
    apply andb_prop in Hc as [Hh _]. apply String.eqb_eq in Hh.
    apply negb_eqb_true. congruence. }
  split; [|split; [|split; [|split; [|split]]]].
  - intros Hin. unfold s', deleteHabit. cbn [habits].
    apply filter_In. split; [exact Hin|]. now apply negb_eqb_true.
  - intros d. unfold isHabitCompleted. now rewrite Hfind.
  - intros fuel now. unfold calculateStreak. apply streak_loop_ext.
    intros d. unfold marked. now rewrite Hfind.
  - intros now. unfold getCompletionRate. now rewrite Hcount.
  - unfold totalCompletions. now rewrite Hcount.
  - intros d. unfold isHabitCompleted.
    destruct (find _ (completions s')) as [c|] eqn:E; [|reflexivity].
    exfalso. apply find_some in E as [Hin Hm].
    apply matches_spec in Hm as [Hh _].
    unfold s', deleteHabit in Hin. cbn [completions] in Hin.
    apply filter_In in Hin as [_ Hk]. apply negb_eqb_true in Hk.
    contradiction.
Qed.

(** X7 at the deletion of [read], seen from [run]. *)
Lemma deleteHabit_spares_witness :
  let s := Sample.state Sample.five_days_mixed in
  let s' := deleteHabit "1708992000555" s in
  (In Sample.run (habits s) -> In Sample.run (habits s'))
  /\ (forall d, isHabitCompleted s' (Habit.id Sample.run) d
                = isHabitCompleted s (Habit.id Sample.run) d)
  /\ (forall fuel now,
        calculateStreak fuel now Sample.run (completions s')
        = calculateStreak fuel now Sample.run (completions s))
  /\ (forall now, getCompletionRate now s' Sample.run
                  = getCompletionRate now s Sample.run)
  /\ totalCompletions s' Sample.run = totalCompletions s Sample.run
  /\ (forall d, isHabitCompleted s' "1708992000555" d = JS.Undefined).
Proof.
  apply (deleteHabit_spares_the_other_habits "1708992000555"
           (Sample.state Sample.five_days_mixed) Sample.run).
  vm_compute. discriminate.
Defined.

(** X8. Deleting twice is deleting once, and two deletions give the same
    state in either order. *)
Theorem deleteHabit_idempotent_and_commutes :
  forall (a b : string) (s : AppState),
    deleteHabit a (deleteHabit a s) = deleteHabit a s
    /\ deleteHabit a (deleteHabit b s) = deleteHabit b (deleteHabit a s).
Proof.
  intros a b s. unfold deleteHabit. cbn [habits completions newHabitName
                                         newHabitColor].
  split.
  - f_equal; apply filter_filter_keeps; intros x H; exact H.
  - f_equal; apply filter_comm.
Qed.

(** X9. Adding a habit and deleting it again gives back the habits and
    the log, with the name field emptied, when no habit and no record
    carried the new id before. *)
Theorem addHabit_then_deleteHabit :
  forall (now : Z) (s : AppState),
    addDisabled s = false ->
    (forall h, In h (habits s) -> Habit.id h <> JS.Number_toString now) ->
    (forall c, In c (completions s) ->
       Completion.habitId c <> JS.Number_toString now) ->
    deleteHabit (JS.Number_toString now) (addHabit now s)
    = mkState (habits s) (completions s) EmptyString (newHabitColor s).
Proof.
  intros now s Hname Hhabits Hlog.
  unfold addDisabled in Hname. apply negb_false_iff in Hname.
  unfold addHabit. rewrite Hname. unfold deleteHabit.
  cbn [habits completions newHabitName newHabitColor].
  f_equal.
  - rewrite filter_app. cbn [filter Habit.id].
    rewrite String.eqb_refl. cbn [negb]. rewrite app_nil_r.
    apply filter_all. intros h Hh. apply negb_eqb_true. now apply Hhabits.
  - apply filter_all. intros c Hc. apply negb_eqb_true. now apply Hlog.
Qed.

(** X9 at a third habit beside two with records. *)
Lemma addHabit_then_deleteHabit_witness :
  deleteHabit (JS.Number_toString Sample.now) (addHabit Sample.now Scene.busy)
  = mkState (habits Scene.busy) (completions Scene.busy) EmptyString
            (newHabitColor Scene.busy).
Proof.
  apply (addHabit_then_deleteHabit Sample.now Scene.busy).
  - vm_compute. reflexivity.
  - intros h [<-|[<-|[]]]; vm_compute; discriminate.
  - intros c Hc. vm_compute in Hc.
    repeat (destruct Hc as [<-|Hc]; [vm_compute; discriminate|]).
    destruct Hc.
Defined.

(** X10. The Add button is disabled exactly when [addHabit] would leave
    the list of habits as it is; after [addHabit] it is disabled, and a
    second [addHabit], as a second press of Enter gives, changes
    nothing, whatever the clock shows. *)
Theorem addHabit_once :
  forall (now now' : Z) (s : AppState),
    (addDisabled s = true <-> habits (addHabit now s) = habits s)
    /\ (addDisabled s = false ->
        List.length (habits (addHabit now s)) = S (List.length (habits s)))
    /\ addDisabled (addHabit now s) = true
    /\ addHabit now' (addHabit now s) = addHabit now s.
Proof.
  intros now now' s. unfold addDisabled.
  assert (Hadd : JS.truthy_string (JS.trim (newHabitName s)) = true ->
                 List.length (habits (addHabit now s))
                 = S (List.length (habits s))).
  { intros E. unfold addHabit. rewrite E. cbn [habits].
    rewrite length_app. cbn. lia. }
  assert (Hafter : JS.truthy_string
                     (JS.trim (newHabitName (addHabit now s))) = false).
  { unfold addHabit.
    destruct (JS.truthy_string (JS.trim (newHabitName s))) eqn:E;
      [reflexivity|exact E]. }
  split; [|split; [|split]].
  - destruct (JS.truthy_string (JS.trim (newHabitName s))) eqn:E; cbn [negb].
    + split; [discriminate|]. intros H. specialize (Hadd eq_refl).
      rewrite H in Hadd. lia.
    + split; [|reflexivity]. intros _. unfold addHabit. now rewrite E.
  - intros E. apply negb_false_iff in E. now apply Hadd.
  - now rewrite Hafter.
  - unfold addHabit at 1. now rewrite Hafter.
Qed.

(* ================================================================== *)
(** * What every state of the component satisfies *)
(* ================================================================== *)

Lemma toggle_habits now habitId date s :
  habits (toggleHabitCompletion now habitId date s) = habits s.
Proof. unfold toggleHabitCompletion. now destruct (find _ _). Qed.

Lemma toggle_newHabitColor now habitId date s :
  newHabitColor (toggleHabitCompletion now habitId date s) = newHabitColor s.
Proof. unfold toggleHabitCompletion. now destruct (find _ _). Qed.

Lemma In_habits_addHabit now s h :
  In h (habits (addHabit now s)) ->
  In h (habits s)
  \/ (JS.truthy_string (JS.trim (newHabitName s)) = true
      /\ h = Habit.mk (JS.Number_toString now) (JS.trim (newHabitName s))
                      (newHabitColor s) now).
Proof.
  unfold addHabit.
  destruct (JS.truthy_string (JS.trim (newHabitName s))) eqn:E;
    [|now left].
  cbn [habits]. intros H. apply in_app_or in H as [H|[<-|[]]];
    [now left|now right].
Qed.

Lemma newHabitColor_addHabit now s :
  newHabitColor (addHabit now s) = newHabitColor s.
Proof. unfold addHabit. now destruct (JS.truthy_string _). Qed.

Lemma In_habits_deleteHabit habitId s h :
  In h (habits (deleteHabit habitId s)) -> In h (habits s).
Proof. unfold deleteHabit. cbn [habits]. intros H. now apply filter_In in H. Qed.

(** ** Trimmed names *)

Lemma trimStart_head s :
  JS.trimStart s = EmptyString
  \/ exists c t, JS.trimStart s = String c t /\ JS.isWhiteSpace c = false.
Proof.
  induction s as [|c s IH]; [now left|].
  cbn. destruct (JS.isWhiteSpace c) eqn:E; [exact IH|].
  right. now exists c, s.
Qed.

Lemma trimEnd_head c t :
  JS.isWhiteSpace c = false -> exists u, JS.trimEnd (String c t) = String c u.
Proof.
  intros E. cbn. destruct (JS.trimEnd t) as [|c' u].
  - rewrite E. now exists EmptyString.
  - now exists (String c' u).
Qed.

Lemma trimEnd_idempotent s : JS.trimEnd (JS.trimEnd s) = JS.trimEnd s.
Proof.
  induction s as [|c s IH]; [reflexivity|].
  cbn [JS.trimEnd]. destruct (JS.trimEnd s) as [|c' u] eqn:E.
  - destruct (JS.isWhiteSpace c) eqn:W; [reflexivity|].
    cbn. now rewrite W.
  - cbn [JS.trimEnd] in IH |- *. fold (JS.trimEnd (String c' u)).
    now rewrite IH.
Qed.

(** What [trim] returns has no white space left at either end: [trim]
    gives it back as it is. *)
Lemma trim_idempotent s : JS.trim (JS.trim s) = JS.trim s.
Proof.
  unfold JS.trim at 2 3.
  destruct (trimStart_head s) as [E|(c & t & E & W)]; rewrite E.
  - reflexivity.
  - destruct (trimEnd_head c t W) as (u & Eu). rewrite Eu.
    unfold JS.trim. cbn [JS.trimStart]. rewrite W, <- Eu.
    apply trimEnd_idempotent.
Qed.

Lemma truthy_not_empty s : JS.truthy_string s = true <-> s <> EmptyString.
Proof. destruct s; cbn; split; congruence. Qed.

(** X11. The name of every habit of a state that the handlers produce
    is not empty and has no white space at its ends: trimming it gives
    it back. *)
Theorem habit_names_are_trimmed :
  forall s : AppState,
    reachable s ->
    forall h, In h (habits s) ->
      Habit.name h <> EmptyString
      /\ JS.trim (Habit.name h) = Habit.name h
      /\ blank (Habit.name h) = false.
Proof.
  assert (Hinv : forall s, reachable s -> forall h, In h (habits s) ->
            Habit.name h <> EmptyString
            /\ JS.trim (Habit.name h) = Habit.name h).
  { induction 1 as [|s text _ IH|s c _ IH|s now _ IH|s habitId _ IH
                    |s now habitId date _ IH]; intros h Hh.
    - destruct Hh.
    - now apply IH.
    - now apply IH.
    - apply In_habits_addHabit in Hh as [Hh|[Ht ->]]; [now apply IH|].
      cbn [Habit.name]. split; [now apply truthy_not_empty|].
      apply trim_idempotent.
    - apply IH. now apply In_habits_deleteHabit in Hh.
    - apply IH. now rewrite toggle_habits in Hh. }
  intros s Hs h Hh. destruct (Hinv s Hs h Hh) as [Hne Htrim].
  split; [exact Hne|]. split; [exact Htrim|].
  apply not_true_is_false. intros Hb. apply Hne.
  rewrite <- Htrim. now apply trim_empty.
Qed.

Lemma ui_reachable_added : ui_reachable Scene.added.
Proof.
  refine (ui_add _ 1709370000000
            (ui_pick _ "#EF4444" (ui_type _ "  Read " ui_init) _)).
  cbn. tauto.
Qed.

Lemma ui_reachable_checked : ui_reachable Scene.checked.
Proof.
  refine (ui_toggle _ 1709370060000
            (Habit.mk "1709370000000" "Read" "#EF4444" 1709370000000)
            None ui_reachable_added _).
  vm_compute. now left.
Qed.

Lemma ui_reachable_reachable s : ui_reachable s -> reachable s.
Proof. induction 1; now constructor. Qed.

(** X11 at the habit typed as ["  Read "]. *)
Lemma habit_names_are_trimmed_witness :
  Habit.name (Habit.mk "1709370000000" "Read" "#EF4444" 1709370000000)
    <> EmptyString
  /\ JS.trim (Habit.name
                (Habit.mk "1709370000000" "Read" "#EF4444" 1709370000000))
     = Habit.name (Habit.mk "1709370000000" "Read" "#EF4444" 1709370000000)
  /\ blank (Habit.name
              (Habit.mk "1709370000000" "Read" "#EF4444" 1709370000000))
     = false.
Proof.
  apply (habit_names_are_trimmed Scene.checked).
  - apply ui_reachable_reachable. exact ui_reachable_checked.
  - vm_compute. now left.
Defined.

(** X12. The colour of every habit, and the colour of the form, is one
    of the eight of [colorOptions] in every state that the user can
    bring about. *)
Theorem habit_colors_come_from_the_palette :
  forall s : AppState,
    ui_reachable s ->
    In (newHabitColor s) colorOptions
    /\ forall h, In h (habits s) -> In (Habit.color h) colorOptions.
Proof.
  induction 1 as [|s text _ IH|s color _ IH Hcolor|s now _ IH
                  |s habit _ IH Hin|s now habit date _ IH Hin].
  - split; [now left|intros h []].
  - exact IH.
  - split; [exact Hcolor|apply IH].
  - rewrite newHabitColor_addHabit. split; [apply IH|].
    intros h Hh. apply In_habits_addHabit in Hh as [Hh|[_ ->]].
    + now apply IH.
    + cbn [Habit.color]. exact (proj1 IH).
  - split; [apply IH|]. intros h Hh. apply IH.
    now apply In_habits_deleteHabit in Hh.
  - rewrite toggle_newHabitColor, toggle_habits. exact IH.
Qed.

(** X12 at the state with one habit checked off. *)
Lemma habit_colors_witness :
  In (newHabitColor Scene.checked) colorOptions
  /\ forall h, In h (habits Scene.checked) -> In (Habit.color h) colorOptions.
Proof.
  apply (habit_colors_come_from_the_palette Scene.checked).
  exact ui_reachable_checked.
Defined.

(** ** The records of the log *)

Lemma In_completions_toggle now habitId date s c :
  In c (completions (toggleHabitCompletion now habitId date s)) ->
  (exists c0, In c0 (completions s)
              /\ Completion.habitId c = Completion.habitId c0
              /\ Completion.date c = Completion.date c0)
  \/ (Completion.habitId c = habitId
      /\ Completion.date c = DateFns.format_day (toggled_day now date)).
Proof.
  destruct (find (matches habitId (DateFns.format_day (toggled_day now date)))
                 (completions s)) as [c1|] eqn:E.
  - rewrite (toggle_present _ _ _ _ c1 E). cbn [completions].
    intros H. apply in_map_iff in H as (c0 & <- & H0).
    left. exists c0. split; [exact H0|].
    unfold flip_matching. now destruct (matches _ _ c0).
  - rewrite (toggle_absent _ _ _ _ E). cbn [completions].
    intros H. apply in_app_or in H as [H|[<-|[]]].
    + left. now exists c.
    + right. now split.
Qed.

(** X13. In every state that the user can bring about, every record of
    the log belongs to a habit of the list; so [deleteHabit] for an id
    that no habit carries leaves such a state as it is. *)
Theorem no_record_without_its_habit :
  forall s : AppState,
    ui_reachable s ->
    no_orphans s
    /\ forall habitId,
         (forall h, In h (habits s) -> Habit.id h <> habitId) ->
         deleteHabit habitId s = s.
Proof.
  assert (Hinv : forall s, ui_reachable s -> no_orphans s).
  { induction 1 as [|s text _ IH|s color _ IH Hcolor|s now _ IH
                    |s habit _ IH Hin|s now habit date _ IH Hin];
      intros c Hc.
    - destruct Hc.
    - exact (IH c Hc).
    - exact (IH c Hc).
    - rewrite addHabit_completions in Hc.
      destruct (IH c Hc) as (h & Hh & Hid). exists h. split; [|exact Hid].
      unfold addHabit. destruct (JS.truthy_string _); [|exact Hh].
      cbn [habits]. apply in_or_app. now left.
    - unfold deleteHabit in Hc |- *. cbn [habits completions] in Hc |- *.
      apply filter_In in Hc as [Hc Hk].
      destruct (IH c Hc) as (h & Hh & Hid). exists h. split; [|exact Hid].
      apply filter_In. split; [exact Hh|]. now rewrite Hid.
    - rewrite toggle_habits.
      apply In_completions_toggle in Hc as [(c0 & Hc0 & Eh & _)|[Eh _]].
      + destruct (IH c0 Hc0) as (h & Hh & Hid). exists h.
        split; [exact Hh|congruence].
      + exists habit. split; [exact Hin|now symmetry]. }
  intros s Hs. split; [now apply Hinv|].
  intros habitId Hnone. unfold deleteHabit.
  rewrite (filter_all _ (habits s)), (filter_all _ (completions s)).
  - now destruct s.
  - intros c Hc. apply negb_eqb_true.
    destruct (Hinv s Hs c Hc) as (h & Hh & Hid). rewrite <- Hid.
    now apply Hnone.
  - intros h Hh. apply negb_eqb_true. now apply Hnone.
Qed.

(** X13 at the state with one habit checked off. *)
Lemma no_record_without_its_habit_witness :
  no_orphans Scene.checked
  /\ forall habitId,
       (forall h, In h (habits Scene.checked) -> Habit.id h <> habitId) ->
       deleteHabit habitId Scene.checked = Scene.checked.
Proof.
  apply (no_record_without_its_habit Scene.checked).
  exact ui_reachable_checked.
Defined.

(** X14. In every state that the handlers produce, the date of every
    record is the key of a calendar day, and the record is the one that
    [isHabitCompleted] reads for its habit at every instant of that
    day: the log holds no record out of reach. *)
Theorem every_record_is_read :
  forall s : AppState,
    reachable s ->
    forall c, In c (completions s) ->
      exists day,
        Completion.date c = DateFns.format_day day
        /\ forall t, DateFns.localDay t = day ->
             isHabitCompleted s (Completion.habitId c) t
             = JS.Bool (Completion.completed c).
Proof.
  assert (Hinv : forall s, reachable s -> forall c, In c (completions s) ->
            exists day, Completion.date c = DateFns.format_day day).
  { induction 1 as [|s text _ IH|s c0 _ IH|s now _ IH|s habitId _ IH
                    |s now habitId date _ IH]; intros c Hc.
    - destruct Hc.
    - exact (IH c Hc).
    - exact (IH c Hc).
    - rewrite addHabit_completions in Hc. exact (IH c Hc).
    - unfold deleteHabit in Hc. cbn [completions] in Hc.
      apply filter_In in Hc as [Hc _]. exact (IH c Hc).
    - apply In_completions_toggle in Hc as [(c0 & Hc0 & _ & Ed)|[_ Ed]].
      + destruct (IH c0 Hc0) as (day & Hday). exists day. congruence.
      + now exists (toggled_day now date). }
  intros s Hs c Hc. destruct (Hinv s Hs c Hc) as (day & Hday).
  exists day. split; [exact Hday|]. intros t <-.
  rewrite isHabitCompleted_find, <- Hday.
  destruct (find _ (completions s)) as [c'|] eqn:E.
  - apply find_some in E as [Hin Hm]. apply matches_spec in Hm as [Hh Hd].
    assert (c' = c).
    { apply (unique_keys_inj (completions s));
        [now apply reachable_unique_keys|exact Hin|exact Hc|].
      unfold Completion.key. congruence. }
    now subst c'.
  - exfalso. apply (find_none _ _ E) in Hc.
    assert (matches (Completion.habitId c) (Completion.date c) c = true)
      by now apply matches_spec.
    congruence.
Qed.

(** X14 at the record of the habit checked off. *)
Lemma every_record_is_read_witness :
  exists day,
    Completion.date
      (Completion.mk "1709370060000" "1709370000000" "2024-03-02" true)
    = DateFns.format_day day
    /\ forall t, DateFns.localDay t = day ->
         isHabitCompleted Scene.checked
           (Completion.habitId
              (Completion.mk "1709370060000" "1709370000000" "2024-03-02" true))
           t
         = JS.Bool (Completion.completed
              (Completion.mk "1709370060000" "1709370000000" "2024-03-02" true)).
Proof.
  apply (every_record_is_read Scene.checked).
  - apply ui_reachable_reachable. exact ui_reachable_checked.
  - vm_compute. now left.
Defined.

(* ================================================================== *)
(** * The week of the calendar view *)
(* ================================================================== *)

Section Week.
Import DateFns DateFnsWeek.

(** The day on which the week of a date starts. *)
Local Abbreviation monday_of := (fun date => localDay date - (getDay date + 6) mod 7).

Lemma localDay_addDays t n : localDay (addDays t n) = localDay t + n.
Proof. unfold localDay, addDays. now rewrite Z.div_add by discriminate. Qed.

Lemma getDay_bounds t : 0 <= getDay t < 7.
Proof. unfold getDay. apply Z.mod_pos_bound. lia. Qed.

Lemma startOfWeek_monday date :
  startOfWeek 1 date = monday_of date * msPerDay.
Proof.
  unfold startOfWeek. rewrite startOfDay_localDay, localDay_subDays.
  f_equal. pose proof (getDay_bounds date) as Hb.
  destruct (Z.ltb_spec (getDay date) 1) as [H|H].
  - replace (getDay date) with 0 by lia. reflexivity.
  - replace ((getDay date + 6) mod 7) with (getDay date - 1); [lia|].
    replace (getDay date + 6) with (getDay date - 1 + 1 * 7) by lia.
    rewrite Z.mod_add by lia. symmetry. apply Z.mod_small. lia.
Qed.

Lemma endOfWeek_sunday date :
  endOfWeek 1 date = (monday_of date + 6) * msPerDay + (msPerDay - 1).
Proof.
  unfold endOfWeek, endOfDay. rewrite startOfDay_localDay, localDay_addDays.
  f_equal. f_equal. pose proof (getDay_bounds date) as Hb.
  destruct (Z.ltb_spec (getDay date) 1) as [H|H].
  - replace (getDay date) with 0 by lia. cbn. lia.
  - replace ((getDay date + 6) mod 7) with (getDay date - 1); [lia|].
    replace (getDay date + 6) with (getDay date - 1 + 1 * 7) by lia.
    rewrite Z.mod_add by lia. symmetry. apply Z.mod_small. lia.
Qed.

(** The loop of [eachDayOfInterval] from the start of day [a], for an
    interval that ends on the [n]-th day from [a] on: [n] days, and one
    more test of the condition. *)
Lemma eachDay_loop_days n : forall fuel a endTime,
  localDay endTime = a + Z.of_nat n - 1 ->
  (n < fuel)%nat ->
  eachDay_loop fuel (a * msPerDay) endTime
  = Some (map (fun i => (a + Z.of_nat i) * msPerDay) (seq 0 n)).
Proof.
  induction n as [|k IH]; intros fuel a endTime Hend Hfuel;
    (destruct fuel as [|f]; [lia|]); cbn [eachDay_loop].
  - replace (a * msPerDay <=? endTime) with false; [reflexivity|].
    symmetry. apply Z.leb_gt. unfold localDay, msPerDay in *.
    clear - Hend. Z.div_mod_to_equations. lia.
  - replace (a * msPerDay <=? endTime) with true.
    + rewrite startOfDay_localDay, localDay_addDays, localDay_times.
      rewrite (IH f (a + 1) endTime) by lia.
      cbn [option_map seq map]. rewrite <- seq_shift, map_map.
      replace (a + Z.of_nat 0) with a by lia.
      f_equal. f_equal. apply map_ext. intros i. f_equal. lia.
    + symmetry. apply Z.leb_le. unfold localDay, msPerDay in *.
      clear - Hend. Z.div_mod_to_equations. lia.
Qed.

Lemma eachDay_loop_short fuel : forall n a endTime,
  localDay endTime = a + Z.of_nat n - 1 ->
  (fuel <= n)%nat ->
  eachDay_loop fuel (a * msPerDay) endTime = None.
Proof.
  induction fuel as [|f IH]; intros n a endTime Hend Hfuel; [reflexivity|].
  destruct n as [|k]; [lia|]. cbn [eachDay_loop].
  replace (a * msPerDay <=? endTime) with true.
  - rewrite startOfDay_localDay, localDay_addDays, localDay_times.
    now rewrite (IH k (a + 1) endTime) by lia.
  - symmetry. apply Z.leb_le. unfold localDay, msPerDay in *.
    clear - Hend. Z.div_mod_to_equations. lia.
Qed.

Lemma getWeekDays_from_monday date fuel :
  getWeekDays fuel date =
    if (8 <=? fuel)%nat
    then Some (map (fun i => (monday_of date + i) * msPerDay)
                   [0; 1; 2; 3; 4; 5; 6])
    else None.
Proof.
  unfold getWeekDays, eachDayOfInterval.
  rewrite startOfWeek_monday, endOfWeek_sunday.
  replace (_ <=? _) with true
    by (symmetry; apply Z.leb_le; unfold msPerDay; lia).
  rewrite startOfDay_localDay, localDay_times.
  assert (Hend : localDay ((monday_of date + 6) * msPerDay + (msPerDay - 1))
                 = monday_of date + Z.of_nat 7 - 1).
  { unfold localDay, msPerDay. clear. Z.div_mod_to_equations. lia. }
  destruct (Nat.leb_spec 8 fuel) as [H|H].
  - rewrite (eachDay_loop_days 7 fuel _ _ Hend) by lia. reflexivity.
  - apply (eachDay_loop_short fuel 7 _ _ Hend). lia.
Qed.

Lemma getDay_monday date : getDay (monday_of date * msPerDay) = 1.
Proof.
  unfold getDay. rewrite localDay_times. unfold getDay.
  generalize (localDay date). intros l. clear. Z.div_mod_to_equations. lia.
Qed.

Lemma monday_of_subDays date : monday_of (subDays date 7) = monday_of date - 7.
Proof.
  unfold getDay. rewrite localDay_subDays.
  generalize (localDay date). intros l. clear. Z.div_mod_to_equations. lia.
Qed.

End Week.

(** X15. [getWeekDays] returns the starts of seven consecutive days, the
    first one a Monday, and the day of the date is one of them; the loop
    of [eachDayOfInterval] tests its condition eight times. *)
Theorem getWeekDays_monday_to_sunday :
  forall (date : Z) (fuel : nat),
    exists monday : Z,
      DateFnsWeek.getDay (monday * DateFns.msPerDay) = 1
      /\ monday <= DateFns.localDay date <= monday + 6
      /\ getWeekDays fuel date =
           if (8 <=? fuel)%nat
           then Some (map (fun i => (monday + i) * DateFns.msPerDay)
                          [0; 1; 2; 3; 4; 5; 6])
           else None.
Proof.
  intros date fuel.
  exists (DateFns.localDay date - (DateFnsWeek.getDay date + 6) mod 7).
  split; [apply getDay_monday|]. split.
  - pose proof (Z.mod_pos_bound (DateFnsWeek.getDay date + 6) 7 ltac:(lia)).
    lia.
  - apply getWeekDays_from_monday.
Qed.

(** 2024-03-02 was a Saturday; its week starts on Monday 2024-02-26. *)
Example week_of_sample_now :
  option_map (map DateFns.format) (getWeekDays 8 Sample.now)
  = Some [ "2024-02-26"; "2024-02-27"; "2024-02-28"; "2024-02-29";
           "2024-03-01"; "2024-03-02"; "2024-03-03" ]%string.
Proof. vm_compute. reflexivity. Qed.

(** X16. The two buttons of the calendar view undo each other, and the
    week shown after the button for the previous week is the week shown
    before, every day moved back by seven days. *)
Theorem calendar_moves_by_whole_weeks :
  forall (selectedWeek : Z) (fuel : nat),
    nextWeek (previousWeek selectedWeek) = selectedWeek
    /\ previousWeek (nextWeek selectedWeek) = selectedWeek
    /\ getWeekDays fuel (previousWeek selectedWeek)
       = option_map (map (fun day => DateFns.subDays day 7))
                    (getWeekDays fuel selectedWeek)
    /\ getWeekDays fuel (nextWeek (previousWeek selectedWeek))
       = getWeekDays fuel selectedWeek.
Proof.
  intros w fuel.
  assert (E : nextWeek (previousWeek w) = w).
  { unfold nextWeek, previousWeek, DateFnsWeek.addDays, DateFns.subDays. lia. }
  split; [exact E|]. split.
  { unfold nextWeek, previousWeek, DateFnsWeek.addDays, DateFns.subDays. lia. }
  split; [|now rewrite E].
  unfold previousWeek. rewrite !getWeekDays_from_monday, monday_of_subDays.
  destruct (8 <=? fuel)%nat; [|reflexivity].
  cbn [option_map]. rewrite map_map. f_equal. apply map_ext.
  intros i. unfold DateFns.subDays. ring.
Qed.

(* ================================================================== *)
(** * The counter of the today view *)
(* ================================================================== *)

Lemma count_flip_one (hs : list Habit.t) (p p' : Habit.t -> bool)
    (habit : Habit.t) :
  NoDup (map Habit.id hs) -> In habit hs ->
  (forall h, In h hs ->
     p' h = if (Habit.id h =? Habit.id habit)%string then negb (p h) else p h) ->
  Z.of_nat (List.length (filter p' hs))
  = Z.of_nat (List.length (filter p hs)) + (if p habit then -1 else 1).
Proof.
  induction hs as [|a l IH]; intros Hnd Hin Hp; [destruct Hin|].
  cbn [map] in Hnd. inversion Hnd as [|? ? Hnotin Hnd']; subst.
  destruct Hin as [->|Hin].
  - assert (E : filter p' l = filter p l).
    { apply filter_ext_in. intros h Hh. rewrite (Hp h (or_intror Hh)).
      destruct (Habit.id h =? Habit.id habit)%string eqn:Eid; [|reflexivity].
      exfalso. apply Hnotin. apply String.eqb_eq in Eid. rewrite <- Eid.
      now apply in_map. }
    cbn [filter]. rewrite (Hp habit (or_introl eq_refl)), String.eqb_refl, E.
    destruct (p habit); cbn [negb List.length]; lia.
  - assert (Ea : p' a = p a).
    { rewrite (Hp a (or_introl eq_refl)).
      destruct (Habit.id a =? Habit.id habit)%string eqn:Eid; [|reflexivity].
      exfalso. apply Hnotin. apply String.eqb_eq in Eid. rewrite Eid.
      now apply in_map. }
    cbn [filter]. rewrite Ea.
    specialize (IH Hnd' Hin (fun h Hh => Hp h (or_intror Hh))).
    destruct (p a); cbn [List.length]; lia.
Qed.

(** X17. With habits of distinct ids, checking a habit of the list off
    today moves the counter of the today view up by one, and taking the
    mark back moves it down by one; the counter never exceeds the
    number of habits. *)
Theorem completedToday_moves_by_one :
  forall (now : Z) (s : AppState) (habit : Habit.t),
    NoDup (map Habit.id (habits s)) ->
    In habit (habits s) ->
    let s' := toggleHabitCompletion now (Habit.id habit) None s in
    Z.of_nat (completedToday now s')
    = Z.of_nat (completedToday now s)
      + (if observed s (Habit.id habit) now then -1 else 1)
    /\ (completedToday now s' <= List.length (habits s'))%nat.
Proof.
  intros now s habit Hnd Hin s'. split.
  - unfold completedToday, s'. rewrite toggle_habits.
    apply (count_flip_one (habits s)
             (fun h => JS.ToBoolean (isHabitCompleted s (Habit.id h) now))
             (fun h => JS.ToBoolean
                (isHabitCompleted
                   (toggleHabitCompletion now (Habit.id habit) None s)
                   (Habit.id h) now)));
      [exact Hnd|exact Hin|].
    intros h _. fold (observed s (Habit.id h) now).
    fold (observed (toggleHabitCompletion now (Habit.id habit) None s)
            (Habit.id h) now).
    rewrite !observed_marked, marked_toggle.
    unfold toggled_day, toggled_date.
    rewrite (String.eqb_refl (DateFns.format_day (DateFns.localDay now))).
    now rewrite andb_true_r.
  - unfold completedToday. apply filter_length_le.
Qed.

(** X17 at [read], not yet checked off on the fifth day of [run]. *)
Lemma completedToday_witness :
  let s := Sample.state Sample.five_days in
  let s' := toggleHabitCompletion Sample.now (Habit.id Sample.read) None s in
  Z.of_nat (completedToday Sample.now s')
  = Z.of_nat (completedToday Sample.now s)
    + (if observed s (Habit.id Sample.read) Sample.now then -1 else 1)
  /\ (completedToday Sample.now s' <= List.length (habits s'))%nat.
Proof.
  apply (completedToday_moves_by_one Sample.now
           (Sample.state Sample.five_days) Sample.read).
  - vm_compute. repeat constructor.
    + intros [H|[]]. discriminate H.
    + intros [].
  - vm_compute. right. now left.
Defined.

Example completedToday_two_of_two :
  completedToday Sample.now (Sample.state Sample.five_days) = 1%nat
  /\ completedToday Sample.now
       (toggleHabitCompletion Sample.now "1708992000555" None
          (Sample.state Sample.five_days)) = 2%nat.
Proof. vm_compute. split; reflexivity. Qed.

(* ================================================================== *)
(** * The range of the completion rate *)
(* ================================================================== *)

Lemma getCompletionRate_counts now s habit :
  getCompletionRate now s habit
  = rate_of (Z.of_nat (totalCompletions s habit))
            (JS.Math_max 1 (DateFns.differenceInDays now
                              (Habit.createdAt habit) + 1)).
Proof. reflexivity. Qed.

(** The percentage that [rate_of] gives, between bounds. *)
Lemma rate_of_bounds c d :
  0 <= c < 2 ^ 32 -> 1 <= d < 2 ^ 32 ->
  exists k, rate_of c d = JS.Number_of_Z k
            /\ 0 <= k
            /\ (c = 0 -> k = 0)
            /\ (c = d -> k = 100)
            /\ (c <= d -> k <= 100)
            /\ (c <= d + 1 -> k <= 200).
Proof.
  intros Hc Hd.
  assert (Hc0 : 0 <= c) by lia. assert (Hd1 : 1 <= d) by lia.
  pose proof (halfway_spec c d Hc0 Hd1) as Hhalf.
  set (P := spec_round_percent c d) in *.
  assert (HP0 : 0 <= P).
  { unfold P, spec_round_percent. apply Z.div_pos; lia. }
  assert (H100 : c <= d -> P <= 100).
  { intros H. unfold P, spec_round_percent.
    apply Z.lt_succ_r. apply Z.div_lt_upper_bound; lia. }
  assert (H200 : c <= d + 1 -> P <= 200).
  { intros H. unfold P, spec_round_percent.
    apply Z.lt_succ_r. apply Z.div_lt_upper_bound; lia. }
  assert (Hzero : c = 0 -> P = 0).
  { intros ->. unfold P, spec_round_percent. apply Z.div_small. lia. }
  assert (Hfull : c = d -> P = 100).
  { intros ->. unfold P, spec_round_percent.
    apply Z.le_antisymm; [apply H100; lia|].
    apply Z.div_le_lower_bound; lia. }
  destruct (rate_of_nearest c d Hc Hd) as [E|[Hh E]]; fold P in E.
  - exists P. repeat split; assumption.
  - apply Hhalf in Hh.
    assert (HP1 : 1 <= P).
    { destruct (Z.eq_dec P 0) as [E0|]; [|lia].
      rewrite E0 in Hh. lia. }
    exists (P - 1). split; [exact E|]. split; [lia|].
    split; [|split; [|split]].
    + intros E0. specialize (Hzero E0). lia.
    + intros Ecd. specialize (Hfull Ecd). subst c. rewrite Hfull in Hh. lia.
    + intros H. specialize (H100 H). lia.
    + intros H. specialize (H200 H). lia.
Qed.

(** X18. For counts below 2^32 the completion rate is a whole number
    that is not negative; it is 0 without a completed record, 100 when
    there are as many completed records as days elapsed, and at most 100
    when there are no more completed records than days elapsed. *)
Theorem completion_rate_range :
  forall (now : Z) (s : AppState) (habit : Habit.t),
    let daysElapsed :=
      JS.Math_max 1 (DateFns.differenceInDays now (Habit.createdAt habit) + 1) in
    let completedDays := Z.of_nat (totalCompletions s habit) in
    completedDays < 2 ^ 32 -> daysElapsed < 2 ^ 32 ->
    exists k : Z,
      getCompletionRate now s habit = JS.Number_of_Z k
      /\ 0 <= k
      /\ (completedDays = 0 -> k = 0)
      /\ (completedDays = daysElapsed -> k = 100)
      /\ (completedDays <= daysElapsed -> k <= 100).
Proof.
  intros now s habit daysElapsed completedDays Hc Hd.
  rewrite getCompletionRate_counts. fold daysElapsed completedDays.
  destruct (rate_of_bounds completedDays daysElapsed) as (k & E & H).
  - split; [apply Nat2Z.is_nonneg|exact Hc].
  - split; [apply Z.le_max_l|exact Hd].
  - exists k. split; [exact E|]. tauto.
Qed.

(** X18 on day 40 of [walk], with 23 completed days. *)
Lemma completion_rate_range_witness :
  let daysElapsed :=
    JS.Math_max 1 (DateFns.differenceInDays Sample.now
                     (Habit.createdAt Sample.walk) + 1) in
  let completedDays := Z.of_nat (totalCompletions Sample.walk_state Sample.walk) in
  exists k : Z,
    getCompletionRate Sample.now Sample.walk_state Sample.walk
    = JS.Number_of_Z k
    /\ 0 <= k
    /\ (completedDays = 0 -> k = 0)
    /\ (completedDays = daysElapsed -> k = 100)
    /\ (completedDays <= daysElapsed -> k <= 100).
Proof.
  apply (completion_rate_range Sample.now Sample.walk_state Sample.walk).
  - vm_compute. reflexivity.
  - vm_compute. reflexivity.
Defined.

(** The dates of records of one habit are distinct when the keys are. *)
Lemma NoDup_dates_of_one_habit habitId (l : list Completion.t) :
  NoDup (map Completion.key l) ->
  (forall c, In c l -> Completion.habitId c = habitId) ->
  NoDup (map Completion.date l).
Proof.
  induction l as [|a l IH]; cbn [map]; intros Hnd Hh; [constructor|].
  inversion Hnd as [|? ? Hnotin Hnd']; subst.
  constructor.
  - intros Hin. apply Hnotin. apply in_map_iff in Hin as (c & Ed & Hc).
    apply in_map_iff. exists c. split; [|exact Hc].
    unfold Completion.key. rewrite Ed.
    now rewrite (Hh c (or_intror Hc)), (Hh a (or_introl eq_refl)).
  - apply IH; [exact Hnd'|]. intros c Hc. apply Hh. now right.
Qed.

(** Distinct keys of days between [lo] and [hi] are no more than those
    days. *)
Lemma days_between_length (dates : list string) lo hi :
  NoDup dates ->
  (forall k, In k dates ->
     exists day, k = DateFns.format_day day /\ lo <= day <= hi) ->
  Z.of_nat (List.length dates) <= Z.max 0 (hi - lo + 1).
Proof.
  intros Hnd Hin.
  set (n := Z.to_nat (hi - lo + 1)).
  set (keys := map (fun i => DateFns.format_day (lo + Z.of_nat i)) (seq 0 n)).
  assert (Hincl : incl dates keys).
  { intros k Hk. destruct (Hin k Hk) as (day & -> & Hday).
    apply in_map_iff. exists (Z.to_nat (day - lo)). split.
    - f_equal. lia.
    - apply in_seq. unfold n. lia. }
  apply NoDup_incl_length in Hincl; [|exact Hnd].
  unfold keys in Hincl. rewrite length_map, length_seq in Hincl.
  unfold n in Hincl. lia.
Qed.

(** X19. When the log has one record per habit and day at most and the
    completed records of a habit lie on days from the day of its
    creation up to today, the completed records are at most one more
    than the days elapsed, which count full spans of 24 hours; the rate
    is then at most 200, and not always at most 100. *)
Theorem completion_rate_at_most_200 :
  forall (now : Z) (s : AppState) (habit : Habit.t),
    let daysElapsed :=
      JS.Math_max 1 (DateFns.differenceInDays now (Habit.createdAt habit) + 1) in
    let completedDays := Z.of_nat (totalCompletions s habit) in
    unique_keys (completions s) ->
    Habit.createdAt habit <= now ->
    within_life now habit (completions s) ->
    daysElapsed < 2 ^ 32 - 1 ->
    completedDays <= daysElapsed + 1
    /\ exists k : Z,
         getCompletionRate now s habit = JS.Number_of_Z k /\ 0 <= k <= 200.
Proof.
  intros now s habit daysElapsed completedDays Hu Hcreated Hlife Hd.
  assert (Hcount : completedDays <= daysElapsed + 1).
  { unfold completedDays, totalCompletions.
    set (done := filter (fun c => (Completion.habitId c =? Habit.id habit)%string
                                  && Completion.completed c) (completions s)).
    assert (Hdone : forall c, In c done ->
              In c (completions s) /\ Completion.habitId c = Habit.id habit
              /\ Completion.completed c = true).
    { intros c Hc. apply filter_In in Hc as [Hc Hp].
      apply andb_prop in Hp as [Hh Hp]. apply String.eqb_eq in Hh.
      now repeat split. }
    assert (Hnd : NoDup (map Completion.date done)).
    { apply (NoDup_dates_of_one_habit (Habit.id habit)).
      - apply (unique_keys_filter _ _ Hu).
      - intros c Hc. now apply Hdone. }
    pose proof (days_between_length (map Completion.date done)
                  (DateFns.localDay (Habit.createdAt habit))
                  (DateFns.localDay now) Hnd) as Hlen.
    rewrite length_map in Hlen.
    assert (Hin : forall k, In k (map Completion.date done) ->
              exists day, k = DateFns.format_day day
                /\ DateFns.localDay (Habit.createdAt habit) <= day
                   <= DateFns.localDay now).
    { intros k Hk. apply in_map_iff in Hk as (c & <- & Hc).
      destruct (Hdone c Hc) as (Hc' & Hh & Hp).
      exact (Hlife c Hc' Hh Hp). }
    specialize (Hlen Hin).
    assert (Hspan : DateFns.localDay now
                    - DateFns.localDay (Habit.createdAt habit) + 1
                    <= daysElapsed + 1).
    { unfold daysElapsed, JS.Math_max, DateFns.differenceInDays.
      rewrite Z.quot_div_nonneg by (unfold DateFns.msPerDay; lia).
      unfold DateFns.localDay, DateFns.msPerDay.
      clear - Hcreated. Z.div_mod_to_equations. lia. }
    assert (0 < daysElapsed) by (unfold daysElapsed, JS.Math_max; lia).
    lia. }
  split; [exact Hcount|].
  rewrite getCompletionRate_counts. fold daysElapsed completedDays.
  destruct (rate_of_bounds completedDays daysElapsed) as (k & E & H).
  - split; [apply Nat2Z.is_nonneg|lia].
  - split; [apply Z.le_max_l|lia].
  - exists k. split; [exact E|]. split; [tauto|]. now apply H.
Qed.

Lemma ui_reachable_late_state : ui_reachable Scene.late_state.
Proof.
  refine (ui_toggle _ _ Scene.late None
            (ui_toggle _ _ Scene.late None
               (ui_add _ 1709334000000
                  (ui_pick _ "#10B981" (ui_type _ "Stretch" ui_init) _)) _) _).
  - cbn. tauto.
  - vm_compute. now left.
  - vm_compute. now left.
Qed.

(** X19 at a habit added at 23:00 and checked off that evening and at
    01:00 of the next day: two completed days, one day elapsed. *)
Lemma completion_rate_at_most_200_witness :
  let now := 19784 * DateFns.msPerDay + 3600000 in
  let daysElapsed :=
    JS.Math_max 1 (DateFns.differenceInDays now
                     (Habit.createdAt Scene.late) + 1) in
  let completedDays := Z.of_nat (totalCompletions Scene.late_state Scene.late) in
  completedDays <= daysElapsed + 1
  /\ exists k : Z,
       getCompletionRate now Scene.late_state Scene.late = JS.Number_of_Z k
       /\ 0 <= k <= 200.
Proof.
  apply (completion_rate_at_most_200 (19784 * DateFns.msPerDay + 3600000)
           Scene.late_state Scene.late).
  - apply unique_keysb_true. vm_compute. reflexivity.
  - vm_compute. discriminate.
  - intros c Hc _ _. vm_compute in Hc.
    destruct Hc as [<-|[<-|[]]].
    + exists 19783. vm_compute. repeat split; discriminate.
    + exists 19784. vm_compute. repeat split; discriminate.
  - vm_compute. reflexivity.
Defined.

Example rate_of_two_days_in_one :
  getCompletionRate (19784 * DateFns.msPerDay + 3600000)
    Scene.late_state Scene.late
  = JS.Number_of_Z 200.
Proof. vm_compute. reflexivity. Qed.

(* ================================================================== *)
(** * The cells of the calendar view *)
(* ================================================================== *)

(** The days of a week, as [getWeekDays] returns them. *)
Lemma getWeekDays_days fuel selectedWeek days :
  getWeekDays fuel selectedWeek = Some days ->
  exists monday,
    monday <= DateFns.localDay selectedWeek <= monday + 6
    /\ days = map (fun i => (monday + i) * DateFns.msPerDay)
                  [0; 1; 2; 3; 4; 5; 6].
Proof.
  intros H. rewrite getWeekDays_from_monday in H.
  destruct (8 <=? fuel)%nat; [|discriminate]. injection H as <-.
  eexists. split; [|reflexivity].
  pose proof (Z.mod_pos_bound (DateFnsWeek.getDay selectedWeek + 6) 7
                ltac:(lia)).
  lia.
Qed.

Lemma In_week_day monday day :
  In day (map (fun i => (monday + i) * DateFns.msPerDay) [0; 1; 2; 3; 4; 5; 6]) ->
  day = DateFns.localDay day * DateFns.msPerDay
  /\ monday <= DateFns.localDay day <= monday + 6.
Proof.
  intros H. apply in_map_iff in H as (i & <- & Hi).
  rewrite localDay_times. split; [reflexivity|].
  cbn in Hi. lia.
Qed.

(** X20. In the grid of the calendar view, a click on the cell of a
    habit and one of the seven days of [getWeekDays] negates what
    [isHabitCompleted] shows in that cell and changes no other cell of
    the habit in that week. *)
Theorem calendar_cells_are_independent :
  forall (fuel : nat) (selectedWeek now : Z) (days : list Z)
         (habitId : string) (s : AppState) (day day' : Z),
    getWeekDays fuel selectedWeek = Some days ->
    In day days -> In day' days ->
    observed (toggleHabitCompletion now habitId (Some day) s) habitId day'
    = if day' =? day then negb (observed s habitId day')
      else observed s habitId day'.
Proof.
  intros fuel w now days habitId s day day' Hweek Hday Hday'.
  apply getWeekDays_days in Hweek as (monday & _ & ->).
  apply In_week_day in Hday as [Ed Hday].
  apply In_week_day in Hday' as [Ed' Hday'].
  rewrite !observed_marked, marked_toggle_day, String.eqb_refl
    by (right; unfold toggled_day, toggled_date; lia).
  unfold toggled_day, toggled_date. cbn [andb].
  replace (day' =? day)
    with (DateFns.localDay day' =? DateFns.localDay day); [reflexivity|].
  destruct (Z.eqb_spec (DateFns.localDay day') (DateFns.localDay day))
    as [E|E]; symmetry.
  - apply Z.eqb_eq. rewrite Ed, Ed', E. reflexivity.
  - apply Z.eqb_neq. intros ->. now apply E.
Qed.

(** X20 at the Friday and the Saturday of the week of 2024-03-02. *)
Lemma calendar_cells_witness :
  observed
    (toggleHabitCompletion Sample.now "1708992000000"
       (Some (19783 * DateFns.msPerDay)) (Sample.state Sample.five_days))
    "1708992000000" (19784 * DateFns.msPerDay)
  = if 19784 * DateFns.msPerDay =? 19783 * DateFns.msPerDay
    then negb (observed (Sample.state Sample.five_days) "1708992000000"
                 (19784 * DateFns.msPerDay))
    else observed (Sample.state Sample.five_days) "1708992000000"
           (19784 * DateFns.msPerDay).
Proof.
  apply (calendar_cells_are_independent 8 Sample.now Sample.now
           (map (fun i => (19779 + i) * DateFns.msPerDay) [0; 1; 2; 3; 4; 5; 6])
           "1708992000000" (Sample.state Sample.five_days)
           (19783 * DateFns.msPerDay) (19784 * DateFns.msPerDay)).
  - vm_compute. reflexivity.
  - vm_compute. tauto.
  - vm_compute. tauto.
Defined.



(* ================================================================== *)
(** * The total of the stats view under a toggle *)
(* ================================================================== *)

Lemma completedDays_app h cs r :
  spec_completedDays h (cs ++ [r])
  = spec_completedDays h cs
    + (if (Completion.habitId r =? h)%string
       then if Completion.completed r then 1 else 0 else 0).
Proof.
  induction cs as [|c cs IH]; cbn [List.app spec_completedDays].
  - apply Z.add_comm.
  - rewrite IH. apply Z.add_assoc.
Qed.

Lemma completedDays_flip_matching h habitId dateKey cs :
  unique_keys cs ->
  forall c, find (matches habitId dateKey) cs = Some c ->
  spec_completedDays h (map (flip_matching habitId dateKey) cs)
  = spec_completedDays h cs
    + (if (habitId =? h)%string
       then if Completion.completed c then -1 else 1 else 0).
Proof.
  unfold unique_keys. induction cs as [|a l IH]; intros Hnd c Hfind;
    [discriminate|].
  cbn [map] in Hnd. inversion Hnd as [|? ? Hnotin Hnd']; subst.
  cbn [find] in Hfind. cbn [map spec_completedDays].
  destruct (matches habitId dateKey a) eqn:Ea.
  - injection Hfind as <-.
    assert (Hrest : find (matches habitId dateKey) l = None).
    { destruct (find (matches habitId dateKey) l) as [x|] eqn:Ex;
        [|reflexivity].
      exfalso. apply Hnotin. apply find_some in Ex as [Hx Hm].
      apply matches_spec in Hm as [Hh Hd].
      apply matches_spec in Ea as [Hh' Hd'].
      apply in_map_iff. exists x. split; [|exact Hx].
      unfold Completion.key. congruence. }
    rewrite (map_flip_matching_absent _ _ _ Hrest).
    unfold flip_matching. rewrite Ea.
    apply matches_spec in Ea as [Hh _].
    cbn [Completion.flip Completion.habitId Completion.completed].
    rewrite Hh.
    destruct (habitId =? h)%string, (Completion.completed a);
      cbn [negb]; lia.
  - rewrite (IH Hnd' c Hfind). unfold flip_matching. rewrite Ea.
    apply Z.add_assoc.
Qed.

(** X22. On a log with at most one record per habit and day,
    [toggleHabitCompletion] moves the total of the stats view of the
    habit by one, up when the day was not completed and down when it
    was, and leaves the total of every other habit as it is. *)
Theorem toggle_moves_the_total_by_one :
  forall (now : Z) (habitId : string) (date : option Z) (s : AppState)
         (habit : Habit.t),
    unique_keys (completions s) ->
    let s' := toggleHabitCompletion now habitId date s in
    Z.of_nat (totalCompletions s' habit)
    = Z.of_nat (totalCompletions s habit)
      + (if (habitId =? Habit.id habit)%string
         then if observed s habitId (toggled_date now date) then -1 else 1
         else 0).
Proof.
  intros now habitId date s habit Hu s'. unfold totalCompletions.
  rewrite !completedDays_length. unfold observed.
  rewrite isHabitCompleted_find. fold (toggled_day now date). unfold s'.
  destruct (find (matches habitId (DateFns.format_day (toggled_day now date)))
                 (completions s)) as [c|] eqn:E.
  - rewrite (toggle_present _ _ _ _ c E). cbn [completions].
    now rewrite (completedDays_flip_matching _ _ _ _ Hu c E).
  - rewrite (toggle_absent _ _ _ _ E). cbn [completions].
    now rewrite completedDays_app.
Qed.

(** X22 at the mark of today taken back from the five days of [run]. *)
Lemma toggle_moves_the_total_witness :
  let s := Sample.state Sample.five_days in
  let s' := toggleHabitCompletion Sample.now "1708992000000" None s in
  Z.of_nat (totalCompletions s' Sample.run)
  = Z.of_nat (totalCompletions s Sample.run)
    + (if ("1708992000000" =? Habit.id Sample.run)%string
       then if observed s "1708992000000" (toggled_date Sample.now None)
            then -1 else 1
       else 0).
Proof.
  apply (toggle_moves_the_total_by_one Sample.now "1708992000000" None
           (Sample.state Sample.five_days) Sample.run).
  apply unique_keysb_true. vm_compute. reflexivity.
Defined.

(** Without the invariant the total can move by more: both records of
    today are negated. *)
Example toggle_doubled_total :
  totalCompletions (Sample.state Sample.doubled) Sample.run = 1%nat
  /\ totalCompletions
       (toggleHabitCompletion Sample.now "1708992000000" None
          (Sample.state Sample.doubled)) Sample.run = 1%nat
  /\ observed (Sample.state Sample.doubled) "1708992000000" Sample.now = false.
Proof. vm_compute. repeat split. Qed.

(* ================================================================== *)
(** * A day taken out of the streak *)
(* ================================================================== *)

(** Whatever the fuel, a streak that the walk returns is the one of the
    specification. *)
Lemma calculateStreak_Some fuel now habit cs n :
  calculateStreak fuel now habit cs = Some n ->
  streak_spec (fun d => marked cs (Habit.id habit) d = true)
              (DateFns.localDay now) n.
Proof.
  intros H.
  destruct (calculateStreak_marked now habit cs)
    as (m & turns & _ & _ & _ & Hspec & Hsome & Hnone).
  destruct (Nat.le_gt_cases turns fuel) as [Hle|Hgt].
  - rewrite (Hsome fuel Hle) in H. injection H as <-. exact Hspec.
  - rewrite (Hnone fuel Hgt) in H. discriminate.
Qed.

(** X23. Breaking the chain: when today lies more days after
    0001-01-01 than the log has records and the mark of a day of the
    streak other than today is taken back in the calendar view, the
    streak is the number of its days after that day. *)
Theorem unchecking_a_day_cuts_the_streak :
  forall (now : Z) (habit : Habit.t) (s : AppState) (fuel n j : nat),
    since_year_one now (List.length (completions s)) ->
    calculateStreak fuel now habit (completions s) = Some n ->
    let first := if observed s (Habit.id habit) now then 0%nat else 1%nat in
    (1 <= j)%nat -> (first <= j < first + n)%nat ->
    let s' := toggleHabitCompletion now (Habit.id habit)
                (Some (DateFns.subDays now (Z.of_nat j))) s in
    forall fuel', (j + 1 <= fuel')%nat ->
      calculateStreak fuel' now habit (completions s') = Some (j - first)%nat.
Proof.
  intros now habit s fuel n j Hera Hstreak first Hj1 Hj s' fuel' Hfuel.
  apply calculateStreak_Some in Hstreak.
  unfold since_year_one in Hera.
  assert (Hn : (n <= List.length (completions s))%nat).
  { destruct Hstreak as [[_ Hrun]|[_ Hrun]].
    - destruct (run_exists_era habit (completions s) (DateFns.localDay now)
                  ltac:(lia)) as (m & Hm & Hrun').
      now rewrite (consecutive_run_unique _ _ _ _ Hrun Hrun').
    - destruct (run_exists_era habit (completions s)
                  (DateFns.localDay now - 1) ltac:(lia)) as (m & Hm & Hrun').
      now rewrite (consecutive_run_unique _ _ _ _ Hrun Hrun'). }
  assert (Hfirst : (first <= 1)%nat) by (unfold first; destruct (observed _ _ _); lia).
  assert (Hmark : forall d, DateFns.year_one <= d ->
    marked (completions s') (Habit.id habit) d =
      if d =? DateFns.localDay now - Z.of_nat j
      then negb (marked (completions s) (Habit.id habit) d)
      else marked (completions s) (Habit.id habit) d).
  { intros d Hd. unfold s'. rewrite marked_toggle_day, String.eqb_refl.
    - unfold toggled_day, toggled_date. now rewrite localDay_subDays.
    - left. unfold toggled_day, toggled_date. rewrite localDay_subDays. lia. }
  assert (Hother : forall d, DateFns.year_one <= d ->
    d <> DateFns.localDay now - Z.of_nat j ->
    marked (completions s') (Habit.id habit) d
    = marked (completions s) (Habit.id habit) d).
  { intros d Hera' Hd. rewrite Hmark by exact Hera'.
    now replace (d =? DateFns.localDay now - Z.of_nat j) with false
      by (symmetry; apply Z.eqb_neq; exact Hd). }
  unfold first in *. rewrite observed_marked in *.
  destruct Hstreak as [[Ht [Hrun _]]|[Ht [Hrun _]]].
  - rewrite Ht in *. rewrite Nat.sub_0_r.
    replace fuel' with (S (j + (fuel' - j - 1)))%nat by lia.
    apply calculateStreak_from_today.
    + rewrite Hother by lia. exact Ht.
    + split.
      * intros i Hi. rewrite Hother by lia. apply Hrun. lia.
      * rewrite Hmark, Z.eqb_refl by lia. rewrite Hrun by lia. discriminate.
  - apply not_true_is_false in Ht. rewrite Ht in *.
    replace fuel' with (S (S (j - 1 + (fuel' - j - 1))))%nat by lia.
    apply calculateStreak_from_yesterday.
    + rewrite Hother by lia. exact Ht.
    + split.
      * intros i Hi. rewrite Hother by lia. apply Hrun. lia.
      * replace (DateFns.localDay now - 1 - Z.of_nat (j - 1))
          with (DateFns.localDay now - Z.of_nat j) by lia.
        rewrite Hmark, Z.eqb_refl by lia.
        replace (DateFns.localDay now - Z.of_nat j)
          with (DateFns.localDay now - 1 - Z.of_nat (j - 1)) by lia.
        rewrite Hrun by lia. discriminate.
Qed.

(** X23 on the five days of [run], with the mark of two days ago taken
    back. *)
Lemma unchecking_a_day_witness :
  calculateStreak 3 Sample.now Sample.run
    (completions
       (toggleHabitCompletion Sample.now (Habit.id Sample.run)
          (Some (DateFns.subDays Sample.now (Z.of_nat 2)))
          (Sample.state Sample.five_days)))
  = Some (2 - (if observed (Sample.state Sample.five_days)
                    (Habit.id Sample.run) Sample.now
               then 0 else 1))%nat.
Proof.
  apply (unchecking_a_day_cuts_the_streak Sample.now Sample.run
           (Sample.state Sample.five_days) 7 5 2).
  - vm_compute. discriminate.
  - vm_compute. reflexivity.
  - lia.
  - vm_compute. lia.
  - lia.
Defined.

(** Across the start of the era a mark taken back takes another day with
    it: from the streak of 671, the mark of the last day before the
    era is the mark of today. *)
Example streak_cut_across_year_one :
  let habit := Habit.mk "h" "Run" "#3B82F6" 0 in
  let s := mkState [habit] (Sample.records "h" DateFns.year_one 365) "" "#3B82F6" in
  let now := (DateFns.year_one + 364) * DateFns.msPerDay in
  calculateStreak 672 now habit
    (completions
       (toggleHabitCompletion now "h" (Some (DateFns.subDays now 365)) s))
  = Some 364%nat.
Proof. vm_compute. reflexivity. Qed.

Example streak_cut_at_the_third_day :
  calculateStreak 3 Sample.now Sample.run
    (completions
       (toggleHabitCompletion Sample.now "1708992000000"
          (Some (DateFns.subDays Sample.now 2))
          (Sample.state Sample.five_days)))
  = Some 2%nat.
Proof. vm_compute. reflexivity. Qed.
